(** * Chat request lifecycle: the chat route, the chat-history route and the
      client-side history merge.

    The three TypeScript units embedded here are

    - [src/app/api/chat/route.ts]          (module [ChatRoute], handler [POST]);
    - [src/app/api/chat-history/route.ts]  (module [ChatHistoryRoute], handler [GET]);
    - [src/app/chatbot/page.tsx]           (module [ChatbotPage], the state update
                                            inside [fetchChatHistory]).

    The external collaborators (auth provider, request body parser, language
    model client, persistence store, [Date]) are not part of the repository;
    every call to one of them is answered by an oracle that the handler
    receives as an argument, and every insert the handler attempts is
    recorded in a log. *)

From Stdlib Require Import List NArith ZArith String Ascii Bool Lia.
From Stdlib Require Import Permutation Sorted.
From Stdlib Require Import DecimalString.
Import ListNotations.

Local Open Scope N_scope.

(* ================================================================== *)
(** ** JavaScript strings and values *)
(* ================================================================== *)

Module Js.

(** A JavaScript string is a sequence of UTF-16 code units; [length],
    [substring] and [trim] all work on code units. *)
Definition code_unit := N.
Definition jsstring := list code_unit.

(** An ASCII literal of the source, as a JavaScript string. *)
Definition lit (s : string) : jsstring :=
  map (fun c => N.of_nat (nat_of_ascii c)) (list_ascii_of_string s).

(** The escape [\n] of the source literals. *)
Definition LF : jsstring := [10].

(** [s.length] *)
Definition str_length (s : jsstring) : N := N.of_nat (List.length s).

(** [s.substring(0, n)] for a non-negative [n]. *)
Definition substring0 (s : jsstring) (n : N) : jsstring :=
  firstn (N.to_nat n) s.

Fixpoint str_eqb (s t : jsstring) : bool :=
  match s, t with
  | [], [] => true
  | c :: s', d :: t' => N.eqb c d && str_eqb s' t'
  | _, _ => false
  end.

(** ECMAScript WhiteSpace and LineTerminator code units, the ones [trim]
    strips. *)
Definition is_white_space (c : code_unit) : bool :=
  (9 <=? c) && (c <=? 13)
  || (c =? 32) || (c =? 160) || (c =? 5760)
  || (8192 <=? c) && (c <=? 8202)
  || (c =? 8232) || (c =? 8233) || (c =? 8239) || (c =? 8287)
  || (c =? 12288) || (c =? 65279).

Fixpoint trimStart (s : jsstring) : jsstring :=
  match s with
  | c :: s' => if is_white_space c then trimStart s' else s
  | [] => []
  end.

Fixpoint trimEnd (s : jsstring) : jsstring :=
  match s with
  | c :: s' =>
      match trimEnd s' with
      | [] => if is_white_space c then [] else [c]
      | kept => c :: kept
      end
  | [] => []
  end.

(** [s.trim()] *)
Definition trim (s : jsstring) : jsstring := trimEnd (trimStart s).

Fixpoint startsWith (s prefix : jsstring) {struct prefix} : bool :=
  match prefix, s with
  | [], _ => true
  | p :: prefix', c :: s' => N.eqb p c && startsWith s' prefix'
  | _ :: _, [] => false
  end.

(** [s.includes(needle)] *)
Fixpoint includes (s needle : jsstring) : bool :=
  startsWith s needle
  || match s with
     | [] => false
     | _ :: s' => includes s' needle
     end.

(** The values a parsed JSON body and the handler's untyped locals range
    over.  A number is carried as an integer: the handlers only ever test a
    number for truthiness. *)
#[local] Unset Elimination Schemes.
Inductive value : Type :=
| Undefined
| Null
| Bool (b : bool)
| Num (n : Z)
| Str (s : jsstring)
| Arr (items : list value)
| Obj (props : list (jsstring * value)).
#[local] Set Elimination Schemes.

(** ToBoolean *)
Definition truthy (v : value) : bool :=
  match v with
  | Undefined | Null => false
  | Bool b => b
  | Num n => negb (Z.eqb n 0)
  | Str s => negb (str_eqb s [])
  | Arr _ | Obj _ => true
  end.

(** [typeof v === 'string'] *)
Definition is_string (v : value) : bool :=
  match v with Str _ => true | _ => false end.

(** [a && b], for operands without effects. *)
Definition logical_and (a b : value) : value := if truthy a then b else a.

(** [a || b], for operands without effects. *)
Definition logical_or (a b : value) : value := if truthy a then a else b.

Fixpoint own_property (k : jsstring) (props : list (jsstring * value)) : option value :=
  match props with
  | [] => None
  | (k', v) :: rest =>
      match own_property k rest with
      | Some v' => Some v'            (* a later duplicate key wins *)
      | None => if str_eqb k k' then Some v else None
      end
  end.

(** [v.k] on a parsed JSON value other than [null]: own properties of an
    object, [undefined] on everything else ([query] and [pdfText] are not
    properties of strings, numbers, booleans or arrays). *)
Definition prop (v : value) (k : jsstring) : value :=
  match v with
  | Obj props => match own_property k props with Some x => x | None => Undefined end
  | _ => Undefined
  end.

End Js.

Import Js.

(* ================================================================== *)
(** ** What both route handlers share *)
(* ================================================================== *)

(** A thrown JavaScript error; [message] is [None] when the thrown object
    has no [message] property. *)
Record JsError := { message : option jsstring }.

(** What an awaited external call does. *)
Inductive Outcome (A : Type) : Type :=
| Returns (a : A)
| Throws (e : JsError).
Arguments Returns {A} a.
Arguments Throws {A} e.

Module Supabase.
(** [data.user] of [supabase.auth.getUser()]. *)
Record User := { id : jsstring }.

(** The [error] member of a store result ([PostgrestError]); its
    [message] is a string. *)
Record DbError := { message : jsstring }.
End Supabase.

(** [`${x}`] and [s + x] for an [x] that is a string or [undefined]. *)
Definition to_string (x : option jsstring) : jsstring :=
  match x with
  | Some s => s
  | None => lit "undefined"
  end.

(** Truthiness of a [string | null | undefined] variable. *)
Definition truthy_opt (x : option jsstring) : bool :=
  match x with
  | Some s => negb (str_eqb s [])
  | None => false
  end.

(** [x === c] for a string constant [c]. *)
Definition is_const (x : option jsstring) (c : jsstring) : bool :=
  match x with
  | Some s => str_eqb s c
  | None => false
  end.

(** [NextResponse.json(body, { status })]; the status is 200 when the call
    gives none. *)
Section Responses.
Context {Body : Type}.

Record Response := { body : Body; status : N }.

Definition json (b : Body) : Response := {| body := b; status := 200 |}.
Definition json_status (b : Body) (code : N) : Response :=
  {| body := b; status := code |}.
End Responses.
Arguments Response Body : clear implicits.

(* ================================================================== *)
(** ** src/app/api/chat/route.ts *)
(* ================================================================== *)

Module ChatRoute.

(** The two JSON bodies the handler answers with. *)
Inductive Body : Type :=
| error_body (error : jsstring)      (* { error: ... } *)
| reply_body (reply : jsstring).     (* { reply: ... } *)

(** The object handed to [supabase.from('chat_messages').insert(...)].
    [isError] is [None] where the object literal has no such key. *)
Record Insert := {
  user_id : option jsstring;
  user_query : value;
  bot_response : jsstring;
  pdf_context_used : value;
  isError : option bool
}.

(** The parts of a [GenerateContentResponse] the handler reads.
    [BlockReason] and [FinishReason] are string enums of the SDK. *)
Record PromptFeedback := { blockReason : option jsstring }.
Record Candidate := { finishReason : option jsstring }.
Record GenerateContentResponse := {
  text : Outcome jsstring;   (* response.text(), see [GoogleGenerativeAI.text] *)
  promptFeedback : option PromptFeedback;
  candidates : option (list Candidate)
}.

Definition BlockReason_SAFETY : jsstring := lit "SAFETY".
Definition FinishReason_SAFETY : jsstring := lit "SAFETY".
Definition FinishReason_STOP : jsstring := lit "STOP".

(** Everything outside the handler that one invocation consults.
    [generateContent] answers [None] when [result] or [result.response] is
    missing. *)
Record World := {
  GEMINI_API_KEY : option jsstring;            (* process.env.GEMINI_API_KEY *)
  getUser : Outcome (option Supabase.User);    (* supabase.auth.getUser() *)
  request_json : Outcome value;                (* request.json() *)
  generateContent : jsstring -> Outcome (option GenerateContentResponse);
  insert : Insert -> option Supabase.DbError   (* the [error] of the insert *)
}.

(** The two [let] variables of [POST] that the [catch] block reads, and the
    log of the inserts attempted so far, oldest first. *)
Record Locals := {
  userIdForDb : option jsstring;
  originalUserQuery : value;
  inserts : list Insert
}.

Definition initial : Locals :=
  {| userIdForDb := None;
     originalUserQuery := Str (lit "User query not available");
     inserts := [] |}.

(** *** Control flow of the handler body *)

(** A statement either falls through with a value, returns a response from
    the handler, or throws. *)
Inductive Step (A : Type) : Type :=
| Next (a : A)
| Return (r : Response Body)
| Throw (e : JsError).
Arguments Next {A} a.
Arguments Return {A} r.
Arguments Throw {A} e.

Definition M (A : Type) : Type := Locals -> Step A * Locals.

Definition ret {A} (a : A) : M A := fun l => (Next a, l).

Definition bind {A B} (m : M A) (k : A -> M B) : M B :=
  fun l =>
    match m l with
    | (Next a, l') => k a l'
    | (Return r, l') => (Return r, l')
    | (Throw e, l') => (Throw e, l')
    end.

Notation "x <- m ;; k" := (bind m (fun x => k))
  (at level 61, m at next level, right associativity).
Notation "m ;; k" := (bind m (fun _ => k))
  (at level 61, right associativity).

Definition return_ {A} (r : Response Body) : M A := fun l => (Return r, l).
Definition throw {A} (e : JsError) : M A := fun l => (Throw e, l).

Definition await {A} (o : Outcome A) : M A :=
  match o with
  | Returns a => ret a
  | Throws e => throw e
  end.

Definition set_userIdForDb (x : option jsstring) : M unit :=
  fun l => (Next tt, {| userIdForDb := x;
                        originalUserQuery := originalUserQuery l;
                        inserts := inserts l |}).

Definition set_originalUserQuery (q : value) : M unit :=
  fun l => (Next tt, {| userIdForDb := userIdForDb l;
                        originalUserQuery := q;
                        inserts := inserts l |}).

Definition get_userIdForDb : M (option jsstring) :=
  fun l => (Next (userIdForDb l), l).

Definition get_originalUserQuery : M value :=
  fun l => (Next (originalUserQuery l), l).

(** [await supabase.from('chat_messages').insert(row)]: the attempt is
    logged and the store's [error] comes back. *)
Definition db_insert (w : World) (row : Insert) : M (option Supabase.DbError) :=
  fun l => (Next (insert w row),
            {| userIdForDb := userIdForDb l;
               originalUserQuery := originalUserQuery l;
               inserts := inserts l ++ [row] |}).

(** *** The prompt *)

Definition MAX_PDF_TEXT_LENGTH : N := 70000.

Definition truncation_marker : jsstring :=
  LF ++ lit "[...PDF text truncated due to length...]".

Definition truncatedPdfText (pdfText : jsstring) : jsstring :=
  if MAX_PDF_TEXT_LENGTH <? str_length pdfText
  then substring0 pdfText MAX_PDF_TEXT_LENGTH ++ truncation_marker
  else pdfText.

(** The multi-line template literal of the document branch, line by line. *)
Definition document_prompt (truncatedPdfText query : jsstring) : jsstring :=
  LF ++
  lit "        Based on the following document text, please answer the user's question." ++ LF ++
  lit "        If the answer is not found in the document, state that explicitly." ++ LF ++
  lit "        Do not make up information not present in the document if the question implies it should come from the document." ++ LF ++
  LF ++
  lit "        Document Text:" ++ LF ++
  lit "        ---" ++ LF ++
  lit "        " ++ truncatedPdfText ++ LF ++
  lit "        ---" ++ LF ++
  LF ++
  lit "        User Question: " ++ query ++ LF ++
  LF ++
  lit "        Answer:" ++ LF ++
  lit "      ".

Definition question_prompt (query : jsstring) : jsstring :=
  lit "User Question: " ++ query ++ LF ++ lit "Answer:".

(** The string held by a value that a [typeof] test has shown to be a
    string. *)
Definition as_string (v : value) : jsstring :=
  match v with
  | Str s => s
  | _ => []
  end.

(** [v.trim() === ""], evaluated only behind a [typeof v === 'string']
    test. *)
Definition trims_to_empty (v : value) : bool := str_eqb (trim (as_string v)) [].

(** [!query || typeof query !== 'string' || query.trim() === ""] *)
Definition query_rejected (query : value) : bool :=
  negb (truthy query) || negb (is_string query) || trims_to_empty query.

(** [pdfText && typeof pdfText === 'string' && pdfText.trim() !== ""] *)
Definition wasPdfContextUsed (pdfText : value) : value :=
  logical_and pdfText
    (logical_and (Bool (is_string pdfText)) (Bool (negb (trims_to_empty pdfText)))).

Definition fullPrompt (query pdfText : value) : jsstring :=
  if truthy (wasPdfContextUsed pdfText)
  then document_prompt (truncatedPdfText (as_string pdfText)) (as_string query)
  else question_prompt (as_string query).

(** *** Empty model output *)

Definition no_reason_message : jsstring :=
  lit "Response generation failed or was blocked.".
Definition prompt_safety_message : jsstring :=
  lit "Your query was blocked due to safety concerns. Please rephrase.".
Definition prompt_issue_message (blockReason : jsstring) : jsstring :=
  lit "There was an issue with the prompt. Reason: " ++ blockReason ++ lit ".".
Definition candidate_safety_message : jsstring :=
  lit "The generated response was blocked due to safety concerns. Please try a different query.".
Definition incomplete_message (finishReason : jsstring) : jsstring :=
  lit "Response generation incomplete. Reason: " ++ finishReason
  ++ lit ". Try a shorter query or PDF.".
Definition empty_response_message : jsstring :=
  lit "I received an empty response from the AI. Could you try rephrasing?".

(** [promptFeedback?.blockReason] *)
Definition prompt_blockReason (response : GenerateContentResponse) : option jsstring :=
  match promptFeedback response with
  | Some pf => blockReason pf
  | None => None
  end.

(** [response.candidates?.[0]] followed by [firstCandidate?.finishReason] *)
Definition first_finishReason (response : GenerateContentResponse) : option jsstring :=
  match candidates response with
  | Some (firstCandidate :: _) => finishReason firstCandidate
  | _ => None
  end.

(** The body of [if (!responseText) { ... }]. *)
Definition empty_text_response (response : GenerateContentResponse) : Response Body :=
  let blockReasonMessage := no_reason_message in
  let statusCode := 400 in
  let blockReason := prompt_blockReason response in
  let blockReasonMessage :=
    if is_const blockReason BlockReason_SAFETY then prompt_safety_message
    else if truthy_opt blockReason then prompt_issue_message (to_string blockReason)
    else blockReasonMessage in
  let finishReason := first_finishReason response in
  let blockReasonMessage :=
    if is_const finishReason FinishReason_SAFETY then candidate_safety_message
    else if truthy_opt finishReason && negb (is_const finishReason FinishReason_STOP)
         then incomplete_message (to_string finishReason)
    else blockReasonMessage in
  let '(blockReasonMessage, statusCode) :=
    if str_eqb blockReasonMessage no_reason_message
    then (empty_response_message, 500)
    else (blockReasonMessage, statusCode) in
  json_status (error_body blockReasonMessage) statusCode.

(** *** The handler *)

(** [const { query, pdfText } = body;] throws a [TypeError] on [null].  The
    wording of its message is the engine's. *)
Definition destructure_TypeError : JsError :=
  {| message :=
       Some (lit "Cannot destructure property 'query' of 'body' as it is null.") |}.

Definition destructure (body : value) : M (value * value) :=
  match body with
  | Null | Undefined => throw destructure_TypeError
  | _ => ret (prop body (lit "query"), prop body (lit "pdfText"))
  end.

(** The [try] block of [POST]. *)
Definition try_block (w : World) : M (Response Body) :=
  user <- await (getUser w) ;;
  match user with
  | None =>
      return_ (json_status
                 (error_body (lit "Unauthorized: You must be logged in to chat.")) 401)
  | Some user =>
      set_userIdForDb (Some (Supabase.id user)) ;;
      body <- await (request_json w) ;;
      fields <- destructure body ;;
      let '(query, pdfText) := fields in
      set_originalUserQuery
        (logical_or query (Str (lit "User query not available in body"))) ;;
      if query_rejected query then
        return_ (json_status
                   (error_body (lit "Query is required and must be a non-empty string."))
                   400)
      else
        let wasPdfContextUsed := wasPdfContextUsed pdfText in
        let fullPrompt := fullPrompt query pdfText in
        result <- await (generateContent w fullPrompt) ;;
        match result with
        | None =>
            return_ (json_status
                       (error_body
                          (lit "Gemini API communication error. No response object."))
                       500)
        | Some response =>
            responseText <- await (text response) ;;
            if str_eqb responseText [] then
              return_ (empty_text_response response)
            else
              uid <- get_userIdForDb ;;
              dbError <- db_insert w {| user_id := uid;
                                        user_query := query;
                                        bot_response := responseText;
                                        pdf_context_used := wasPdfContextUsed;
                                        isError := None |} ;;
              (* [if (dbError)] only logs to the console *)
              return_ (json (reply_body responseText))
        end
  end.

Definition unexpected_error_message : jsstring :=
  lit "An unexpected error occurred while processing your chat request.".

(** [errorMessage] as the [catch] block computes it. *)
Definition errorMessage (error : JsError) : jsstring :=
  let errorMessage := unexpected_error_message in
  if truthy_opt (message error) then to_string (message error) else errorMessage.

(** The [catch (error)] block of [POST].  The thrown value is an object, as
    the errors of the calls in the [try] block are: [error.message] is read
    without a further exception. *)
Definition catch_block (w : World) (error : JsError) : M (Response Body) :=
  let errorMessage := errorMessage error in
  let statusCode := 500 in
  uid <- get_userIdForDb ;;
  (if truthy_opt uid then
     originalUserQuery <- get_originalUserQuery ;;
     dbError <- db_insert w {| user_id := uid;
                               user_query := originalUserQuery;
                               bot_response := lit "SYSTEM ERROR: " ++ errorMessage;
                               pdf_context_used := Bool false;
                               isError := Some true |} ;;
     (* [if (dbError)] only logs to the console *)
     ret tt
   else ret tt) ;;
  return_ (json_status (error_body errorMessage) statusCode).

(** How one invocation ends: with a response, or with an exception that
    leaves the handler. *)
Inductive Completion : Type :=
| Responded (r : Response Body)
| Rejected (e : JsError).

Definition completion (s : Step (Response Body)) : Completion :=
  match s with
  | Next r | Return r => Responded r
  | Throw e => Rejected e
  end.

(** [try { ... } catch (error) { ... }] *)
Definition try_catch (w : World) : M (Response Body) :=
  fun l =>
    match try_block w l with
    | (Throw error, l') => catch_block w error l'
    | done => done
    end.

(** [export async function POST(request)]: the response and the inserts
    attempted, oldest first. *)
Definition POST (w : World) : Completion * list Insert :=
  if negb (truthy_opt (GEMINI_API_KEY w)) then
    (Responded (json_status
                  (error_body (lit "API configuration error. Please contact support."))
                  500),
     [])
  else
    let '(s, l) := try_catch w initial in
    (completion s, inserts l).

End ChatRoute.

(* ================================================================== *)
(** ** Display messages ([interface Message] of src/app/chatbot/page.tsx) *)
(* ================================================================== *)

Module Msg.

Inductive Sender : Type := user | bot | system.

(** An optional member is [None] when the object has no such key.  [text]
    and [pdfContextUsed] can also hold the [null] of a database column,
    which is the inner [None]. *)
Record Message := {
  id : jsstring;
  text : option jsstring;
  sender : Sender;
  pdfContextUsed : option (option bool);
  timestamp : option jsstring;
  isError : option bool
}.

End Msg.

(* ================================================================== *)
(** ** src/app/api/chat-history/route.ts *)
(* ================================================================== *)

Module ChatHistoryRoute.

(** The selected columns of one [chat_messages] row, typed as the table
    schema of the README declares them ([bot_response] is nullable, [id] is
    a uuid). *)
Record Row := {
  id : jsstring;
  created_at : jsstring;
  user_query : jsstring;
  bot_response : option jsstring;
  pdf_context_used : bool
}.

(** [{ data, error }] of the select. *)
Inductive SelectResult : Type :=
| Data (chatMessages : list Row)
| Error (dbError : Supabase.DbError).

Record World := {
  getUser : Outcome (option Supabase.User);     (* supabase.auth.getUser() *)
  select : jsstring -> SelectResult             (* ...eq('user_id', id).order('created_at') *)
}.

(** The store operations of one invocation. *)
Inductive StoreOp : Type :=
| Select (user_id : jsstring).

Inductive Body : Type :=
| error_body (error : jsstring)              (* { error: ... } *)
| history_body (history : list Msg.Message). (* the array itself *)

(** The arrow function given to [chatMessages.map]. *)
Definition pair_of (msg : Row) : list Msg.Message :=
  [ {| Msg.id := id msg ++ lit "-user";
       Msg.text := Some (user_query msg);
       Msg.sender := Msg.user;
       Msg.pdfContextUsed := None;
       Msg.timestamp := Some (created_at msg);
       Msg.isError := None |};
    {| Msg.id := id msg ++ lit "-bot";
       Msg.text := bot_response msg;
       Msg.sender := Msg.bot;
       Msg.pdfContextUsed := Some (Some (pdf_context_used msg));
       Msg.timestamp := Some (created_at msg);
       Msg.isError := None |} ].

(** [chatMessages.map(msg => [...]).flat()] *)
Definition history (chatMessages : list Row) : list Msg.Message :=
  List.concat (map pair_of chatMessages).

(** [export async function GET(request)]: the response and the store
    operations performed. *)
Definition GET (w : World) : Response Body * list StoreOp :=
  match getUser w with
  | Throws error =>
      (json_status
         (error_body (lit "An unexpected error occurred. " ++ to_string (message error)))
         500,
       [])
  | Returns None =>
      (json_status
         (error_body (lit "Unauthorized: You must be logged in to view chat history."))
         401,
       [])
  | Returns (Some user) =>
      let ops := [Select (Supabase.id user)] in
      match select w (Supabase.id user) with
      | Error dbError =>
          (json_status
             (error_body (lit "Failed to fetch chat history. " ++ Supabase.message dbError))
             500,
           ops)
      | Data chatMessages => (json (history_body (history chatMessages)), ops)
      end
  end.

End ChatHistoryRoute.

(* ================================================================== *)
(** ** src/app/chatbot/page.tsx: merging fetched history into the transcript *)
(* ================================================================== *)

Module ChatbotPage.

Import Msg.

Section Merge.

(** [new Date(s).getTime()] for a string [s]; [None] is [NaN]. *)
Variable Date_getTime : jsstring -> option Z.

(** [new Date(m.timestamp!).getTime()]; a missing timestamp gives an
    invalid date. *)
Definition getTime (m : Message) : option Z :=
  match timestamp m with
  | Some s => Date_getTime s
  | None => None
  end.

(** The comparator [(a, b) => getTime(a) - getTime(b)]; [None] is [NaN]. *)
Definition compareFn (a b : Message) : option Z :=
  match getTime a, getTime b with
  | Some x, Some y => Some (x - y)%Z
  | _, _ => None
  end.

(** [compareFn(a, b) > 0].  [Array.prototype.sort] reads a [NaN] result
    as [+0]. *)
Definition sorts_after (a b : Message) : bool :=
  match compareFn a b with
  | Some d => (0 <? d)%Z
  | None => false
  end.

(** [Array.prototype.sort] is stable, and for a consistent comparator the
    result of a stable sort is determined; it is computed here by
    insertion, each element going in front of the sorted rest. *)
Fixpoint insert_sorted (a : Message) (sorted : list Message) : list Message :=
  match sorted with
  | [] => [a]
  | b :: rest =>
      if sorts_after a b then b :: insert_sorted a rest else a :: sorted
  end.

Fixpoint sort (l : list Message) : list Message :=
  match l with
  | [] => []
  | a :: rest => insert_sorted a (sort rest)
  end.

(** [existingMessageIds.has(x)] for the set built from [ids]. *)
Definition has (ids : list jsstring) (x : jsstring) : bool :=
  existsb (str_eqb x) ids.

(** The updater given to [setMessages] in [fetchChatHistory]. *)
Definition mergeHistory (historyMessages prevMessages : list Message) : list Message :=
  let existingMessageIds := map id prevMessages in
  let uniqueHistoryMessages :=
    filter (fun histMsg => negb (has existingMessageIds (id histMsg))) historyMessages in
  let combined := uniqueHistoryMessages ++ prevMessages in
  sort combined.

End Merge.

End ChatbotPage.

(* ================================================================== *)
(** ** Numbers in template literals *)
(* ================================================================== *)

Module JsNumber.

(** [`${n}`] for a non-negative integer below 10^21 (an HTTP status, a
    [Date.now()] reading): its decimal digits. *)
Definition to_string (n : N) : jsstring :=
  lit (NilEmpty.string_of_uint (N.to_uint n)).

End JsNumber.

(* ================================================================== *)
(** ** src/app/api/upload-pdf/route.ts *)
(* ================================================================== *)

Module UploadPdfRoute.

Inductive Body : Type :=
| error_body (error : jsstring)      (* { error: ... } *)
| text_body (text : jsstring).       (* { text: data.text } *)

(** What [formData.get('pdf')] can hold besides [null]: an uploaded file
    with its media type and bytes, or a plain string field. *)
Inductive FormDataEntryValue : Type :=
| File (type : jsstring) (bytes : list N)
| Field (value : jsstring).

Record World := {
  formData_get_pdf : Outcome (option FormDataEntryValue);
                                      (* request.formData(), then .get('pdf') *)
  pdf : list N -> Outcome jsstring    (* pdf(fileBuffer), then data.text *)
}.

(** [!file] *)
Definition absent (file : option FormDataEntryValue) : bool :=
  match file with
  | None => true
  | Some (Field value) => str_eqb value []
  | Some (File _ _) => false
  end.

(** [file.type]; a string has no such property. *)
Definition type_of (file : option FormDataEntryValue) : option jsstring :=
  match file with
  | Some (File type _) => Some type
  | _ => None
  end.

(** The bytes behind [file.arrayBuffer()]. *)
Definition bytes_of (file : option FormDataEntryValue) : list N :=
  match file with
  | Some (File _ bytes) => bytes
  | _ => []
  end.

(** [error.message?.includes('Invalid PDF')] as a condition. *)
Definition says_invalid_pdf (error : JsError) : bool :=
  match message error with
  | Some m => includes m (lit "Invalid PDF")
  | None => false
  end.

(** The [catch (error)] block. *)
Definition catch_block (error : JsError) : Response Body :=
  if says_invalid_pdf error then
    json_status (error_body (lit "Invalid or corrupted PDF file.")) 400
  else
    json_status
      (error_body (lit "Failed to parse PDF. " ++ to_string (message error))) 500.

(** [export async function POST(request)] *)
Definition POST (w : World) : Response Body :=
  match formData_get_pdf w with
  | Throws error => catch_block error
  | Returns file =>
      if absent file then
        json_status (error_body (lit "No PDF file provided.")) 400
      else if negb (is_const (type_of file) (lit "application/pdf")) then
        json_status (error_body (lit "Invalid file type. Only PDF is allowed.")) 400
      else
        match pdf w (bytes_of file) with
        | Throws error => catch_block error
        | Returns text => json (text_body text)
        end
  end.

End UploadPdfRoute.

(* ================================================================== *)
(** ** src/middleware.ts *)
(* ================================================================== *)

Module Middleware.

(** What the middleware returns: the untouched response, or a redirect to
    a path of the same origin. *)
Inductive Result : Type :=
| next
| redirect (pathname : jsstring).

Definition protectedRoutes : list jsstring := [lit "/chatbot"].
Definition authRoutes : list jsstring := [lit "/login"; lit "/register"].

(** [routes.some(route => pathname.startsWith(route))] *)
Definition some_prefix (routes : list jsstring) (pathname : jsstring) : bool :=
  existsb (fun route => startsWith pathname route) routes.

(** Truthiness of a [Session | null]. *)
Definition present {Session : Type} (session : option Session) : bool :=
  match session with
  | Some _ => true
  | None => false
  end.

(** [export async function middleware(request)], for the [session] that
    [supabase.auth.getSession()] reports. *)
Definition middleware {Session : Type} (session : option Session)
    (pathname : jsstring) : Result :=
  let isProtectedRoute := some_prefix protectedRoutes pathname in
  let isAuthRoute := some_prefix authRoutes pathname in
  if isProtectedRoute && negb (present session) then
    redirect (lit "/login")
  else if isAuthRoute && present session then
    redirect (lit "/chatbot")
  else next.

End Middleware.

(* ================================================================== *)
(** ** src/app/login/page.tsx and src/app/register/page.tsx *)
(* ================================================================== *)

(** [err.message] of a thrown error. *)
Definition JsError_message (err : JsError) : option jsstring := message err.

Module AuthPages.

(** The parts of the results of [supabase.auth.signUp] and
    [supabase.auth.signInWithPassword] that the pages read. *)
Record Session := { access_token : jsstring }.
Record AuthError := { message : jsstring }.

Record SignUpResult := {
  data_user : option Supabase.User;
  data_session : option Session;
  signUpError : option AuthError
}.

(** [err.message || "An unexpected error occurred."] *)
Definition shown_error (message : option jsstring) : jsstring :=
  if truthy_opt message then to_string message
  else lit "An unexpected error occurred.".

(** *** The register form *)

Record RegisterState := {
  email : jsstring;
  password : jsstring;
  confirmPassword : jsstring;
  error : option jsstring;
  message_shown : option jsstring;     (* the [message] state *)
  loading : bool
}.

Definition setError (e : option jsstring) (st : RegisterState) : RegisterState :=
  {| email := email st; password := password st;
     confirmPassword := confirmPassword st;
     error := e; message_shown := message_shown st; loading := loading st |}.

Definition setMessage (m : option jsstring) (st : RegisterState) : RegisterState :=
  {| email := email st; password := password st;
     confirmPassword := confirmPassword st;
     error := error st; message_shown := m; loading := loading st |}.

Definition setLoading (b : bool) (st : RegisterState) : RegisterState :=
  {| email := email st; password := password st;
     confirmPassword := confirmPassword st;
     error := error st; message_shown := message_shown st; loading := b |}.

(** The three branches after a [signUp] without error. *)
Definition after_signUp (data : SignUpResult) (st : RegisterState)
  : RegisterState * bool :=
  match data_user data, data_session data with
  | Some _, None =>
      (setMessage (Some (lit "Registration successful! Please check your email to confirm your account if email confirmation is enabled.")) st,
       false)
  | Some _, Some _ =>
      (setMessage (Some (lit "Registration successful! Redirecting...")) st,
       true)                                   (* router.refresh() *)
  | None, _ =>
      (setMessage (Some (lit "Registration attempt successful. You might need to confirm your email or try logging in.")) st,
       false)
  end.

(** [handleRegister]: the state it leaves and whether it called
    [router.refresh()]. *)
Definition handleRegister
    (signUp : jsstring -> jsstring -> Outcome SignUpResult)
    (st : RegisterState) : RegisterState * bool :=
  if str_length (password st) <? 6 then
    (setError (Some (lit "Password must be at least 6 characters long.")) st, false)
  else if negb (str_eqb (password st) (confirmPassword st)) then
    (setError (Some (lit "Passwords do not match.")) st, false)
  else
    let st := setLoading true (setMessage None (setError None st)) in
    let '(st, refreshed) :=
      match signUp (email st) (password st) with
      | Throws err => (setError (Some (shown_error (JsError_message err))) st, false)
      | Returns result =>
          match signUpError result with
          | Some err => (setError (Some (shown_error (Some (message err)))) st, false)
          | None => after_signUp result st
          end
      end in
    (setLoading false st, refreshed).

(** *** The login form *)

Record LoginState := {
  login_email : jsstring;
  login_password : jsstring;
  login_error : option jsstring;
  login_loading : bool
}.

(** [handleLogin]: the state it leaves and whether it called
    [router.refresh()]. *)
Definition handleLogin
    (signInWithPassword : jsstring -> jsstring -> Outcome (option AuthError))
    (st : LoginState) : LoginState * bool :=
  let failed (message : option jsstring) :=
    ({| login_email := login_email st; login_password := login_password st;
        login_error := Some (shown_error message); login_loading := false |},
     false) in
  match signInWithPassword (login_email st) (login_password st) with
  | Throws err => failed (JsError_message err)
  | Returns (Some signInError) => failed (Some (message signInError))
  | Returns None =>
      ({| login_email := login_email st; login_password := login_password st;
          login_error := None; login_loading := false |},
       true)
  end.

End AuthPages.

(* ================================================================== *)
(** ** src/app/chatbot/page.tsx: the handlers around the transcript *)
(* ================================================================== *)

Module ChatbotPageHandlers.

Import Msg.

(** The [useState] cells of [ChatbotPage]. *)
Record State := {
  userInput : jsstring;
  messages : list Message;
  uploadedPdfText : option jsstring;
  pdfName : option jsstring;
  isProcessingQuery : bool;
  isUploadingPdf : bool;
  isLoadingHistory : bool;
  pageError : option jsstring;
  historyLoaded : bool
}.

Definition isBusy (st : State) : bool :=
  isProcessingQuery st || isUploadingPdf st || isLoadingHistory st.

Definition setMessages (f : list Message -> list Message) (st : State) : State :=
  {| userInput := userInput st; messages := f (messages st);
     uploadedPdfText := uploadedPdfText st; pdfName := pdfName st;
     isProcessingQuery := isProcessingQuery st;
     isUploadingPdf := isUploadingPdf st;
     isLoadingHistory := isLoadingHistory st;
     pageError := pageError st; historyLoaded := historyLoaded st |}.

Definition setUserInput (x : jsstring) (st : State) : State :=
  {| userInput := x; messages := messages st;
     uploadedPdfText := uploadedPdfText st; pdfName := pdfName st;
     isProcessingQuery := isProcessingQuery st;
     isUploadingPdf := isUploadingPdf st;
     isLoadingHistory := isLoadingHistory st;
     pageError := pageError st; historyLoaded := historyLoaded st |}.

Definition setIsProcessingQuery (b : bool) (st : State) : State :=
  {| userInput := userInput st; messages := messages st;
     uploadedPdfText := uploadedPdfText st; pdfName := pdfName st;
     isProcessingQuery := b;
     isUploadingPdf := isUploadingPdf st;
     isLoadingHistory := isLoadingHistory st;
     pageError := pageError st; historyLoaded := historyLoaded st |}.

Definition setIsLoadingHistory (b : bool) (st : State) : State :=
  {| userInput := userInput st; messages := messages st;
     uploadedPdfText := uploadedPdfText st; pdfName := pdfName st;
     isProcessingQuery := isProcessingQuery st;
     isUploadingPdf := isUploadingPdf st;
     isLoadingHistory := b;
     pageError := pageError st; historyLoaded := historyLoaded st |}.

Definition setPageError (e : option jsstring) (st : State) : State :=
  {| userInput := userInput st; messages := messages st;
     uploadedPdfText := uploadedPdfText st; pdfName := pdfName st;
     isProcessingQuery := isProcessingQuery st;
     isUploadingPdf := isUploadingPdf st;
     isLoadingHistory := isLoadingHistory st;
     pageError := e; historyLoaded := historyLoaded st |}.

Definition setHistoryLoaded (b : bool) (st : State) : State :=
  {| userInput := userInput st; messages := messages st;
     uploadedPdfText := uploadedPdfText st; pdfName := pdfName st;
     isProcessingQuery := isProcessingQuery st;
     isUploadingPdf := isUploadingPdf st;
     isLoadingHistory := isLoadingHistory st;
     pageError := pageError st; historyLoaded := b |}.

(** One reading of the browser clock: [Date.now()] and
    [new Date().toISOString()]. *)
Record Clock := { Date_now : N; toISOString : jsstring }.

(** What a [fetch] followed by [response.json()] hands to a handler: the
    payload of an ok response, the [error] member and status of a response
    that is not ok, or the exception of a failed request. *)
Inductive Fetched (Data : Type) : Type :=
| ok_json (data : Data)
| not_ok (error : option jsstring) (status : N)
| failed (err : JsError).
Arguments ok_json {Data} data.
Arguments not_ok {Data} error status.
Arguments failed {Data} err.

(** The message of
    [new Error(data.error || `HTTP error! status: ${response.status}`)]. *)
Definition http_error (error : option jsstring) (status : N) : jsstring :=
  if truthy_opt error then to_string error
  else lit "HTTP error! status: " ++ JsNumber.to_string status.

(** [addSystemMessage(text, isError, uniqueIdSuffix)] *)
Definition addSystemMessage (now : Clock) (text : jsstring) (isError : bool)
    (uniqueIdSuffix : option jsstring) : State -> State :=
  setMessages (fun prev =>
    prev ++ [ {| id := lit "sys-" ++ (if truthy_opt uniqueIdSuffix
                                      then to_string uniqueIdSuffix
                                      else JsNumber.to_string (Date_now now));
                 text := Some text;
                 sender := system;
                 pdfContextUsed := None;
                 timestamp := Some (toISOString now);
                 isError := Some isError |} ]).

(** *** Submitting a query *)

(** [JSON.stringify({ query: userQuery, pdfText: uploadedPdfText })], as
    the route parses it. *)
Definition request_body (userQuery : jsstring) (uploadedPdfText : option jsstring)
  : value :=
  Obj [ (lit "query", Str userQuery);
        (lit "pdfText", match uploadedPdfText with
                        | Some pdfText => Str pdfText
                        | None => Null
                        end) ].

(** [handleSubmitQuery], from the submit event to the end of its [finally]
    block.  [fetch] answers the request to [/api/chat] with [data.reply];
    [sent] and [settled] are the clock readings when the user message and
    when the answering message are built. *)
Definition handleSubmitQuery (sent settled : Clock)
    (fetch : value -> Fetched (option jsstring)) (st : State) : State :=
  if str_eqb (trim (userInput st)) [] || isBusy st then st
  else
    let userQuery := trim (userInput st) in
    let userMessage :=
      {| id := lit "user-" ++ JsNumber.to_string (Date_now sent);
         text := Some userQuery;
         sender := user;
         pdfContextUsed := None;
         timestamp := Some (toISOString sent);
         isError := None |} in
    let started :=
      setPageError None
        (setIsProcessingQuery true
           (setUserInput [] (setMessages (fun prev => prev ++ [userMessage]) st))) in
    let chat_error (message : option jsstring) :=
      addSystemMessage settled (lit "Chat Error: " ++ to_string message) true None
                       started in
    let answered :=
      match fetch (request_body userQuery (uploadedPdfText st)) with
      | ok_json reply =>
          let botMessage :=
            {| id := lit "bot-" ++ JsNumber.to_string (Date_now settled);
               text := reply;
               sender := bot;
               pdfContextUsed := Some (Some (truthy_opt (uploadedPdfText st)));
               timestamp := Some (toISOString settled);
               isError := None |} in
          setMessages (fun prev => prev ++ [botMessage]) started
      | not_ok error status => chat_error (Some (http_error error status))
      | failed err => chat_error (message err)
      end in
    setIsProcessingQuery false answered.

(** *** Loading the history *)

(** [messages.some(m => m.id === 'sys-hist-loaded' || m.id === 'sys-no-hist')] *)
Definition history_notice_shown (messages : list Message) : bool :=
  existsb (fun m => str_eqb (id m) (lit "sys-hist-loaded")
                    || str_eqb (id m) (lit "sys-no-hist"))
          messages.

(** [fetchChatHistory], from the call to the end of its [finally] block.
    [fetch] is the answer of [/api/chat-history]; an ok answer is the array
    of display messages, as the handler's own annotation has it. *)
Definition fetchChatHistory (Date_getTime : jsstring -> option Z) (now : Clock)
    (fetch : Fetched (list Message)) (st : State) : State :=
  if historyLoaded st && history_notice_shown (messages st) then st
  else
    let started := setPageError None (setIsLoadingHistory true st) in
    let history_error (message : option jsstring) :=
      setHistoryLoaded false
        (addSystemMessage now (lit "Error loading history: " ++ to_string message)
                          true (Some (lit "hist-err")) started) in
    let settled :=
      match fetch with
      | ok_json historyMessages =>
          let merged :=
            setHistoryLoaded true
              (setMessages (ChatbotPage.mergeHistory Date_getTime historyMessages)
                           started) in
          if (List.length historyMessages =? 0)%nat then
            addSystemMessage now (lit "No previous chat history found.") false
                             (Some (lit "no-hist")) merged
          else
            addSystemMessage now (lit "Chat history loaded.") false
                             (Some (lit "hist-loaded")) merged
      | not_ok error status => history_error (Some (http_error error status))
      | failed err => history_error (message err)
      end in
    setIsLoadingHistory false settled.

(** *** The page talking to the two routes *)

(** [response.ok] *)
Definition ok {Body : Type} (response : Response Body) : bool :=
  (200 <=? status response) && (status response <=? 299).

(** What the page reads from an answer of the chat route: [data.reply] of
    an ok answer, [data.error] and the status otherwise. *)
Definition receive_chat (response : Response ChatRoute.Body)
  : Fetched (option jsstring) :=
  let reply := match body response with
               | ChatRoute.reply_body reply => Some reply
               | ChatRoute.error_body _ => None
               end in
  let error := match body response with
               | ChatRoute.error_body error => Some error
               | ChatRoute.reply_body _ => None
               end in
  if ok response then ok_json reply else not_ok error (status response).

(** What the page reads from an answer of the history route.  An ok answer
    holding an error object is not an array; the route never sends one. *)
Definition receive_history (response : Response ChatHistoryRoute.Body)
  : Fetched (list Message) :=
  match body response with
  | ChatHistoryRoute.history_body history =>
      if ok response then ok_json history else not_ok None (status response)
  | ChatHistoryRoute.error_body error =>
      if ok response
      then failed {| message := Some (lit "historyMessages.filter is not a function") |}
      else not_ok (Some error) (status response)
  end.

End ChatbotPageHandlers.

(* ================================================================== *)
(** ** Vocabulary for statements about one chat turn *)
(* ================================================================== *)

(** The same invocation against a store that answers inserts with
    [store]. *)
Definition with_store (w : ChatRoute.World)
    (store : ChatRoute.Insert -> option Supabase.DbError) : ChatRoute.World :=
  {| ChatRoute.GEMINI_API_KEY := ChatRoute.GEMINI_API_KEY w;
     ChatRoute.getUser := ChatRoute.getUser w;
     ChatRoute.request_json := ChatRoute.request_json w;
     ChatRoute.generateContent := ChatRoute.generateContent w;
     ChatRoute.insert := store |}.

(** The turn gets as far as a response object of the model: the API key is
    configured, the caller is [u], the body parses to an object whose
    [query] is the acceptable string [query] and whose [pdfText] is
    [pdfText], and the model client answers the prompt with [response]. *)
Definition reaches_model_output (w : ChatRoute.World) (u : Supabase.User)
    (query : jsstring) (pdfText : value)
    (response : ChatRoute.GenerateContentResponse) : Prop :=
  truthy_opt (ChatRoute.GEMINI_API_KEY w) = true /\
  ChatRoute.getUser w = Returns (Some u) /\
  (exists body,
      ChatRoute.request_json w = Returns body /\
      prop body (lit "query") = Str query /\
      prop body (lit "pdfText") = pdfText) /\
  ChatRoute.query_rejected (Str query) = false /\
  ChatRoute.generateContent w (ChatRoute.fullPrompt (Str query) pdfText)
    = Returns (Some response).

(** The finish reason of the first candidate is absent, empty or [STOP]. *)
Definition normal_finish (finishReason : option jsstring) : bool :=
  negb (truthy_opt finishReason)
  || is_const finishReason ChatRoute.FinishReason_STOP.

Definition unauthorized_chat : Response ChatRoute.Body :=
  json_status
    (ChatRoute.error_body (lit "Unauthorized: You must be logged in to chat.")) 401.

Definition configuration_error : Response ChatRoute.Body :=
  json_status
    (ChatRoute.error_body (lit "API configuration error. Please contact support."))
    500.

Definition unauthorized_history : Response ChatHistoryRoute.Body :=
  json_status
    (ChatHistoryRoute.error_body
       (lit "Unauthorized: You must be logged in to view chat history."))
    401.

(** Ascending timestamps, for messages whose timestamps are valid dates:
    [a] is not later than [b]. *)
Definition time_le (Date_getTime : jsstring -> option Z) (a b : Msg.Message) : Prop :=
  exists x y,
    ChatbotPage.getTime Date_getTime a = Some x /\
    ChatbotPage.getTime Date_getTime b = Some y /\
    (x <= y)%Z.

(** The messages of a merged transcript that were on display before the
    merge: those whose identifier occurs in [prevMessages]. *)
Definition visible (prevMessages merged : list Msg.Message) : list Msg.Message :=
  filter (fun m => ChatbotPage.has (map Msg.id prevMessages) (Msg.id m)) merged.

(** The fetched messages whose identifier is not on display yet. *)
Definition unseen (historyMessages prevMessages : list Msg.Message) : list Msg.Message :=
  filter (fun h => negb (ChatbotPage.has (map Msg.id prevMessages) (Msg.id h)))
         historyMessages.

(** The handler's locals once the query has been accepted. *)
Definition accepted (u : Supabase.User) (query : jsstring) : ChatRoute.Locals :=
  {| ChatRoute.userIdForDb := Some (Supabase.id u);
     ChatRoute.originalUserQuery := Str query;
     ChatRoute.inserts := [] |}.

(** The object inserted at the end of a successful turn. *)
Definition reply_record (u : Supabase.User) (query : jsstring) (pdfText : value)
    (responseText : jsstring) : ChatRoute.Insert :=
  {| ChatRoute.user_id := Some (Supabase.id u);
     ChatRoute.user_query := Str query;
     ChatRoute.bot_response := responseText;
     ChatRoute.pdf_context_used := ChatRoute.wasPdfContextUsed pdfText;
     ChatRoute.isError := None |}.

(** The object inserted by the [catch] block. *)
Definition error_record (uid : option jsstring) (originalUserQuery : value)
    (error : JsError) : ChatRoute.Insert :=
  {| ChatRoute.user_id := uid;
     ChatRoute.user_query := originalUserQuery;
     ChatRoute.bot_response := lit "SYSTEM ERROR: " ++ ChatRoute.errorMessage error;
     ChatRoute.pdf_context_used := Bool false;
     ChatRoute.isError := Some true |}.

(* ================================================================== *)
(** ** Concrete requests, used to exercise the statements below *)
(* ================================================================== *)

Module Samples.

Definition alice : Supabase.User :=
  {| Supabase.id := lit "7f9c2d1e-5b1a-4c3e-9a53-2f8e6f0b1c11" |}.

(** Two stored turns, the second one an error-marked turn without a
    reply. *)
Definition rows : list ChatHistoryRoute.Row :=
  [ {| ChatHistoryRoute.id := lit "0a1b";
       ChatHistoryRoute.created_at := lit "2024-05-01T10:00:00.000Z";
       ChatHistoryRoute.user_query := lit "What is the capital of France?";
       ChatHistoryRoute.bot_response := Some (lit "Paris.");
       ChatHistoryRoute.pdf_context_used := false |};
    {| ChatHistoryRoute.id := lit "2c3d";
       ChatHistoryRoute.created_at := lit "2024-05-01T10:05:00.000Z";
       ChatHistoryRoute.user_query := lit "Summarise the report.";
       ChatHistoryRoute.bot_response := None;
       ChatHistoryRoute.pdf_context_used := true |} ].

Definition history_world : ChatHistoryRoute.World :=
  {| ChatHistoryRoute.getUser := Returns (Some alice);
     ChatHistoryRoute.select := fun _ => ChatHistoryRoute.Data rows |}.

(** A document of 70,001 space characters. *)
Definition blank_document : jsstring := repeat 32 (N.to_nat 70001).

(** A document of 70,001 letters [a]. *)
Definition long_document : jsstring := repeat 97 (N.to_nat 70001).

Definition short_document : jsstring := lit "Paris is the capital of France.".

Definition question : jsstring := lit "What is the capital of France?".

Definition api_key : option jsstring := Some (lit "test-key").

Definition stop_candidate : ChatRoute.Candidate :=
  {| ChatRoute.finishReason := Some ChatRoute.FinishReason_STOP |}.

Definition paris_response : ChatRoute.GenerateContentResponse :=
  {| ChatRoute.text := Returns (lit "Paris.");
     ChatRoute.promptFeedback := None;
     ChatRoute.candidates := Some [stop_candidate] |}.

Definition store_ok : ChatRoute.Insert -> option Supabase.DbError :=
  fun _ => None.

Definition store_down : ChatRoute.Insert -> option Supabase.DbError :=
  fun _ => Some {| Supabase.message := lit "connection refused" |}.

(** What the page sends when no PDF is loaded:
    [{ query: userQuery, pdfText: null }]. *)
Definition body_without_pdf : value :=
  Obj [ (lit "query", Str question); (lit "pdfText", Null) ].

Definition paris_world : ChatRoute.World :=
  {| ChatRoute.GEMINI_API_KEY := api_key;
     ChatRoute.getUser := Returns (Some alice);
     ChatRoute.request_json := Returns body_without_pdf;
     ChatRoute.generateContent := fun _ => Returns (Some paris_response);
     ChatRoute.insert := store_ok |}.

Definition outage : JsError :=
  {| message := Some (lit "fetch failed: connect ECONNREFUSED 10.0.0.5:443") |}.

(** The model client throws. *)
Definition outage_world : ChatRoute.World :=
  {| ChatRoute.GEMINI_API_KEY := api_key;
     ChatRoute.getUser := Returns (Some alice);
     ChatRoute.request_json := Returns body_without_pdf;
     ChatRoute.generateContent := fun _ => Throws outage;
     ChatRoute.insert := store_ok |}.

(** No session. *)
Definition anonymous_world : ChatRoute.World :=
  {| ChatRoute.GEMINI_API_KEY := api_key;
     ChatRoute.getUser := Returns None;
     ChatRoute.request_json := Returns body_without_pdf;
     ChatRoute.generateContent := fun _ => Returns (Some paris_response);
     ChatRoute.insert := store_ok |}.

(** No session, and no API key in the environment. *)
Definition unconfigured_anonymous_world : ChatRoute.World :=
  {| ChatRoute.GEMINI_API_KEY := None;
     ChatRoute.getUser := Returns None;
     ChatRoute.request_json := Returns body_without_pdf;
     ChatRoute.generateContent := fun _ => Returns (Some paris_response);
     ChatRoute.insert := store_ok |}.

Definition malformed_json : JsError :=
  {| message := Some (lit "Unexpected end of JSON input") |}.

(** No session, a body that is not JSON, and an empty API key. *)
Definition unconfigured_malformed_world : ChatRoute.World :=
  {| ChatRoute.GEMINI_API_KEY := Some [];
     ChatRoute.getUser := Returns None;
     ChatRoute.request_json := Throws malformed_json;
     ChatRoute.generateContent := fun _ => Returns (Some paris_response);
     ChatRoute.insert := store_ok |}.

(** No session, a body that is not JSON, API key configured. *)
Definition anonymous_malformed_world : ChatRoute.World :=
  {| ChatRoute.GEMINI_API_KEY := api_key;
     ChatRoute.getUser := Returns None;
     ChatRoute.request_json := Throws malformed_json;
     ChatRoute.generateContent := fun _ => Throws outage;
     ChatRoute.insert := store_down |}.

Definition anonymous_history_world : ChatHistoryRoute.World :=
  {| ChatHistoryRoute.getUser := Returns None;
     ChatHistoryRoute.select := fun _ => ChatHistoryRoute.Data rows |}.

Definition relation_missing : Supabase.DbError :=
  {| Supabase.message := lit "relation public.chat_messages does not exist" |}.

Definition broken_history_world : ChatHistoryRoute.World :=
  {| ChatHistoryRoute.getUser := Returns (Some alice);
     ChatHistoryRoute.select := fun _ => ChatHistoryRoute.Error relation_missing |}.

(** [new Date(s).getTime()] on the three timestamps used below. *)
Definition clock (s : jsstring) : option Z :=
  if str_eqb s (lit "2024-05-01T09:59:00.000Z") then Some 1714557540000%Z
  else if str_eqb s (lit "2024-05-01T10:00:01.000Z") then Some 1714557601000%Z
  else if str_eqb s (lit "2024-05-01T10:00:02.000Z") then Some 1714557602000%Z
  else None.

(** A reply stamped by the server, whose clock is a second ahead. *)
Definition reply_message : Msg.Message :=
  {| Msg.id := lit "0a1b-bot";
     Msg.text := Some (lit "Paris.");
     Msg.sender := Msg.bot;
     Msg.pdfContextUsed := Some (Some false);
     Msg.timestamp := Some (lit "2024-05-01T10:00:02.000Z");
     Msg.isError := None |}.

(** The notice the page appended after it, stamped by the browser. *)
Definition loaded_notice : Msg.Message :=
  {| Msg.id := lit "sys-hist-loaded";
     Msg.text := Some (lit "Chat history loaded.");
     Msg.sender := Msg.system;
     Msg.pdfContextUsed := None;
     Msg.timestamp := Some (lit "2024-05-01T10:00:01.000Z");
     Msg.isError := Some false |}.

Definition older_message : Msg.Message :=
  {| Msg.id := lit "9f8e-user";
     Msg.text := Some (lit "Hello");
     Msg.sender := Msg.user;
     Msg.pdfContextUsed := None;
     Msg.timestamp := Some (lit "2024-05-01T09:59:00.000Z");
     Msg.isError := None |}.

(** A transcript in ascending timestamp order, and the same two messages
    in descending order. *)
Definition ascending_transcript : list Msg.Message := [loaded_notice; reply_message].
Definition descending_transcript : list Msg.Message := [reply_message; loaded_notice].

(** A fetch that brings one unseen message and one already on display. *)
Definition fetched : list Msg.Message := [older_message; reply_message].

End Samples.

(* ================================================================== *)
(** ** Further vocabulary and requests *)
(* ================================================================== *)

(** Some code unit of [s] is not white space. *)
Definition has_ink (s : jsstring) : bool :=
  existsb (fun c => negb (is_white_space c)) s.

Definition query_required : Response ChatRoute.Body :=
  json_status
    (ChatRoute.error_body (lit "Query is required and must be a non-empty string."))
    400.

Definition no_response_object : Response ChatRoute.Body :=
  json_status
    (ChatRoute.error_body (lit "Gemini API communication error. No response object."))
    500.

(** An error answer of the chat route: an [error] text that is not empty,
    under status 400, 401 or 500. *)
Definition error_answer (r : Response ChatRoute.Body) : Prop :=
  exists error,
    body r = ChatRoute.error_body error /\ error <> [] /\
    (status r = 400 \/ status r = 401 \/ status r = 500).

(** The rows [r1] and [r2] have valid creation times, that of [r1] not
    after that of [r2]. *)
Definition created_le (Date_getTime : jsstring -> option Z)
    (r1 r2 : ChatHistoryRoute.Row) : Prop :=
  exists x y,
    Date_getTime (ChatHistoryRoute.created_at r1) = Some x /\
    Date_getTime (ChatHistoryRoute.created_at r2) = Some y /\
    (x <= y)%Z.

(** [pdfText] of the body the page sends. *)
Definition as_pdfText (uploadedPdfText : option jsstring) : value :=
  match uploadedPdfText with
  | Some pdfText => Str pdfText
  | None => Null
  end.

(** The three kinds of message the page's handlers append. *)
Definition user_message (sent : ChatbotPageHandlers.Clock) (userQuery : jsstring)
  : Msg.Message :=
  {| Msg.id := lit "user-" ++ JsNumber.to_string (ChatbotPageHandlers.Date_now sent);
     Msg.text := Some userQuery;
     Msg.sender := Msg.user;
     Msg.pdfContextUsed := None;
     Msg.timestamp := Some (ChatbotPageHandlers.toISOString sent);
     Msg.isError := None |}.

Definition bot_message (settled : ChatbotPageHandlers.Clock) (reply : jsstring)
    (pdfContextUsed : bool) : Msg.Message :=
  {| Msg.id := lit "bot-" ++ JsNumber.to_string (ChatbotPageHandlers.Date_now settled);
     Msg.text := Some reply;
     Msg.sender := Msg.bot;
     Msg.pdfContextUsed := Some (Some pdfContextUsed);
     Msg.timestamp := Some (ChatbotPageHandlers.toISOString settled);
     Msg.isError := None |}.

Definition system_message (now : ChatbotPageHandlers.Clock) (id text : jsstring)
    (isError : bool) : Msg.Message :=
  {| Msg.id := id;
     Msg.text := Some text;
     Msg.sender := Msg.system;
     Msg.pdfContextUsed := None;
     Msg.timestamp := Some (ChatbotPageHandlers.toISOString now);
     Msg.isError := Some isError |}.

(* ================================================================== *)
(** ** The model client's [response.text()] *)
(* ================================================================== *)

(** [response.text()] is a helper that the SDK ([@google/generative-ai],
    which the route imports and the repository does not contain) attaches
    to the response it hands to the route.  This module is modelled from
    the SDK's [addHelpers] (src/requests/response-helpers.ts of the SDK),
    not from the repository, for the fields the route reads: with a first
    candidate, [text()] throws when that candidate's finish reason is
    RECITATION or SAFETY and returns the candidate's text otherwise;
    without a candidate it throws when the response carries prompt feedback
    and returns the empty string otherwise. *)
Module GoogleGenerativeAI.

(** The response as the service sends it.  [candidate_text] is what the
    SDK's [getText] collects: the text parts of the first candidate,
    joined. *)
Record RawResponse := {
  candidate_text : jsstring;
  raw_promptFeedback : option ChatRoute.PromptFeedback;
  raw_candidates : option (list ChatRoute.Candidate)
}.

(** [[FinishReason.RECITATION, FinishReason.SAFETY]] *)
Definition badFinishReasons : list jsstring := [lit "RECITATION"; lit "SAFETY"].

(** [!!candidate.finishReason &&
     badFinishReasons.includes(candidate.finishReason)] *)
Definition hadBadFinishReason (candidate : ChatRoute.Candidate) : bool :=
  truthy_opt (ChatRoute.finishReason candidate)
  && existsb (is_const (ChatRoute.finishReason candidate)) badFinishReasons.

(** [formatBlockErrorMessage], for a response without [blockReasonMessage]
    and [finishMessage]. *)
Definition formatBlockErrorMessage (response : RawResponse) : jsstring :=
  match raw_candidates response with
  | Some (firstCandidate :: _) =>
      if hadBadFinishReason firstCandidate
      then lit "Candidate was blocked due to "
           ++ to_string (ChatRoute.finishReason firstCandidate)
      else []
  | _ =>
      match raw_promptFeedback response with
      | Some promptFeedback =>
          lit "Response was blocked"
          ++ (if truthy_opt (ChatRoute.blockReason promptFeedback)
              then lit " due to " ++ to_string (ChatRoute.blockReason promptFeedback)
              else [])
      | None => []
      end
  end.

(** [new GoogleGenerativeAIResponseError(detail)] *)
Definition GoogleGenerativeAIResponseError (detail : jsstring) : JsError :=
  {| message := Some (lit "[GoogleGenerativeAI Error]: " ++ detail) |}.

(** [response.text] as [addHelpers] defines it. *)
Definition text (response : RawResponse) : Outcome jsstring :=
  match raw_candidates response with
  | Some (firstCandidate :: _) =>
      if hadBadFinishReason firstCandidate
      then Throws (GoogleGenerativeAIResponseError (formatBlockErrorMessage response))
      else Returns (candidate_text response)
  | _ =>
      match raw_promptFeedback response with
      | Some _ =>
          Throws (GoogleGenerativeAIResponseError
                    (lit "Text not available. " ++ formatBlockErrorMessage response))
      | None => Returns []
      end
  end.

(** The response object the route receives. *)
Definition addHelpers (response : RawResponse) : ChatRoute.GenerateContentResponse :=
  {| ChatRoute.text := text response;
     ChatRoute.promptFeedback := raw_promptFeedback response;
     ChatRoute.candidates := raw_candidates response |}.

End GoogleGenerativeAI.

Module Scenarios.

(** A logged-in caller whose body has a blank query. *)
Definition blank_query_world : ChatRoute.World :=
  {| ChatRoute.GEMINI_API_KEY := Samples.api_key;
     ChatRoute.getUser := Returns (Some Samples.alice);
     ChatRoute.request_json :=
       Returns (Obj [ (lit "query", Str (lit "   ")); (lit "pdfText", Null) ]);
     ChatRoute.generateContent := fun _ => Returns (Some Samples.paris_response);
     ChatRoute.insert := Samples.store_ok |}.

(** A logged-in caller whose body is not JSON. *)
Definition malformed_world : ChatRoute.World :=
  {| ChatRoute.GEMINI_API_KEY := Samples.api_key;
     ChatRoute.getUser := Returns (Some Samples.alice);
     ChatRoute.request_json := Throws Samples.malformed_json;
     ChatRoute.generateContent := fun _ => Returns (Some Samples.paris_response);
     ChatRoute.insert := Samples.store_ok |}.

(** The model client resolves without a response object. *)
Definition silent_world : ChatRoute.World :=
  {| ChatRoute.GEMINI_API_KEY := Samples.api_key;
     ChatRoute.getUser := Returns (Some Samples.alice);
     ChatRoute.request_json := Returns Samples.body_without_pdf;
     ChatRoute.generateContent := fun _ => Returns None;
     ChatRoute.insert := Samples.store_ok |}.

(** Two stored turns whose creation times the sample clock knows. *)
Definition stored_rows : list ChatHistoryRoute.Row :=
  [ {| ChatHistoryRoute.id := lit "9f8e";
       ChatHistoryRoute.created_at := lit "2024-05-01T09:59:00.000Z";
       ChatHistoryRoute.user_query := lit "Hello";
       ChatHistoryRoute.bot_response := Some (lit "Hi, how can I help?");
       ChatHistoryRoute.pdf_context_used := false |};
    {| ChatHistoryRoute.id := lit "0a1b";
       ChatHistoryRoute.created_at := lit "2024-05-01T10:00:01.000Z";
       ChatHistoryRoute.user_query := lit "What is the capital of France?";
       ChatHistoryRoute.bot_response := Some (lit "Paris.");
       ChatHistoryRoute.pdf_context_used := false |} ].

Definition stored_history_world : ChatHistoryRoute.World :=
  {| ChatHistoryRoute.getUser := Returns (Some Samples.alice);
     ChatHistoryRoute.select := fun _ => ChatHistoryRoute.Data stored_rows |}.

(** An upload whose [pdf] field is a text file. *)
Definition text_upload : UploadPdfRoute.World :=
  {| UploadPdfRoute.formData_get_pdf :=
       Returns (Some (UploadPdfRoute.File (lit "text/plain") [104; 105]));
     UploadPdfRoute.pdf := fun _ => Returns (lit "hi") |}.

(** An upload whose PDF the parser reads. *)
Definition pdf_upload : UploadPdfRoute.World :=
  {| UploadPdfRoute.formData_get_pdf :=
       Returns (Some (UploadPdfRoute.File (lit "application/pdf") [37; 80; 68; 70]));
     UploadPdfRoute.pdf := fun _ => Returns Samples.short_document |}.

Definition invalid_pdf_error : JsError :=
  {| message := Some (lit "Error: Invalid PDF structure") |}.

(** An upload whose PDF the parser refuses. *)
Definition corrupt_upload : UploadPdfRoute.World :=
  {| UploadPdfRoute.formData_get_pdf :=
       Returns (Some (UploadPdfRoute.File (lit "application/pdf") [37; 80]));
     UploadPdfRoute.pdf := fun _ => Throws invalid_pdf_error |}.

(** The page as first rendered for a logged-in user. *)
Definition fresh_page : ChatbotPageHandlers.State :=
  {| ChatbotPageHandlers.userInput := [];
     ChatbotPageHandlers.messages := [];
     ChatbotPageHandlers.uploadedPdfText := None;
     ChatbotPageHandlers.pdfName := None;
     ChatbotPageHandlers.isProcessingQuery := false;
     ChatbotPageHandlers.isUploadingPdf := false;
     ChatbotPageHandlers.isLoadingHistory := false;
     ChatbotPageHandlers.pageError := None;
     ChatbotPageHandlers.historyLoaded := false |}.

(** The same page with a question typed in. *)
Definition typed_page : ChatbotPageHandlers.State :=
  ChatbotPageHandlers.setUserInput (lit " What is the capital of France? ") fresh_page.

Definition ten_o_clock : ChatbotPageHandlers.Clock :=
  {| ChatbotPageHandlers.Date_now := 1714557601000;
     ChatbotPageHandlers.toISOString := lit "2024-05-01T10:00:01.000Z" |}.

Definition a_second_later : ChatbotPageHandlers.Clock :=
  {| ChatbotPageHandlers.Date_now := 1714557602000;
     ChatbotPageHandlers.toISOString := lit "2024-05-01T10:00:02.000Z" |}.

(** The chat route as [typed_page] reaches it. *)
Definition typed_world : ChatRoute.World :=
  {| ChatRoute.GEMINI_API_KEY := Samples.api_key;
     ChatRoute.getUser := Returns (Some Samples.alice);
     ChatRoute.request_json :=
       Returns (ChatbotPageHandlers.request_body Samples.question None);
     ChatRoute.generateContent := fun _ => Returns (Some Samples.paris_response);
     ChatRoute.insert := Samples.store_ok |}.

(** A registration form with a short password, and one filled in well. *)
Definition short_password_form : AuthPages.RegisterState :=
  {| AuthPages.email := lit "alice@example.org";
     AuthPages.password := lit "abc";
     AuthPages.confirmPassword := lit "abc";
     AuthPages.error := None;
     AuthPages.message_shown := None;
     AuthPages.loading := false |}.

Definition good_form : AuthPages.RegisterState :=
  {| AuthPages.email := lit "alice@example.org";
     AuthPages.password := lit "correct horse";
     AuthPages.confirmPassword := lit "correct horse";
     AuthPages.error := Some (lit "Passwords do not match.");
     AuthPages.message_shown := None;
     AuthPages.loading := false |}.

(** A sign-up that creates the user and a session at once. *)
Definition signUp_with_session (email password : jsstring)
  : Outcome AuthPages.SignUpResult :=
  Returns {| AuthPages.data_user := Some Samples.alice;
             AuthPages.data_session :=
               Some {| AuthPages.access_token := lit "token" |};
             AuthPages.signUpError := None |}.

(** The service blocks the prompt for safety: prompt feedback with the
    block reason, and no candidate. *)
Definition blocked_prompt : GoogleGenerativeAI.RawResponse :=
  {| GoogleGenerativeAI.candidate_text := [];
     GoogleGenerativeAI.raw_promptFeedback :=
       Some {| ChatRoute.blockReason := Some ChatRoute.BlockReason_SAFETY |};
     GoogleGenerativeAI.raw_candidates := None |}.

Definition blocked_prompt_world : ChatRoute.World :=
  {| ChatRoute.GEMINI_API_KEY := Samples.api_key;
     ChatRoute.getUser := Returns (Some Samples.alice);
     ChatRoute.request_json := Returns Samples.body_without_pdf;
     ChatRoute.generateContent :=
       fun _ => Returns (Some (GoogleGenerativeAI.addHelpers blocked_prompt));
     ChatRoute.insert := Samples.store_ok |}.

(** The service blocks the generated candidate for safety. *)
Definition blocked_candidate : GoogleGenerativeAI.RawResponse :=
  {| GoogleGenerativeAI.candidate_text := [];
     GoogleGenerativeAI.raw_promptFeedback := None;
     GoogleGenerativeAI.raw_candidates :=
       Some [ {| ChatRoute.finishReason := Some ChatRoute.FinishReason_SAFETY |} ] |}.

Definition blocked_candidate_world : ChatRoute.World :=
  {| ChatRoute.GEMINI_API_KEY := Samples.api_key;
     ChatRoute.getUser := Returns (Some Samples.alice);
     ChatRoute.request_json := Returns Samples.body_without_pdf;
     ChatRoute.generateContent :=
       fun _ => Returns (Some (GoogleGenerativeAI.addHelpers blocked_candidate));
     ChatRoute.insert := Samples.store_ok |}.

(** The generation stops at the token limit before any text. *)
Definition cut_short : GoogleGenerativeAI.RawResponse :=
  {| GoogleGenerativeAI.candidate_text := [];
     GoogleGenerativeAI.raw_promptFeedback := None;
     GoogleGenerativeAI.raw_candidates :=
       Some [ {| ChatRoute.finishReason := Some (lit "MAX_TOKENS") |} ] |}.

Definition cut_short_world : ChatRoute.World :=
  {| ChatRoute.GEMINI_API_KEY := Samples.api_key;
     ChatRoute.getUser := Returns (Some Samples.alice);
     ChatRoute.request_json := Returns Samples.body_without_pdf;
     ChatRoute.generateContent :=
       fun _ => Returns (Some (GoogleGenerativeAI.addHelpers cut_short));
     ChatRoute.insert := Samples.store_ok |}.

End Scenarios.

(* ================================================================== *)
(** * Properties *)
(* ================================================================== *)

(** ** Strings *)

Lemma str_eqb_spec (s t : jsstring) : str_eqb s t = true <-> s = t.
Proof.
  revert t; induction s as [|c s IH]; intros [|d t]; simpl; split;
    try congruence; try reflexivity.
  - intros H. apply andb_true_iff in H as [Hc Hs].
    apply N.eqb_eq in Hc. apply IH in Hs. congruence.
  - intros [= -> ->]. rewrite N.eqb_refl. simpl. now apply IH.
Qed.

Lemma str_eqb_refl (s : jsstring) : str_eqb s s = true.
Proof. now apply str_eqb_spec. Qed.

Lemma str_eqb_neq (s t : jsstring) : str_eqb s t = false <-> s <> t.
Proof.
  rewrite <- str_eqb_spec. destruct (str_eqb s t); split; congruence.
Qed.

Lemma startsWith_spec (s prefix : jsstring) :
  startsWith s prefix = true <-> exists rest, s = prefix ++ rest.
Proof.
  revert s; induction prefix as [|p prefix IH]; intros s; simpl.
  - split; [intros _; now exists s | reflexivity].
  - destruct s as [|c s].
    + split; [discriminate | intros [rest H]; discriminate].
    + rewrite andb_true_iff, N.eqb_eq, IH. split.
      * intros [-> [rest ->]]. now exists rest.
      * intros [rest [= -> ->]]. split; [reflexivity | now exists rest].
Qed.

(** [includes] finds exactly the substrings. *)
Lemma includes_spec (s needle : jsstring) :
  includes s needle = true <-> exists before after, s = before ++ needle ++ after.
Proof.
  induction s as [|c s IH]; simpl.
  - rewrite orb_false_r, startsWith_spec. split.
    + intros [rest H]. now exists [], rest.
    + intros [before [after H]].
      destruct before; [now exists after | discriminate].
  - rewrite orb_true_iff, startsWith_spec, IH. split.
    + intros [[rest H] | [before [after H]]].
      * now exists [], rest.
      * exists (c :: before), after. simpl. now rewrite H.
    + intros [[|b before] [after H]].
      * left. now exists after.
      * right. injection H as _ H. now exists before, after.
Qed.

Lemma str_length_substring0 (s : jsstring) (n : N) :
  n <= str_length s -> str_length (substring0 s n) = n.
Proof.
  unfold str_length, substring0. intros H.
  rewrite length_firstn. lia.
Qed.

(** [trim] leaves nothing exactly when every code unit is white space. *)
Lemma trimStart_nil (s : jsstring) :
  trimStart s = [] <-> forallb is_white_space s = true.
Proof.
  induction s as [|c s IH]; simpl; [tauto|].
  destruct (is_white_space c); simpl; [exact IH | split; discriminate].
Qed.

Lemma trimStart_white_space (s : jsstring) :
  forallb is_white_space (trimStart s) = true -> forallb is_white_space s = true.
Proof.
  induction s as [|c s IH]; simpl; [tauto|].
  destruct (is_white_space c) eqn:Ec; simpl; [exact IH|].
  now rewrite Ec.
Qed.

Lemma trimEnd_nil (s : jsstring) :
  trimEnd s = [] <-> forallb is_white_space s = true.
Proof.
  induction s as [|c s IH]; simpl; [tauto|].
  destruct (trimEnd s) as [|k kept].
  - destruct (is_white_space c); simpl; [exact IH | split; discriminate].
  - split; [discriminate|]. intros H. apply andb_true_iff in H as [_ H].
    apply IH in H. discriminate.
Qed.

Lemma trim_nil (s : jsstring) :
  trim s = [] <-> forallb is_white_space s = true.
Proof.
  unfold trim. rewrite trimEnd_nil. split.
  - apply trimStart_white_space.
  - intros H. apply trimStart_nil in H. now rewrite H.
Qed.

(** [trim], [includes] and property lookup on small inputs. *)
Example trim_both_ends :
  trim (LF ++ lit "  a b " ++ [160; 8232]) = lit "a b".
Proof. reflexivity. Qed.

Example trim_blank : trim (lit "   " ++ LF) = [].
Proof. reflexivity. Qed.

Example includes_inner : includes (lit "hello world") (lit "o w") = true.
Proof. reflexivity. Qed.

Example includes_absent : includes (lit "hello world") (lit "ow") = false.
Proof. reflexivity. Qed.

Example prop_of_object :
  prop (Obj [(lit "query", Str (lit "first")); (lit "query", Str (lit "last"))])
       (lit "query") = Str (lit "last")
  /\ prop (Obj [(lit "query", Num 5)]) (lit "pdfText") = Undefined
  /\ prop (Str (lit "query")) (lit "query") = Undefined.
Proof. repeat split. Qed.

(** ** History reconstruction *)

Section HistoryReconstruction.

Import ChatHistoryRoute.

Lemma history_cons (r : Row) (rows : list Row) :
  history (r :: rows) = pair_of r ++ history rows.
Proof. reflexivity. Qed.

Lemma history_length (rows : list Row) :
  List.length (history rows) = (2 * List.length rows)%nat.
Proof.
  induction rows as [|r rows IH]; [reflexivity|].
  rewrite history_cons, length_app, IH. simpl. lia.
Qed.

Lemma history_nth (rows : list Row) (i : nat) (r : Row) :
  nth_error rows i = Some r ->
  nth_error (history rows) (2 * i) = nth_error (pair_of r) 0 /\
  nth_error (history rows) (2 * i + 1) = nth_error (pair_of r) 1.
Proof.
  revert i; induction rows as [|r0 rows IH]; intros [|i] H; simpl in H;
    try discriminate.
  - injection H as ->. split; reflexivity.
  - replace (2 * S i)%nat with (S (S (2 * i))) by lia.
    replace (S (S (2 * i)) + 1)%nat with (S (S (2 * i + 1))) by lia.
    rewrite history_cons. simpl. now apply IH.
Qed.

(** No records give the empty array. *)
Lemma history_nil : history [] = [].
Proof. reflexivity. Qed.

(** C1.  For an authenticated caller whose select returns N rows, GET
    answers 200 with exactly 2N display messages; for every row index i,
    message 2i is the user-role message with that row's user_query and
    message 2i+1 is the bot-role message with that row's bot_response and
    context flag, and both carry the row's created_at as timestamp. *)
Theorem history_reconstruction_pairs
    (w : World) (u : Supabase.User) (rows : list Row) :
  getUser w = Returns (Some u) ->
  select w (Supabase.id u) = Data rows ->
  exists msgs,
    fst (GET w) = json (history_body msgs) /\
    List.length msgs = (2 * List.length rows)%nat /\
    forall i r, nth_error rows i = Some r ->
      exists mu mb,
        nth_error msgs (2 * i) = Some mu /\
        nth_error msgs (2 * i + 1) = Some mb /\
        Msg.sender mu = Msg.user /\
        Msg.text mu = Some (user_query r) /\
        Msg.timestamp mu = Some (created_at r) /\
        Msg.sender mb = Msg.bot /\
        Msg.text mb = bot_response r /\
        Msg.pdfContextUsed mb = Some (Some (pdf_context_used r)) /\
        Msg.timestamp mb = Some (created_at r).
Proof.
  intros Huser Hsel. exists (history rows). split; [|split].
  - unfold GET. now rewrite Huser, Hsel.
  - apply history_length.
  - intros i r Hr. destruct (history_nth rows i r Hr) as [H0 H1].
    eexists _, _. split; [exact H0|]. split; [exact H1|].
    repeat split.
Qed.

Lemma history_reconstruction_pairs_witness :
  getUser Samples.history_world = Returns (Some Samples.alice) /\
  select Samples.history_world (Supabase.id Samples.alice) = Data Samples.rows /\
  exists msgs,
    fst (GET Samples.history_world) = json (history_body msgs) /\
    List.length msgs = (2 * List.length Samples.rows)%nat /\
    forall i r, nth_error Samples.rows i = Some r ->
      exists mu mb,
        nth_error msgs (2 * i) = Some mu /\
        nth_error msgs (2 * i + 1) = Some mb /\
        Msg.sender mu = Msg.user /\
        Msg.text mu = Some (user_query r) /\
        Msg.timestamp mu = Some (created_at r) /\
        Msg.sender mb = Msg.bot /\
        Msg.text mb = bot_response r /\
        Msg.pdfContextUsed mb = Some (Some (pdf_context_used r)) /\
        Msg.timestamp mb = Some (created_at r).
Proof.
  split; [reflexivity|]. split; [reflexivity|].
  apply (history_reconstruction_pairs Samples.history_world Samples.alice Samples.rows);
    reflexivity.
Defined.

End HistoryReconstruction.

(** ** The prompt of the chat route *)

Section Prompt.

Import ChatRoute.

(** Document text counts as context exactly when trimming leaves
    something. *)
Lemma wasPdfContextUsed_string (pdfText : jsstring) :
  wasPdfContextUsed (Str pdfText) =
  if str_eqb pdfText [] then Str pdfText
  else Bool (negb (str_eqb (trim pdfText) [])).
Proof.
  unfold wasPdfContextUsed, logical_and, trims_to_empty. simpl.
  destruct (str_eqb pdfText []); reflexivity.
Qed.

Lemma context_used_iff (pdfText : jsstring) :
  truthy (wasPdfContextUsed (Str pdfText)) = true <-> trim pdfText <> [].
Proof.
  rewrite wasPdfContextUsed_string.
  destruct (str_eqb pdfText []) eqn:E.
  - apply str_eqb_spec in E. subst. simpl. split; [discriminate | now intros []].
  - simpl. rewrite negb_true_iff. apply str_eqb_neq.
Qed.

(** The truncated text is embedded between fixed framing text. *)
Lemma document_prompt_embeds (embedded query : jsstring) :
  exists before after,
    document_prompt embedded query = before ++ embedded ++ after.
Proof.
  unfold document_prompt.
  match goal with
  | |- exists before after,
         ?x1 ++ ?x2 ++ ?x3 ++ ?x4 ++ ?x5 ++ ?x6 ++ ?x7 ++ ?x8 ++ ?x9 ++ ?x10
         ++ ?x11 ++ ?x12 ++ ?x13 ++ embedded ++ ?rest = _ =>
      exists (x1 ++ x2 ++ x3 ++ x4 ++ x5 ++ x6 ++ x7 ++ x8 ++ x9 ++ x10
              ++ x11 ++ x12 ++ x13), rest
  end.
  now rewrite <- !app_assoc.
Qed.

(** C2, amended.  When the supplied document text is non-empty after
    trimming, the prompt is the document template around an embedded text:
    for a document longer than 70,000 code units the embedded text is its
    first 70,000 code units, of length exactly 70,000, followed by the
    truncation marker, so that the prompt contains the marker; for a
    document of at most 70,000 code units the embedded text is the document
    itself, with nothing appended. *)
Theorem prompt_truncation (query pdfText : jsstring) :
  trim pdfText <> [] ->
  exists embedded before after,
    fullPrompt (Str query) (Str pdfText) = document_prompt embedded query /\
    document_prompt embedded query = before ++ embedded ++ after /\
    if MAX_PDF_TEXT_LENGTH <? str_length pdfText
    then embedded = substring0 pdfText MAX_PDF_TEXT_LENGTH ++ truncation_marker /\
         str_length (substring0 pdfText MAX_PDF_TEXT_LENGTH) = 70000 /\
         includes (fullPrompt (Str query) (Str pdfText)) truncation_marker = true
    else embedded = pdfText.
Proof.
  intros Hctx. apply context_used_iff in Hctx.
  destruct (document_prompt_embeds (truncatedPdfText pdfText) query)
    as [before [after Hembed]].
  exists (truncatedPdfText pdfText), before, after.
  assert (Hprompt : fullPrompt (Str query) (Str pdfText)
                    = document_prompt (truncatedPdfText pdfText) query).
  { unfold fullPrompt. now rewrite Hctx. }
  split; [exact Hprompt|]. split; [exact Hembed|].
  unfold truncatedPdfText in *.
  destruct (MAX_PDF_TEXT_LENGTH <? str_length pdfText) eqn:Hlen; [|reflexivity].
  apply N.ltb_lt in Hlen.
  split; [reflexivity|]. split.
  - apply str_length_substring0. unfold MAX_PDF_TEXT_LENGTH in Hlen. lia.
  - rewrite Hprompt, Hembed. apply includes_spec.
    exists (before ++ substring0 pdfText MAX_PDF_TEXT_LENGTH), after.
    now rewrite <- !app_assoc.
Qed.

Lemma prompt_truncation_witness :
  trim Samples.short_document <> [] /\
  exists embedded before after,
    fullPrompt (Str Samples.question) (Str Samples.short_document)
      = document_prompt embedded Samples.question /\
    document_prompt embedded Samples.question = before ++ embedded ++ after /\
    if MAX_PDF_TEXT_LENGTH <? str_length Samples.short_document
    then embedded = substring0 Samples.short_document MAX_PDF_TEXT_LENGTH
                    ++ truncation_marker /\
         str_length (substring0 Samples.short_document MAX_PDF_TEXT_LENGTH) = 70000 /\
         includes (fullPrompt (Str Samples.question) (Str Samples.short_document))
                  truncation_marker = true
    else embedded = Samples.short_document.
Proof.
  assert (H : trim Samples.short_document <> []) by (vm_compute; discriminate).
  split; [exact H|].
  exact (prompt_truncation Samples.question Samples.short_document H).
Defined.

(** The same statement exercised on a document of 70,001 letters. *)
Example prompt_truncation_long_document :
  str_length Samples.long_document = 70001 /\
  str_eqb (fullPrompt (Str Samples.question) (Str Samples.long_document))
          (document_prompt (repeat 97 (N.to_nat 70000) ++ truncation_marker)
                           Samples.question) = true.
Proof. split; vm_compute; reflexivity. Qed.

(** C2 as stated fails: a supplied document of 70,001 space characters is
    longer than the maximum, yet the handler builds the bare question
    prompt, which holds neither the marker nor any document text. *)
Lemma blank_document_not_embedded :
  (MAX_PDF_TEXT_LENGTH <? str_length Samples.blank_document) = true /\
  query_rejected (Str Samples.question) = false /\
  fullPrompt (Str Samples.question) (Str Samples.blank_document)
    = question_prompt Samples.question /\
  includes (fullPrompt (Str Samples.question) (Str Samples.blank_document))
           truncation_marker = false.
Proof. split; [|split; [|split]]; vm_compute; reflexivity. Qed.

End Prompt.

(** ** The chat handler, step by step *)

Section ChatTurn.

Import ChatRoute.

Lemma accepted_query_truthy (query : jsstring) :
  query_rejected (Str query) = false -> truthy (Str query) = true.
Proof.
  unfold query_rejected. intros H.
  apply orb_false_iff in H as [H _]. apply orb_false_iff in H as [H _].
  now apply negb_false_iff in H.
Qed.

(** From the response object on, the [try] block depends on [text()]
    alone. *)
Lemma try_block_from_model_output w u query pdfText response :
  reaches_model_output w u query pdfText response ->
  try_block w initial =
  match text response with
  | Throws e => (Throw e, accepted u query)
  | Returns responseText =>
      if str_eqb responseText [] then
        (Return (empty_text_response response), accepted u query)
      else
        (Return (json (reply_body responseText)),
         {| userIdForDb := Some (Supabase.id u);
            originalUserQuery := Str query;
            inserts := [reply_record u query pdfText responseText] |})
  end.
Proof.
  intros (_ & Huser & (body & Hbody & Hquery & Hpdf) & Hok & Hgen).
  pose proof (accepted_query_truthy query Hok) as Htruthy.
  unfold try_block, bind. rewrite Huser, Hbody. simpl.
  destruct body; simpl in Hquery; try discriminate.
  simpl. simpl in Hpdf. rewrite Hquery, Hpdf, Hok.
  unfold logical_or. rewrite Htruthy. simpl.
  rewrite Hgen. simpl.
  destruct (text response) as [responseText | e]; simpl; [|reflexivity].
  destruct (str_eqb responseText []); reflexivity.
Qed.

Lemma reaches_model_output_with_store w u query pdfText response store :
  reaches_model_output w u query pdfText response ->
  reaches_model_output (with_store w store) u query pdfText response.
Proof. intros H. exact H. Qed.

Lemma POST_configured w :
  truthy_opt (GEMINI_API_KEY w) = true ->
  POST w = (completion (fst (try_catch w initial)), inserts (snd (try_catch w initial))).
Proof.
  intros H. unfold POST. rewrite H. simpl.
  now destruct (try_catch w initial).
Qed.

(** A successful turn: the reply goes out and one insert is attempted. *)
Lemma successful_turn w u query pdfText response responseText :
  reaches_model_output w u query pdfText response ->
  text response = Returns responseText ->
  responseText <> [] ->
  POST w = (Responded (json (reply_body responseText)),
            [reply_record u query pdfText responseText]).
Proof.
  intros Hturn Htext Hne.
  rewrite POST_configured by apply Hturn.
  unfold try_catch.
  rewrite (try_block_from_model_output _ _ _ _ _ Hturn), Htext.
  apply str_eqb_neq in Hne. now rewrite Hne.
Qed.

(** An empty model output: the classified failure goes out and nothing is
    inserted. *)
Lemma empty_text_turn w u query pdfText response :
  reaches_model_output w u query pdfText response ->
  text response = Returns [] ->
  POST w = (Responded (empty_text_response response), []).
Proof.
  intros Hturn Htext.
  rewrite POST_configured by apply Hturn.
  unfold try_catch.
  now rewrite (try_block_from_model_output _ _ _ _ _ Hturn), Htext.
Qed.

(** [text()] throws: the [catch] block answers with the exception's
    message and logs the failure under the caller's id. *)
Lemma thrown_text_turn w u query pdfText response error :
  reaches_model_output w u query pdfText response ->
  Supabase.id u <> [] ->
  text response = Throws error ->
  POST w = (Responded (json_status (error_body (errorMessage error)) 500),
            [error_record (Some (Supabase.id u)) (Str query) error]).
Proof.
  intros Hturn Hid Htext.
  rewrite POST_configured by apply Hturn.
  unfold try_catch.
  rewrite (try_block_from_model_output _ _ _ _ _ Hturn), Htext.
  apply str_eqb_neq in Hid.
  unfold catch_block, bind, get_userIdForDb, get_originalUserQuery, db_insert,
    return_, ret, accepted. simpl. rewrite Hid. reflexivity.
Qed.

(** **** The store's answers do not steer the handler *)

Lemma try_block_store_irrelevant w store l :
  try_block (with_store w store) l = try_block w l.
Proof.
  (* the [error] member of the insert is bound and never read *)
  reflexivity.
Qed.

Lemma catch_block_store_irrelevant w store error l :
  catch_block (with_store w store) error l = catch_block w error l.
Proof. reflexivity. Qed.


(** **** Exceptions *)

Lemma accepted_query_string (query : value) :
  query_rejected query = false ->
  exists q, query = Str q /\ truthy (Str q) = true.
Proof.
  intros H. destruct query as [| |b|n|q|items|props];
    try (unfold query_rejected in H; simpl in H;
         rewrite ?orb_true_r in H; discriminate).
  exists q. split; [reflexivity | now apply accepted_query_truthy].
Qed.

(** When the [try] block throws, nothing has been inserted yet, and the
    locals are those of the point of failure: no user id if [getUser]
    itself threw, the caller's id and a string for the query otherwise. *)
Lemma try_block_throws w error l :
  try_block w initial = (Throw error, l) ->
  inserts l = [] /\
  match getUser w with
  | Returns (Some u) =>
      userIdForDb l = Some (Supabase.id u) /\
      exists q, originalUserQuery l = Str q
  | _ => userIdForDb l = None
  end.
Proof.
  assert (thrown : forall (e : JsError) (l0 : Locals) (u : Supabase.User) q,
             userIdForDb l0 = Some (Supabase.id u) ->
             originalUserQuery l0 = Str q ->
             inserts l0 = [] ->
             (Throw e, l0) = (@Throw (Response Body) error, l) ->
             inserts l = [] /\
             userIdForDb l = Some (Supabase.id u) /\
             exists q, originalUserQuery l = Str q).
  { intros e l0 u q Hu Hq Hi [= <- <-]. eauto. }
  unfold try_block, bind, return_.
  destruct (getUser w) as [[u|]|e0]; simpl;
    [| discriminate | intros [= <- <-]; split; reflexivity].
  destruct (request_json w) as [body|e1]; simpl;
    [| now apply thrown with (q := lit "User query not available")].
  destruct (destructure body _) as [[[query pdfText]|r|e] l4] eqn:Hd.
  - assert (Hl4 : l4 = {| userIdForDb := Some (Supabase.id u);
                         originalUserQuery := Str (lit "User query not available");
                         inserts := [] |}).
    { destruct body; simpl in Hd; try discriminate; now injection Hd. }
    subst l4. simpl.
    destruct (query_rejected query) eqn:Hq; [discriminate|].
    destruct (accepted_query_string query Hq) as [q [-> Hqt]].
    unfold logical_or. rewrite Hqt.
    destruct (generateContent w _) as [[response|]|e2]; simpl;
      [| discriminate | now apply thrown with (q := q)].
    destruct (text response) as [responseText|e3]; simpl;
      [| now apply thrown with (q := q)].
    destruct (str_eqb responseText []); discriminate.
  - destruct body; simpl in Hd; discriminate.
  - destruct body; simpl in Hd; try discriminate;
      injection Hd as _ <-;
      now apply thrown with (q := lit "User query not available").
Qed.

End ChatTurn.

(** ** Empty model output *)

Section EmptyOutput.

Import ChatRoute.

(** None of the reason-specific messages is the placeholder that the final
    test of the block looks for. *)
Lemma prompt_safety_message_specific :
  str_eqb prompt_safety_message no_reason_message = false.
Proof. reflexivity. Qed.

Lemma prompt_issue_message_specific (blockReason : jsstring) :
  str_eqb (prompt_issue_message blockReason) no_reason_message = false.
Proof. reflexivity. Qed.

Lemma candidate_safety_message_specific :
  str_eqb candidate_safety_message no_reason_message = false.
Proof. reflexivity. Qed.

Lemma incomplete_message_specific (finishReason : jsstring) :
  str_eqb (incomplete_message finishReason) no_reason_message = false.
Proof. reflexivity. Qed.

(** The block as a decision table: the candidate's reason overrides the
    prompt's, and the generic message is kept for the case without any. *)
Lemma empty_text_response_table (response : GenerateContentResponse) :
  let blockReason := prompt_blockReason response in
  let finishReason := first_finishReason response in
  empty_text_response response =
  if is_const finishReason FinishReason_SAFETY then
    json_status (error_body candidate_safety_message) 400
  else if negb (normal_finish finishReason) then
    json_status (error_body (incomplete_message (to_string finishReason))) 400
  else if is_const blockReason BlockReason_SAFETY then
    json_status (error_body prompt_safety_message) 400
  else if truthy_opt blockReason then
    json_status (error_body (prompt_issue_message (to_string blockReason))) 400
  else
    json_status (error_body empty_response_message) 500.
Proof.
  intros blockReason finishReason.
  unfold empty_text_response, normal_finish.
  fold blockReason. fold finishReason.
  destruct (is_const finishReason FinishReason_SAFETY);
    [now rewrite candidate_safety_message_specific|].
  rewrite negb_orb, negb_involutive.
  destruct (truthy_opt finishReason && negb (is_const finishReason FinishReason_STOP));
    [now rewrite incomplete_message_specific|].
  destruct (is_const blockReason BlockReason_SAFETY);
    [now rewrite prompt_safety_message_specific|].
  destruct (truthy_opt blockReason);
    [now rewrite prompt_issue_message_specific|].
  now rewrite str_eqb_refl.
Qed.

(** **** What the SDK's [text()] lets through *)

Lemma blocked_prompt_text_throws (raw : GoogleGenerativeAI.RawResponse) :
  GoogleGenerativeAI.raw_candidates raw = None \/
  GoogleGenerativeAI.raw_candidates raw = Some [] ->
  GoogleGenerativeAI.raw_promptFeedback raw
    = Some {| blockReason := Some BlockReason_SAFETY |} ->
  text (GoogleGenerativeAI.addHelpers raw)
    = Throws (GoogleGenerativeAI.GoogleGenerativeAIResponseError
                (lit "Text not available. Response was blocked due to SAFETY")).
Proof.
  intros Hc Hpf. unfold GoogleGenerativeAI.addHelpers. simpl.
  unfold GoogleGenerativeAI.text, GoogleGenerativeAI.formatBlockErrorMessage.
  destruct Hc as [-> | ->]; rewrite Hpf; reflexivity.
Qed.

Lemma blocked_candidate_text_throws (raw : GoogleGenerativeAI.RawResponse) rest :
  GoogleGenerativeAI.raw_candidates raw
    = Some ({| finishReason := Some FinishReason_SAFETY |} :: rest) ->
  text (GoogleGenerativeAI.addHelpers raw)
    = Throws (GoogleGenerativeAI.GoogleGenerativeAIResponseError
                (lit "Candidate was blocked due to SAFETY")).
Proof.
  intros Hc. unfold GoogleGenerativeAI.addHelpers. simpl.
  unfold GoogleGenerativeAI.text, GoogleGenerativeAI.formatBlockErrorMessage.
  rewrite Hc. reflexivity.
Qed.

Lemma not_bad_not_SAFETY (candidate : Candidate) :
  GoogleGenerativeAI.hadBadFinishReason candidate = false ->
  is_const (finishReason candidate) FinishReason_SAFETY = false.
Proof.
  unfold GoogleGenerativeAI.hadBadFinishReason.
  destruct (finishReason candidate) as [f|]; simpl; [|reflexivity].
  destruct (str_eqb f FinishReason_SAFETY) eqn:E; [|reflexivity].
  apply str_eqb_spec in E. subst f. discriminate.
Qed.

(** Whenever the SDK's [text()] returns, the response reports no SAFETY
    finish, and no prompt feedback unless it has a candidate: the two
    safety branches of the classification are never taken on a response
    that comes out of the SDK. *)
Lemma classification_never_sees_a_safety_block
    (raw : GoogleGenerativeAI.RawResponse) responseText :
  text (GoogleGenerativeAI.addHelpers raw) = Returns responseText ->
  is_const (first_finishReason (GoogleGenerativeAI.addHelpers raw))
           FinishReason_SAFETY = false /\
  (first_finishReason (GoogleGenerativeAI.addHelpers raw) = None ->
   candidates (GoogleGenerativeAI.addHelpers raw) = None \/
   candidates (GoogleGenerativeAI.addHelpers raw) = Some [] ->
   prompt_blockReason (GoogleGenerativeAI.addHelpers raw) = None).
Proof.
  unfold GoogleGenerativeAI.addHelpers, first_finishReason, prompt_blockReason.
  simpl. unfold GoogleGenerativeAI.text.
  destruct (GoogleGenerativeAI.raw_candidates raw) as [[|first rest]|].
  - destruct (GoogleGenerativeAI.raw_promptFeedback raw); [discriminate|].
    intros _. split; reflexivity.
  - destruct (GoogleGenerativeAI.hadBadFinishReason first) eqn:Hbad; [discriminate|].
    intros _. split; [now apply not_bad_not_SAFETY|].
    intros _ [H|H]; discriminate H.
  - destruct (GoogleGenerativeAI.raw_promptFeedback raw); [discriminate|].
    intros _. split; reflexivity.
Qed.

(** The part of the classification that is reached: a first candidate
    without text whose finish reason is neither STOP nor one the SDK throws
    on is answered 400 with that reason, and nothing is inserted. *)
Lemma incomplete_generation_answer w u query pdfText
    (raw : GoogleGenerativeAI.RawResponse) first rest reason :
  reaches_model_output w u query pdfText (GoogleGenerativeAI.addHelpers raw) ->
  GoogleGenerativeAI.raw_candidates raw = Some (first :: rest) ->
  GoogleGenerativeAI.candidate_text raw = [] ->
  finishReason first = Some reason ->
  reason <> [] -> reason <> lit "STOP" ->
  reason <> lit "SAFETY" -> reason <> lit "RECITATION" ->
  POST w =
    (Responded
       (json_status
          (error_body (lit "Response generation incomplete. Reason: " ++ reason
                       ++ lit ". Try a shorter query or PDF."))
          400),
     []).
Proof.
  intros Hturn Hc Htxt Hfr Hne Hstop Hsafety Hrec.
  apply str_eqb_neq in Hne, Hstop, Hsafety, Hrec.
  assert (Htext : text (GoogleGenerativeAI.addHelpers raw) = Returns []).
  { unfold GoogleGenerativeAI.addHelpers. simpl.
    unfold GoogleGenerativeAI.text, GoogleGenerativeAI.hadBadFinishReason.
    rewrite Hc, Hfr, Htxt. simpl.
    unfold FinishReason_SAFETY in *. rewrite Hrec, Hsafety.
    now rewrite andb_false_r. }
  rewrite (empty_text_turn _ _ _ _ _ Hturn Htext).
  rewrite empty_text_response_table.
  unfold first_finishReason, normal_finish, GoogleGenerativeAI.addHelpers. simpl.
  rewrite Hc, Hfr. simpl.
  unfold FinishReason_SAFETY, FinishReason_STOP in *.
  rewrite Hsafety, Hne, Hstop. reflexivity.
Qed.

(** C6 fails where the service reports a safety block.  [response.text()]
    is called before the classification, and for a prompt blocked for
    safety (prompt feedback SAFETY, no candidate) or a first candidate
    finished for SAFETY the SDK's helper throws: the turn ends in the
    [catch] block, answered with status 500 and the SDK's exception message
    and logged as an error record, while the classification, had it been
    reached, would have answered 400 with its safety message. *)
Theorem safety_block_answered_as_unexpected_failure w u query pdfText
    (raw : GoogleGenerativeAI.RawResponse) (detail : jsstring) :
  reaches_model_output w u query pdfText (GoogleGenerativeAI.addHelpers raw) ->
  Supabase.id u <> [] ->
  ((GoogleGenerativeAI.raw_candidates raw = None \/
    GoogleGenerativeAI.raw_candidates raw = Some []) /\
   GoogleGenerativeAI.raw_promptFeedback raw
     = Some {| blockReason := Some (lit "SAFETY") |} /\
   detail = lit "Text not available. Response was blocked due to SAFETY")
  \/
  ((exists rest,
      GoogleGenerativeAI.raw_candidates raw
        = Some ({| finishReason := Some (lit "SAFETY") |} :: rest)) /\
   detail = lit "Candidate was blocked due to SAFETY") ->
  POST w =
    (Responded
       (json_status (error_body (lit "[GoogleGenerativeAI Error]: " ++ detail)) 500),
     [ {| user_id := Some (Supabase.id u);
          user_query := Str query;
          bot_response := lit "SYSTEM ERROR: [GoogleGenerativeAI Error]: " ++ detail;
          pdf_context_used := Bool false;
          isError := Some true |} ]) /\
  exists msg,
    empty_text_response (GoogleGenerativeAI.addHelpers raw)
      = json_status (error_body msg) 400 /\
    (msg = lit "Your query was blocked due to safety concerns. Please rephrase." \/
     msg = lit "The generated response was blocked due to safety concerns. Please try a different query.").
Proof.
  intros Hturn Hid Hcase.
  assert (Htext : text (GoogleGenerativeAI.addHelpers raw)
                  = Throws (GoogleGenerativeAI.GoogleGenerativeAIResponseError detail)).
  { destruct Hcase as [(Hc & Hpf & ->) | ((rest & Hc) & ->)].
    - now apply blocked_prompt_text_throws.
    - now apply blocked_candidate_text_throws with (rest := rest). }
  split.
  - rewrite (thrown_text_turn _ _ _ _ _ _ Hturn Hid Htext). reflexivity.
  - rewrite empty_text_response_table.
    unfold first_finishReason, prompt_blockReason, GoogleGenerativeAI.addHelpers.
    simpl.
    destruct Hcase as [(Hc & Hpf & _) | ((rest & Hc) & _)].
    + exists prompt_safety_message. split; [|left; reflexivity].
      rewrite Hpf. destruct Hc as [-> | ->]; reflexivity.
    + exists candidate_safety_message. split; [|right; reflexivity].
      rewrite Hc. reflexivity.
Qed.

Lemma safety_block_answered_as_unexpected_failure_witness :
  reaches_model_output Scenarios.blocked_prompt_world Samples.alice Samples.question
    Null (GoogleGenerativeAI.addHelpers Scenarios.blocked_prompt) /\
  Supabase.id Samples.alice <> [] /\
  POST Scenarios.blocked_prompt_world =
    (Responded
       (json_status
          (error_body
             (lit "[GoogleGenerativeAI Error]: Text not available. Response was blocked due to SAFETY"))
          500),
     [ {| user_id := Some (Supabase.id Samples.alice);
          user_query := Str Samples.question;
          bot_response :=
            lit "SYSTEM ERROR: [GoogleGenerativeAI Error]: Text not available. Response was blocked due to SAFETY";
          pdf_context_used := Bool false;
          isError := Some true |} ]).
Proof.
  assert (Hturn : reaches_model_output Scenarios.blocked_prompt_world Samples.alice
                    Samples.question Null
                    (GoogleGenerativeAI.addHelpers Scenarios.blocked_prompt)).
  { unfold reaches_model_output. split; [reflexivity|]. split; [reflexivity|].
    split; [exists Samples.body_without_pdf; repeat split|].
    split; reflexivity. }
  assert (Hid : Supabase.id Samples.alice <> []) by discriminate.
  split; [exact Hturn|]. split; [exact Hid|].
  exact (proj1 (safety_block_answered_as_unexpected_failure
                  Scenarios.blocked_prompt_world Samples.alice Samples.question Null
                  Scenarios.blocked_prompt
                  (lit "Text not available. Response was blocked due to SAFETY")
                  Hturn Hid
                  (or_introl (conj (or_introl eq_refl) (conj eq_refl eq_refl))))).
Defined.

(** The same for a candidate blocked for safety, and the abnormal finish
    that the classification does see. *)
Example blocked_candidate_turn :
  fst (POST Scenarios.blocked_candidate_world) =
    Responded
      (json_status
         (error_body (lit "[GoogleGenerativeAI Error]: Candidate was blocked due to SAFETY"))
         500).
Proof. vm_compute. reflexivity. Qed.

Example cut_short_turn :
  POST Scenarios.cut_short_world =
    (Responded
       (json_status
          (error_body
             (lit "Response generation incomplete. Reason: MAX_TOKENS. Try a shorter query or PDF."))
          400),
     []).
Proof. vm_compute. reflexivity. Qed.

End EmptyOutput.

(** ** Successful turns *)

Section SuccessfulTurn.

Import ChatRoute.

(** What the [&&] chain leaves in [wasPdfContextUsed]: its truthiness is
    the intended boolean, and it is that boolean itself as soon as
    [pdfText] is truthy; a falsy [pdfText] is passed through unchanged. *)
Lemma wasPdfContextUsed_value (pdfText : value) :
  truthy (wasPdfContextUsed pdfText)
    = is_string pdfText && negb (trims_to_empty pdfText) /\
  (truthy pdfText = true ->
     wasPdfContextUsed pdfText
       = Bool (is_string pdfText && negb (trims_to_empty pdfText))) /\
  (truthy pdfText = false -> wasPdfContextUsed pdfText = pdfText).
Proof.
  unfold wasPdfContextUsed, logical_and.
  destruct (truthy pdfText) eqn:Ht.
  - split; [|split; [|discriminate]].
    + simpl. destruct (is_string pdfText); reflexivity.
    + intros _. simpl. destruct (is_string pdfText); reflexivity.
  - split; [|split; [discriminate | reflexivity]].
    rewrite Ht. destruct pdfText as [| |b|n|s|items|props];
      simpl in *; try reflexivity; try discriminate.
    apply negb_false_iff, str_eqb_spec in Ht. subst. reflexivity.
Qed.

(** C3 at the body the page sends when no PDF is loaded,
    [{ query, pdfText: null }], with the model answering "Paris.": the
    reply goes out and exactly one insert is attempted, owned by the
    caller and holding the query and the generated text, but its
    [pdf_context_used] is [null], the falsy left operand of the [&&]
    chain, and not the boolean [false]. *)
Theorem no_pdf_turn_inserts_null_flag :
  POST Samples.paris_world =
    (Responded (json (reply_body (lit "Paris."))),
     [ {| user_id := Some (Supabase.id Samples.alice);
          user_query := Str Samples.question;
          bot_response := lit "Paris.";
          pdf_context_used := Null;
          isError := None |} ]).
Proof. vm_compute. reflexivity. Qed.

(** C7.  On a successful turn the caller receives the generated text as a
    200 reply whatever the store answers to the insert, a failure for every
    row included. *)
Theorem reply_independent_of_store w u query pdfText response responseText :
  reaches_model_output w u query pdfText response ->
  text response = Returns responseText ->
  responseText <> [] ->
  forall store : Insert -> option Supabase.DbError,
    fst (POST (with_store w store)) = Responded (json (reply_body responseText)) /\
    status (json (reply_body responseText)) = 200.
Proof.
  intros Hturn Htext Hne store. split; [|reflexivity].
  rewrite (successful_turn (with_store w store) u query pdfText response responseText);
    [reflexivity | | exact Htext | exact Hne].
  now apply reaches_model_output_with_store.
Qed.

Lemma paris_world_reaches_model_output :
  reaches_model_output Samples.paris_world Samples.alice Samples.question Null
                       Samples.paris_response.
Proof.
  unfold reaches_model_output. split; [reflexivity|]. split; [reflexivity|].
  split; [exists Samples.body_without_pdf; repeat split|].
  split; reflexivity.
Defined.

Lemma reply_independent_of_store_witness :
  reaches_model_output Samples.paris_world Samples.alice Samples.question Null
                       Samples.paris_response /\
  text Samples.paris_response = Returns (lit "Paris.") /\
  lit "Paris." <> [] /\
  fst (POST (with_store Samples.paris_world Samples.store_down))
    = Responded (json (reply_body (lit "Paris."))) /\
  Samples.store_down (reply_record Samples.alice Samples.question Null (lit "Paris."))
    <> None.
Proof.
  assert (Hne : lit "Paris." <> []) by discriminate.
  split; [exact paris_world_reaches_model_output|].
  split; [reflexivity|]. split; [exact Hne|]. split; [|discriminate].
  exact (proj1 (reply_independent_of_store
                  Samples.paris_world Samples.alice Samples.question Null
                  Samples.paris_response (lit "Paris.")
                  paris_world_reaches_model_output eq_refl Hne Samples.store_down)).
Defined.

End SuccessfulTurn.

(** ** Unexpected failures *)

Section UnexpectedFailure.

Import ChatRoute.

(** What [POST] does once the [try] block has thrown. *)
Lemma POST_after_throw w error l :
  truthy_opt (GEMINI_API_KEY w) = true ->
  try_block w initial = (Throw error, l) ->
  POST w =
    (Responded (json_status (error_body (errorMessage error)) 500),
     if truthy_opt (userIdForDb l)
     then [error_record (userIdForDb l) (originalUserQuery l) error]
     else []).
Proof.
  intros Hkey Hthrow.
  destruct (try_block_throws w error l Hthrow) as [Hlog _].
  rewrite POST_configured by exact Hkey.
  unfold try_catch. rewrite Hthrow.
  unfold catch_block, bind, get_userIdForDb, get_originalUserQuery, db_insert,
    return_, ret.
  destruct (truthy_opt (userIdForDb l)); simpl; [|now rewrite Hlog].
  now rewrite Hlog.
Qed.




(** C5 as stated fails in both handlers: the exception message of a model
    client outage and the database error message of a failed select are
    sent to the caller verbatim. *)
Lemma internal_detail_reaches_caller :
  fst (POST Samples.outage_world)
    = Responded (json_status
                   (error_body (lit "fetch failed: connect ECONNREFUSED 10.0.0.5:443"))
                   500) /\
  fst (ChatHistoryRoute.GET Samples.broken_history_world)
    = json_status
        (ChatHistoryRoute.error_body
           (lit "Failed to fetch chat history. relation public.chat_messages does not exist"))
        500.
Proof. split; vm_compute; reflexivity. Qed.

(** C5, amended.  An exception in the chat handler is answered with status
    500 and, as message, the exception's own message when it has a
    non-empty one and the fixed text "An unexpected error occurred while
    processing your chat request." otherwise; a failed select in the
    history handler is answered with status 500 and the fixed text "Failed
    to fetch chat history. " followed by the database error message. *)
Theorem internal_failure_messages
    w error l (hw : ChatHistoryRoute.World) (u : Supabase.User)
    (dbError : Supabase.DbError) :
  truthy_opt (GEMINI_API_KEY w) = true ->
  try_block w initial = (Throw error, l) ->
  ChatHistoryRoute.getUser hw = Returns (Some u) ->
  ChatHistoryRoute.select hw (Supabase.id u) = ChatHistoryRoute.Error dbError ->
  (exists msg,
      fst (POST w) = Responded (json_status (error_body msg) 500) /\
      (forall m, message error = Some m -> m <> [] -> msg = m) /\
      (message error = None \/ message error = Some [] ->
         msg = unexpected_error_message)) /\
  fst (ChatHistoryRoute.GET hw)
    = json_status
        (ChatHistoryRoute.error_body
           (lit "Failed to fetch chat history. " ++ Supabase.message dbError))
        500.
Proof.
  intros Hkey Hthrow Huser Hselect. split.
  - exists (errorMessage error). split; [|split].
    + now rewrite (POST_after_throw w error l Hkey Hthrow).
    + intros m Hm Hne. unfold errorMessage. rewrite Hm. simpl.
      apply str_eqb_neq in Hne. now rewrite Hne.
    + intros [Hm | Hm]; unfold errorMessage; now rewrite Hm.
  - unfold ChatHistoryRoute.GET. now rewrite Huser, Hselect.
Qed.

Lemma internal_failure_messages_witness :
  truthy_opt (GEMINI_API_KEY Samples.outage_world) = true /\
  try_block Samples.outage_world initial
    = (Throw Samples.outage, accepted Samples.alice Samples.question) /\
  ChatHistoryRoute.getUser Samples.broken_history_world
    = Returns (Some Samples.alice) /\
  ChatHistoryRoute.select Samples.broken_history_world (Supabase.id Samples.alice)
    = ChatHistoryRoute.Error Samples.relation_missing /\
  (exists msg,
      fst (POST Samples.outage_world)
        = Responded (json_status (error_body msg) 500) /\
      (forall m, message Samples.outage = Some m -> m <> [] -> msg = m) /\
      (message Samples.outage = None \/ message Samples.outage = Some [] ->
         msg = unexpected_error_message)) /\
  fst (ChatHistoryRoute.GET Samples.broken_history_world)
    = json_status
        (ChatHistoryRoute.error_body
           (lit "Failed to fetch chat history. "
            ++ Supabase.message Samples.relation_missing))
        500.
Proof.
  split; [reflexivity|]. split; [reflexivity|].
  split; [reflexivity|]. split; [reflexivity|].
  exact (internal_failure_messages
           Samples.outage_world Samples.outage
           (accepted Samples.alice Samples.question)
           Samples.broken_history_world Samples.alice
           Samples.relation_missing eq_refl eq_refl eq_refl eq_refl).
Defined.

(** The outage request, run to the end: the caller gets the exception
    text, and the one insert attempted is the error record. *)
Example outage_turn :
  POST Samples.outage_world =
    (Responded (json_status
                  (error_body (lit "fetch failed: connect ECONNREFUSED 10.0.0.5:443"))
                  500),
     [ {| user_id := Some (Supabase.id Samples.alice);
          user_query := Str Samples.question;
          bot_response :=
            lit "SYSTEM ERROR: fetch failed: connect ECONNREFUSED 10.0.0.5:443";
          pdf_context_used := Bool false;
          isError := Some true |} ]).
Proof. reflexivity. Qed.

(** An exception without a message gets the fixed text. *)
Example errorMessage_default :
  errorMessage {| message := None |} = unexpected_error_message /\
  errorMessage {| message := Some [] |} = unexpected_error_message.
Proof. split; reflexivity. Qed.

End UnexpectedFailure.

(** ** Callers without a session *)

Section Unauthorized.

Import ChatRoute.

(** Without a user the chat handler stops before it reads the body: the
    answer depends on the API key alone and nothing is inserted. *)
Lemma POST_without_user w :
  getUser w = Returns None ->
  POST w = (Responded (if truthy_opt (GEMINI_API_KEY w)
                       then unauthorized_chat
                       else configuration_error),
            []).
Proof.
  intros Huser. unfold POST, try_catch, try_block, bind.
  rewrite Huser. now destruct (truthy_opt (GEMINI_API_KEY w)).
Qed.

(** C4 as stated fails for the chat operation: with no API key in the
    environment, a caller without a session is answered 500, not 401. *)
Lemma anonymous_chat_not_401_without_api_key :
  getUser Samples.unconfigured_anonymous_world = Returns None /\
  POST Samples.unconfigured_anonymous_world = (Responded configuration_error, []) /\
  status configuration_error <> 401.
Proof. split; [reflexivity|]. split; [reflexivity | discriminate]. Qed.

(** C4, amended.  For a caller without a resolvable identity (the auth
    provider answers without a user), neither operation touches the store:
    the chat operation attempts no insert (no normal record and no error
    record) and the history operation performs no store operation.  The
    history operation answers Unauthorized (401); the chat operation answers
    Unauthorized (401) when the API key is configured, and the
    configuration error (500) otherwise. *)
Theorem unauthorized_without_writes (w : World) (hw : ChatHistoryRoute.World) :
  getUser w = Returns None ->
  ChatHistoryRoute.getUser hw = Returns None ->
  POST w = (Responded (if truthy_opt (GEMINI_API_KEY w)
                       then unauthorized_chat
                       else configuration_error),
            []) /\
  status unauthorized_chat = 401 /\
  status configuration_error = 500 /\
  ChatHistoryRoute.GET hw = (unauthorized_history, []) /\
  status unauthorized_history = 401.
Proof.
  intros Huser Hhuser.
  split; [exact (POST_without_user w Huser)|].
  split; [reflexivity|]. split; [reflexivity|]. split; [|reflexivity].
  unfold ChatHistoryRoute.GET. now rewrite Hhuser.
Qed.

Lemma unauthorized_without_writes_witness :
  getUser Samples.anonymous_world = Returns None /\
  ChatHistoryRoute.getUser Samples.anonymous_history_world = Returns None /\
  POST Samples.anonymous_world = (Responded unauthorized_chat, []) /\
  ChatHistoryRoute.GET Samples.anonymous_history_world = (unauthorized_history, []).
Proof.
  split; [reflexivity|]. split; [reflexivity|].
  destruct (unauthorized_without_writes
              Samples.anonymous_world Samples.anonymous_history_world
              eq_refl eq_refl)
    as (Hpost & _ & _ & Hget & _).
  split; [exact Hpost | exact Hget].
Defined.

(** The same holds when the auth provider itself fails: the exception is
    answered 500 and nothing is inserted, no user id being known. *)
Lemma auth_failure_without_writes w error :
  truthy_opt (GEMINI_API_KEY w) = true ->
  getUser w = Throws error ->
  POST w = (Responded (json_status (error_body (errorMessage error)) 500), []).
Proof.
  intros Hkey Huser.
  assert (Hthrow : try_block w initial = (Throw error, initial)).
  { unfold try_block, bind. now rewrite Huser. }
  now rewrite (POST_after_throw w error initial Hkey Hthrow).
Qed.

(** C10 as stated fails: with an empty API key, an unauthenticated request
    with a malformed body is answered 500, not 401. *)
Lemma anonymous_malformed_not_401_without_api_key :
  getUser Samples.unconfigured_malformed_world = Returns None /\
  request_json Samples.unconfigured_malformed_world = Throws Samples.malformed_json /\
  fst (POST Samples.unconfigured_malformed_world) = Responded configuration_error /\
  status configuration_error <> 401.
Proof.
  split; [reflexivity|]. split; [reflexivity|].
  split; [reflexivity | discriminate].
Qed.

(** C10, amended.  The identity check precedes body parsing and query
    validation: two requests without a resolvable caller identity that run
    under the same API key configuration get the same answer and the same
    (empty) insert log whatever their bodies, the model and the store do;
    that answer is Unauthorized (401) when the API key is configured and
    the configuration error (500) otherwise, hence never a validation (400)
    response. *)
Theorem identity_check_precedes_body (w w' : World) :
  GEMINI_API_KEY w = GEMINI_API_KEY w' ->
  getUser w = Returns None ->
  getUser w' = Returns None ->
  POST w = POST w' /\
  exists r,
    POST w = (Responded r, []) /\
    r = (if truthy_opt (GEMINI_API_KEY w)
         then unauthorized_chat
         else configuration_error) /\
    status r <> 400.
Proof.
  intros Hkey Huser Huser'.
  rewrite (POST_without_user w Huser), (POST_without_user w' Huser'), Hkey.
  split; [reflexivity|].
  eexists. split; [reflexivity|]. split; [reflexivity|].
  destruct (truthy_opt (GEMINI_API_KEY w')); discriminate.
Qed.

Lemma identity_check_precedes_body_witness :
  GEMINI_API_KEY Samples.anonymous_world
    = GEMINI_API_KEY Samples.anonymous_malformed_world /\
  getUser Samples.anonymous_world = Returns None /\
  getUser Samples.anonymous_malformed_world = Returns None /\
  POST Samples.anonymous_world = POST Samples.anonymous_malformed_world.
Proof.
  split; [reflexivity|]. split; [reflexivity|]. split; [reflexivity|].
  exact (proj1 (identity_check_precedes_body
                  Samples.anonymous_world Samples.anonymous_malformed_world
                  eq_refl eq_refl eq_refl)).
Defined.

End Unauthorized.

(** ** Merging fetched history into the transcript *)

Section MergeHistory.

Import ChatbotPage.

Variable Date_getTime : jsstring -> option Z.

#[local] Abbreviation getTime := (getTime Date_getTime).
#[local] Abbreviation sorts_after := (sorts_after Date_getTime).
#[local] Abbreviation insert_sorted := (insert_sorted Date_getTime).
#[local] Abbreviation sort := (sort Date_getTime).
#[local] Abbreviation mergeHistory := (mergeHistory Date_getTime).
#[local] Abbreviation time_le := (time_le Date_getTime).

(** *** The sort rearranges and, on valid dates, orders *)

Lemma insert_sorted_perm a l : Permutation (insert_sorted a l) (a :: l).
Proof.
  induction l as [|b l IH]; simpl; [reflexivity|].
  destruct (sorts_after a b); [|reflexivity].
  rewrite IH. apply perm_swap.
Qed.

Lemma sort_perm l : Permutation (sort l) l.
Proof.
  induction l as [|a l IH]; simpl; [reflexivity|].
  rewrite insert_sorted_perm. now constructor.
Qed.

Lemma sorts_after_time a b x y :
  getTime a = Some x -> getTime b = Some y ->
  sorts_after a b = (y <? x)%Z.
Proof.
  intros Ha Hb. unfold ChatbotPage.sorts_after, compareFn. rewrite Ha, Hb.
  destruct (0 <? x - y)%Z eqn:E1, (y <? x)%Z eqn:E2; try reflexivity; lia.
Qed.

Lemma time_le_not_after a b : time_le a b -> sorts_after a b = false.
Proof.
  intros (x & y & Ha & Hb & Hle).
  rewrite (sorts_after_time a b x y Ha Hb). lia.
Qed.

Lemma insert_sorted_ordered a l :
  getTime a <> None ->
  Forall (fun m => getTime m <> None) l ->
  StronglySorted time_le l ->
  StronglySorted time_le (insert_sorted a l).
Proof.
  intros Ha Hvalid Hsorted.
  destruct (getTime a) as [x|] eqn:Hx; [clear Ha | congruence].
  induction Hsorted as [|b l Hsorted IH Hb]; simpl.
  - repeat constructor.
  - inversion Hvalid as [|? ? Hbv Hlv]; subst.
    destruct (getTime b) as [y|] eqn:Hy; [clear Hbv | congruence].
    rewrite (sorts_after_time a b x y Hx Hy).
    destruct (y <? x)%Z eqn:E.
    + constructor; [now apply IH|].
      eapply Permutation_Forall; [symmetry; apply insert_sorted_perm|].
      constructor; [|exact Hb].
      exists y, x. repeat split; auto. lia.
    + constructor; [now constructor|].
      constructor; [exists x, y; repeat split; auto; lia|].
      eapply Forall_impl; [|exact Hb].
      intros c (y' & z & Hy' & Hz & Hle). exists x, z.
      rewrite Hy in Hy'. injection Hy' as <-. repeat split; auto. lia.
Qed.

Lemma sort_ordered l :
  Forall (fun m => getTime m <> None) l -> StronglySorted time_le (sort l).
Proof.
  induction 1 as [|a l Ha Hl IH]; simpl; [constructor|].
  apply insert_sorted_ordered; auto.
  eapply Permutation_Forall; [symmetry; apply sort_perm | exact Hl].
Qed.

(** *** The sort is stable on what is already in order *)

Section Stability.

Variable keep : Msg.Message -> bool.

Lemma insert_sorted_dropped a l :
  keep a = false -> filter keep (insert_sorted a l) = filter keep l.
Proof.
  intros Ha. induction l as [|b l IH]; simpl; [now rewrite Ha|].
  destruct (sorts_after a b); simpl; [now rewrite IH | now rewrite Ha].
Qed.

Lemma insert_sorted_kept a l :
  keep a = true ->
  (forall b, In b l -> keep b = true -> sorts_after a b = false) ->
  filter keep (insert_sorted a l) = a :: filter keep l.
Proof.
  intros Ha. induction l as [|b l IH]; intros Hfront; simpl; [now rewrite Ha|].
  destruct (sorts_after a b) eqn:E; simpl; [|now rewrite Ha].
  destruct (keep b) eqn:Hb.
  - rewrite (Hfront b (or_introl eq_refl) Hb) in E. discriminate.
  - apply IH. intros c Hc. apply Hfront. now right.
Qed.

Lemma sort_stable l :
  StronglySorted (fun a b => sorts_after a b = false) (filter keep l) ->
  filter keep (sort l) = filter keep l.
Proof.
  induction l as [|a l IH]; simpl; [reflexivity|].
  destruct (keep a) eqn:Ha; intros Hsorted.
  - inversion Hsorted as [|? ? Hrest Hfront]; subst.
    rewrite insert_sorted_kept; [now rewrite IH | exact Ha |].
    intros b Hb Hkb. rewrite Forall_forall in Hfront. apply Hfront.
    apply filter_In. split; [|exact Hkb].
    eapply Permutation_in; [apply sort_perm | exact Hb].
  - rewrite insert_sorted_dropped by exact Ha. now apply IH.
Qed.

End Stability.

(** *** The merge *)

Lemma has_own_id (l : list Msg.Message) (m : Msg.Message) :
  In m l -> has (map Msg.id l) (Msg.id m) = true.
Proof.
  intros Hm. unfold has. apply existsb_exists.
  exists (Msg.id m). split; [now apply in_map | apply str_eqb_refl].
Qed.

Lemma visible_prev (prevMessages : list Msg.Message) :
  visible prevMessages prevMessages = prevMessages.
Proof.
  unfold visible. apply forallb_filter_id. apply forallb_forall.
  intros m Hm. now apply has_own_id.
Qed.

Lemma visible_unseen (historyMessages prevMessages : list Msg.Message) :
  visible prevMessages (unseen historyMessages prevMessages) = [].
Proof.
  unfold visible, unseen.
  induction historyMessages as [|h l IH]; simpl; [reflexivity|].
  destruct (has (map Msg.id prevMessages) (Msg.id h)) eqn:E; simpl; [exact IH|].
  now rewrite E.
Qed.

Lemma StronglySorted_not_after (l : list Msg.Message) :
  StronglySorted time_le l ->
  StronglySorted (fun a b => sorts_after a b = false) l.
Proof.
  induction 1 as [|a l Hl IH Ha]; constructor; [exact IH|].
  eapply Forall_impl; [|exact Ha]. intros b. apply time_le_not_after.
Qed.

(** C9, amended.  For fetched and displayed messages whose timestamps are
    all valid dates, the merge produces a list that contains exactly the
    displayed messages plus those fetched messages whose identifier does not
    occur among the displayed ones, in ascending timestamp order; and if
    the displayed messages were themselves in ascending timestamp order,
    they keep their relative order in the merged list. *)
Theorem mergeHistory_union_sorted_stable
    (historyMessages prevMessages : list Msg.Message) :
  Forall (fun m => getTime m <> None) (historyMessages ++ prevMessages) ->
  Permutation (mergeHistory historyMessages prevMessages)
              (prevMessages ++ unseen historyMessages prevMessages) /\
  StronglySorted time_le (mergeHistory historyMessages prevMessages) /\
  (StronglySorted time_le prevMessages ->
   visible prevMessages (mergeHistory historyMessages prevMessages) = prevMessages).
Proof.
  intros Hvalid. unfold ChatbotPage.mergeHistory.
  fold (unseen historyMessages prevMessages).
  apply Forall_app in Hvalid as [Hhist Hprevvalid].
  split; [|split].
  - rewrite sort_perm. apply Permutation_app_comm.
  - apply sort_ordered. apply Forall_app. split; [|exact Hprevvalid].
    unfold unseen. rewrite Forall_forall in *. intros m Hm.
    apply filter_In in Hm as [Hm _]. now apply Hhist.
  - intros Hprev.
    assert (Hvisible : visible prevMessages
                         (unseen historyMessages prevMessages ++ prevMessages)
                       = prevMessages).
    { unfold visible. rewrite filter_app.
      fold (visible prevMessages (unseen historyMessages prevMessages)).
      fold (visible prevMessages prevMessages).
      now rewrite visible_unseen, visible_prev. }
    unfold visible in *. rewrite sort_stable; [exact Hvisible|].
    rewrite Hvisible. now apply StronglySorted_not_after.
Qed.

End MergeHistory.

Lemma mergeHistory_union_sorted_stable_witness :
  Forall (fun m => ChatbotPage.getTime Samples.clock m <> None)
         (Samples.fetched ++ Samples.ascending_transcript) /\
  StronglySorted (time_le Samples.clock) Samples.ascending_transcript /\
  ChatbotPage.mergeHistory Samples.clock Samples.fetched Samples.ascending_transcript
    = [Samples.older_message; Samples.loaded_notice; Samples.reply_message] /\
  visible Samples.ascending_transcript
          (ChatbotPage.mergeHistory Samples.clock Samples.fetched
                                    Samples.ascending_transcript)
    = Samples.ascending_transcript.
Proof.
  assert (Hvalid : Forall (fun m => ChatbotPage.getTime Samples.clock m <> None)
                          (Samples.fetched ++ Samples.ascending_transcript)).
  { repeat constructor; discriminate. }
  assert (Hprev : StronglySorted (time_le Samples.clock) Samples.ascending_transcript).
  { repeat constructor.
    exists 1714557601000%Z, 1714557602000%Z.
    split; [reflexivity|]. split; [reflexivity|]. discriminate. }
  split; [exact Hvalid|]. split; [exact Hprev|]. split; [reflexivity|].
  exact (proj2 (proj2 (mergeHistory_union_sorted_stable
                         Samples.clock Samples.fetched Samples.ascending_transcript
                         Hvalid))
               Hprev).
Defined.

(** C9 as stated fails: two displayed messages whose timestamps descend (a
    reply stamped by a server clock that runs ahead, then a notice stamped
    by the browser) change places in the merge, even with nothing
    fetched. *)
Lemma mergeHistory_reorders_displayed_messages :
  ChatbotPage.mergeHistory Samples.clock [] Samples.descending_transcript
    = [Samples.loaded_notice; Samples.reply_message] /\
  visible Samples.descending_transcript
          (ChatbotPage.mergeHistory Samples.clock [] Samples.descending_transcript)
    <> Samples.descending_transcript.
Proof. split; [reflexivity | discriminate]. Qed.

(* ================================================================== *)
(** * Further properties of the modelled code *)
(* ================================================================== *)

(** ** More on strings *)

Lemma has_ink_forallb (s : jsstring) :
  has_ink s = negb (forallb is_white_space s).
Proof.
  unfold has_ink. induction s as [|c s IH]; simpl; [reflexivity|].
  rewrite IH. now destruct (is_white_space c).
Qed.

Lemma trim_nonempty_iff (s : jsstring) :
  str_eqb (trim s) [] = false <-> has_ink s = true.
Proof.
  rewrite has_ink_forallb, negb_true_iff, str_eqb_neq, trim_nil.
  now destruct (forallb is_white_space s).
Qed.

Lemma trimEnd_keeps_ink (s : jsstring) : has_ink (trimEnd s) = has_ink s.
Proof.
  unfold has_ink. induction s as [|c s IH]; simpl; [reflexivity|].
  destruct (trimEnd s) as [|k kept] eqn:E.
  - simpl in IH. rewrite <- IH.
    destruct (is_white_space c) eqn:Ec; simpl; [reflexivity | now rewrite Ec].
  - simpl. now rewrite <- IH.
Qed.

Lemma trimStart_keeps_ink (s : jsstring) : has_ink (trimStart s) = has_ink s.
Proof.
  unfold has_ink. induction s as [|c s IH]; simpl; [reflexivity|].
  destruct (is_white_space c) eqn:E; simpl; [exact IH | now rewrite E].
Qed.

(** Trimming does not remove the last bit of content. *)
Lemma trim_keeps_ink (s : jsstring) : has_ink (trim s) = has_ink s.
Proof. unfold trim. now rewrite trimEnd_keeps_ink, trimStart_keeps_ink. Qed.

(** ** More on the chat route *)

Section ChatRouteMore.

Import ChatRoute.

Lemma query_rejected_string (q : jsstring) :
  query_rejected (Str q) = negb (has_ink q).
Proof.
  unfold query_rejected, trims_to_empty. simpl.
  destruct (has_ink q) eqn:Hink.
  - apply trim_nonempty_iff in Hink. rewrite Hink.
    destruct q; [discriminate | reflexivity].
  - assert (H : str_eqb (trim q) [] = true).
    { destruct (str_eqb (trim q) []) eqn:E; [reflexivity|].
      apply trim_nonempty_iff in E. congruence. }
    rewrite H. apply orb_true_r.
Qed.

(** X1.  The query test of the chat route accepts exactly the values that
    are strings with at least one code unit that is not white space;
    everything else (a missing query, null, a number, a boolean, an array,
    an object, an empty or blank string) is rejected. *)
Theorem query_accepted_iff (query : value) :
  query_rejected query = false <-> exists q, query = Str q /\ has_ink q = true.
Proof.
  split.
  - intros H. destruct (accepted_query_string query H) as [q [-> _]].
    exists q. split; [reflexivity|].
    unfold query_rejected in H. apply orb_false_iff in H as [_ H].
    now apply trim_nonempty_iff.
  - intros [q [-> Hink]]. unfold query_rejected, trims_to_empty. simpl.
    apply trim_nonempty_iff in Hink. rewrite Hink.
    destruct q; [discriminate | reflexivity].
Qed.

(** X2.  A logged-in caller whose JSON body (any value but null) carries no
    acceptable query is answered 400 "Query is required and must be a
    non-empty string."; nothing is inserted, and neither the model nor the
    store has a say in the answer. *)
Theorem rejected_query_answer w u body :
  truthy_opt (GEMINI_API_KEY w) = true ->
  getUser w = Returns (Some u) ->
  request_json w = Returns body ->
  body <> Null -> body <> Undefined ->
  query_rejected (prop body (lit "query")) = true ->
  POST w = (Responded query_required, []).
Proof.
  intros Hkey Huser Hbody Hnull Hundef Hq.
  rewrite POST_configured by exact Hkey.
  unfold try_catch, try_block, bind. rewrite Huser, Hbody. simpl.
  destruct body; try contradiction; simpl; simpl in Hq;
    try rewrite Hq; reflexivity.
Qed.

Lemma rejected_query_answer_witness :
  truthy_opt (GEMINI_API_KEY Scenarios.blank_query_world) = true /\
  getUser Scenarios.blank_query_world = Returns (Some Samples.alice) /\
  query_rejected (Str (lit "   ")) = true /\
  POST Scenarios.blank_query_world = (Responded query_required, []).
Proof.
  split; [reflexivity|]. split; [reflexivity|]. split; [reflexivity|].
  apply (rejected_query_answer Scenarios.blank_query_world Samples.alice
           (Obj [ (lit "query", Str (lit "   ")); (lit "pdfText", Null) ]));
    try reflexivity; discriminate.
Defined.

(** Which [pdfText] values count as document context. *)
Lemma context_used_characterised (pdfText : value) :
  truthy (wasPdfContextUsed pdfText) = true <->
  exists p, pdfText = Str p /\ has_ink p = true.
Proof.
  destruct (wasPdfContextUsed_value pdfText) as [Ht _]. rewrite Ht. split.
  - intros H. apply andb_true_iff in H as [Hs Hn].
    destruct pdfText; try discriminate. exists s. split; [reflexivity|].
    apply trim_nonempty_iff. now apply negb_true_iff in Hn.
  - intros [p [-> Hink]]. simpl. unfold trims_to_empty. simpl.
    apply trim_nonempty_iff in Hink. now rewrite Hink.
Qed.

(** X3.  Without usable document text, that is when [pdfText] is missing,
    null, not a string, or a string of white space only, the prompt is the
    bare question form "User Question: <query>\nAnswer:" with no document
    framing. *)
Theorem prompt_without_context (query : jsstring) (pdfText : value) :
  (forall p, pdfText = Str p -> has_ink p = false) ->
  fullPrompt (Str query) pdfText = lit "User Question: " ++ query ++ LF ++ lit "Answer:".
Proof.
  intros Hblank. unfold fullPrompt.
  destruct (truthy (wasPdfContextUsed pdfText)) eqn:E; [|reflexivity].
  apply context_used_characterised in E as [p [-> Hink]].
  rewrite (Hblank p eq_refl) in Hink. discriminate.
Qed.

Lemma prompt_without_context_witness :
  (forall p, Str (lit "  " ++ LF) = Str p -> has_ink p = false) /\
  fullPrompt (Str Samples.question) (Str (lit "  " ++ LF))
    = lit "User Question: What is the capital of France?" ++ LF ++ lit "Answer:".
Proof.
  assert (H : forall p, Str (lit "  " ++ LF) = Str p -> has_ink p = false).
  { intros p [= <-]. reflexivity. }
  split; [exact H|].
  exact (prompt_without_context Samples.question (Str (lit "  " ++ LF)) H).
Defined.

Lemma truncatedPdfText_length (pdfText : jsstring) :
  str_length (truncatedPdfText pdfText) <= 70041.
Proof.
  unfold truncatedPdfText, MAX_PDF_TEXT_LENGTH.
  destruct (70000 <? str_length pdfText) eqn:E.
  - assert (Hmarker : List.length truncation_marker = 41%nat) by reflexivity.
    unfold str_length, substring0.
    rewrite length_app, length_firstn, Hmarker. lia.
  - apply N.ltb_ge in E. lia.
Qed.

Lemma document_prompt_length (embedded query : jsstring) :
  str_length (document_prompt embedded query)
  = 383 + str_length embedded + str_length query.
Proof.
  unfold document_prompt, str_length.
  repeat rewrite length_app.
  repeat match goal with
         | |- context [List.length (lit ?x)] =>
             let n := eval vm_compute in (List.length (lit x)) in
             change (List.length (lit x)) with n
         end.
  change (List.length LF) with 1%nat. lia.
Qed.

(** X4.  Whatever the size of the document, the prompt sent to the model is
    at most 70,424 code units longer than the query: the 383 of the
    template, the 70,000 kept of the document and the 41 of the truncation
    marker. *)
Theorem fullPrompt_length_bound (query : jsstring) (pdfText : value) :
  str_length (fullPrompt (Str query) pdfText) <= 70424 + str_length query.
Proof.
  unfold fullPrompt. destruct (truthy (wasPdfContextUsed pdfText)).
  - rewrite document_prompt_length.
    pose proof (truncatedPdfText_length (as_string pdfText)).
    simpl as_string. lia.
  - unfold question_prompt, str_length. repeat rewrite length_app.
    change (List.length (lit "User Question: ")) with 15%nat.
    change (List.length (lit "Answer:")) with 7%nat.
    change (List.length LF) with 1%nat. simpl as_string. lia.
Qed.

(** **** Every way the handler can end *)

Lemma errorMessage_nonempty (error : JsError) : errorMessage error <> [].
Proof.
  unfold errorMessage. destruct (message error) as [m|]; simpl.
  - destruct (str_eqb m []) eqn:E; simpl; [discriminate | now apply str_eqb_neq].
  - discriminate.
Qed.

Lemma empty_text_response_error_answer (response : GenerateContentResponse) :
  error_answer (empty_text_response response).
Proof.
  rewrite empty_text_response_table. unfold error_answer.
  repeat match goal with
         | |- context [if ?c then _ else _] => destruct c
         end;
    eexists; (split; [reflexivity|]); (split; [discriminate | auto]).
Qed.

(** The [try] block never falls off its end, and when it returns it has
    either sent an error answer without inserting anything or sent a reply
    after attempting to insert its record. *)
Lemma try_block_returns w (s : Step (Response Body)) l :
  try_block w initial = (s, l) ->
  (exists error, s = Throw error) \/
  (exists r, s = Return r /\ error_answer r /\ inserts l = []) \/
  (exists u query pdfText responseText,
      s = Return (json (reply_body responseText)) /\
      responseText <> [] /\
      getUser w = Returns (Some u) /\
      inserts l = [reply_record u query pdfText responseText]).
Proof.
  assert (fixed : forall (msg : string) code l0,
             lit msg <> [] -> (code = 400 \/ code = 401 \/ code = 500) ->
             inserts l0 = [] ->
             (@Return (Response Body) (json_status (error_body (lit msg)) code), l0)
             = (s, l) ->
             (exists error, s = Throw error) \/
             (exists r, s = Return r /\ error_answer r /\ inserts l = []) \/
             (exists u query pdfText responseText,
                 s = Return (json (reply_body responseText)) /\
                 responseText <> [] /\
                 getUser w = Returns (Some u) /\
                 inserts l = [reply_record u query pdfText responseText])).
  { intros msg code l0 Hmsg Hcode Hl0 [= <- <-]. right. left.
    eexists. split; [reflexivity|]. split; [|exact Hl0].
    exists (lit msg). auto. }
  unfold try_block, bind, return_.
  destruct (getUser w) as [[u|]|e0] eqn:Huser; simpl;
    [| apply fixed; auto; discriminate | intros [= <- <-]; eauto].
  destruct (request_json w) as [body|e1]; simpl; [| intros [= <- <-]; eauto].
  destruct (destructure body _) as [[[query pdfText]|r|e] l4] eqn:Hd.
  - assert (Hl4 : l4 = {| userIdForDb := Some (Supabase.id u);
                         originalUserQuery := Str (lit "User query not available");
                         inserts := [] |}).
    { destruct body; simpl in Hd; try discriminate; now injection Hd. }
    subst l4. simpl.
    destruct (query_rejected query) eqn:Hq; [apply fixed; auto; discriminate|].
    destruct (accepted_query_string query Hq) as [q [-> Hqt]].
    unfold logical_or. rewrite Hqt.
    destruct (generateContent w _) as [[response|]|e2]; simpl;
      [| apply fixed; auto; discriminate | intros [= <- <-]; eauto].
    destruct (text response) as [responseText|e3]; simpl;
      [| intros [= <- <-]; eauto].
    destruct (str_eqb responseText []) eqn:Ht; intros [= <- <-].
    + right. left. eexists. split; [reflexivity|].
      split; [apply empty_text_response_error_answer | reflexivity].
    + right. right. exists u, q, pdfText, responseText.
      split; [reflexivity|]. split; [now apply str_eqb_neq|].
      split; reflexivity.
  - destruct body; simpl in Hd; discriminate.
  - intros [= <- <-]. eauto.
Qed.

(** How [POST] ends, in full: an error answer with no insert or with the
    one error record of the [catch] block, or a reply with its record. *)
Lemma POST_outcomes w :
  exists r,
    fst (POST w) = Responded r /\
    ((error_answer r /\
      (snd (POST w) = [] \/
       exists u query error,
         getUser w = Returns (Some u) /\
         snd (POST w) = [error_record (Some (Supabase.id u)) (Str query) error])) \/
     (exists u query pdfText responseText,
         r = json (reply_body responseText) /\
         responseText <> [] /\
         getUser w = Returns (Some u) /\
         snd (POST w) = [reply_record u query pdfText responseText])).
Proof.
  destruct (truthy_opt (GEMINI_API_KEY w)) eqn:Hkey.
  - destruct (try_block w initial) as [s l] eqn:Htry.
    destruct (try_block_returns w s l Htry)
      as [[error ->] | [(r & -> & Herr & Hlog) | (u & q & p & t & -> & Ht & Hu & Hlog)]].
    + rewrite (POST_after_throw w error l Hkey Htry). simpl.
      eexists. split; [reflexivity|]. left. split.
      * exists (errorMessage error).
        split; [reflexivity|]. split; [apply errorMessage_nonempty | auto].
      * destruct (truthy_opt (userIdForDb l)) eqn:Hid; [|now left].
        right. pose proof (try_block_throws w error l Htry) as [_ Hlocals].
        destruct (getUser w) as [[u|]|e0];
          try (rewrite Hlocals in Hid; discriminate).
        destruct Hlocals as [Huid [query Hquery]].
        exists u, query, error. split; [reflexivity|].
        now rewrite Huid, Hquery.
    + rewrite POST_configured by exact Hkey. unfold try_catch. rewrite Htry. simpl.
      exists r. split; [reflexivity|]. left. split; [exact Herr | now left].
    + rewrite POST_configured by exact Hkey. unfold try_catch. rewrite Htry. simpl.
      eexists. split; [reflexivity|]. right. exists u, q, p, t. auto.
  - unfold POST. rewrite Hkey. simpl.
    eexists. split; [reflexivity|]. left. split; [|now left].
    eexists. split; [reflexivity|]. split; [discriminate | auto].
Qed.

(** X5.  One invocation of the chat route attempts at most one insert, and
    the row it inserts names as owner the user that the auth provider
    reported for this request. *)
Theorem inserts_at_most_one_owned w :
  (List.length (snd (POST w)) <= 1)%nat /\
  forall row, In row (snd (POST w)) ->
    exists u, getUser w = Returns (Some u) /\ user_id row = Some (Supabase.id u).
Proof.
  destruct (POST_outcomes w)
    as (r & _ & [(_ & [Hlog | (u & q & e & Hu & Hlog)])
                | (u & q & p & t & _ & _ & Hu & Hlog)]);
    rewrite Hlog; (split; [simpl; lia|]); intros row Hin; simpl in Hin;
    try contradiction; destruct Hin as [<- | []]; exists u; auto.
Qed.

(** X6.  An answer of the chat route has status 200, 400, 401 or 500.  A
    200 answer carries a non-empty reply and comes with exactly one
    attempted insert, not marked as error, whose bot_response is that
    reply; every other answer carries a non-empty error text. *)
Theorem POST_answers w r :
  fst (POST w) = Responded r ->
  (status r = 200 \/ status r = 400 \/ status r = 401 \/ status r = 500) /\
  (status r = 200 ->
     exists reply row,
       body r = reply_body reply /\ reply <> [] /\
       snd (POST w) = [row] /\ bot_response row = reply /\ isError row = None) /\
  (status r <> 200 -> exists error, body r = error_body error /\ error <> []).
Proof.
  intros Hanswer.
  destruct (POST_outcomes w)
    as (r' & Hr & [((e & Hbody & He & Hcode) & _)
                  | (u & q & p & t & Heq & Ht & _ & Hlog)]);
    rewrite Hr in Hanswer; injection Hanswer as <-.
  - split; [tauto|]. split.
    + intros H200. destruct Hcode as [H | [H | H]]; rewrite H in H200; discriminate.
    + intros _. now exists e.
  - subst r'. split; [now left|]. split.
    + intros _. exists t, (reply_record u q p t). auto.
    + intros H. now elim H.
Qed.

Lemma POST_answers_witness :
  fst (POST Samples.paris_world) = Responded (json (reply_body (lit "Paris."))) /\
  exists row,
    snd (POST Samples.paris_world) = [row] /\
    bot_response row = lit "Paris." /\ isError row = None.
Proof.
  assert (Hanswer : fst (POST Samples.paris_world)
                    = Responded (json (reply_body (lit "Paris.")))) by reflexivity.
  split; [exact Hanswer|].
  destruct (POST_answers Samples.paris_world (json (reply_body (lit "Paris.")))
              Hanswer) as (_ & H200 & _).
  destruct (H200 eq_refl) as (reply & row & Hbody & _ & Hlog & Hrow & Hmark).
  injection Hbody as <-.
  exists row. split; [exact Hlog|]. split; [exact Hrow | exact Hmark].
Defined.

(** X7.  When a logged-in caller's body cannot be read (it is not JSON, or
    it is the JSON value null), the answer is 500 with the parser's or the
    engine's message, and the one record attempted is an error record of
    that caller whose user_query is the placeholder "User query not
    available". *)
Theorem unreadable_body_answer w u error :
  truthy_opt (GEMINI_API_KEY w) = true ->
  getUser w = Returns (Some u) ->
  Supabase.id u <> [] ->
  request_json w = Throws error \/
  (request_json w = Returns Null /\ error = destructure_TypeError) ->
  POST w =
    (Responded (json_status (error_body (errorMessage error)) 500),
     [ {| user_id := Some (Supabase.id u);
          user_query := Str (lit "User query not available");
          bot_response := lit "SYSTEM ERROR: " ++ errorMessage error;
          pdf_context_used := Bool false;
          isError := Some true |} ]).
Proof.
  intros Hkey Huser Hid Hbody.
  assert (Hthrow : try_block w initial
                   = (Throw error,
                      {| userIdForDb := Some (Supabase.id u);
                         originalUserQuery := Str (lit "User query not available");
                         inserts := [] |})).
  { unfold try_block, bind. rewrite Huser. simpl.
    destruct Hbody as [-> | [-> ->]]; reflexivity. }
  rewrite (POST_after_throw w error _ Hkey Hthrow). simpl.
  apply str_eqb_neq in Hid. now rewrite Hid.
Qed.

Lemma unreadable_body_answer_witness :
  truthy_opt (GEMINI_API_KEY Scenarios.malformed_world) = true /\
  getUser Scenarios.malformed_world = Returns (Some Samples.alice) /\
  Supabase.id Samples.alice <> [] /\
  request_json Scenarios.malformed_world = Throws Samples.malformed_json /\
  POST Scenarios.malformed_world =
    (Responded (json_status (error_body (lit "Unexpected end of JSON input")) 500),
     [ {| user_id := Some (Supabase.id Samples.alice);
          user_query := Str (lit "User query not available");
          bot_response := lit "SYSTEM ERROR: Unexpected end of JSON input";
          pdf_context_used := Bool false;
          isError := Some true |} ]).
Proof.
  assert (Hid : Supabase.id Samples.alice <> []) by discriminate.
  split; [reflexivity|]. split; [reflexivity|]. split; [exact Hid|].
  split; [reflexivity|].
  exact (unreadable_body_answer Scenarios.malformed_world Samples.alice
           Samples.malformed_json eq_refl eq_refl Hid (or_introl eq_refl)).
Defined.

(** X8.  When the model client resolves without a response object, the
    caller is answered 500 "Gemini API communication error. No response
    object." and nothing is inserted, not even an error record. *)
Theorem missing_response_object_answer w u query pdfText :
  truthy_opt (GEMINI_API_KEY w) = true ->
  getUser w = Returns (Some u) ->
  (exists body,
      request_json w = Returns body /\
      prop body (lit "query") = Str query /\
      prop body (lit "pdfText") = pdfText) ->
  query_rejected (Str query) = false ->
  generateContent w (fullPrompt (Str query) pdfText) = Returns None ->
  POST w = (Responded no_response_object, []).
Proof.
  intros Hkey Huser (body & Hbody & Hquery & Hpdf) Hok Hgen.
  pose proof (accepted_query_truthy query Hok) as Htruthy.
  rewrite POST_configured by exact Hkey.
  unfold try_catch, try_block, bind. rewrite Huser, Hbody. simpl.
  destruct body; simpl in Hquery; try discriminate.
  simpl. simpl in Hpdf. rewrite Hquery, Hpdf, Hok.
  unfold logical_or. rewrite Htruthy. simpl.
  now rewrite Hgen.
Qed.

Lemma missing_response_object_answer_witness :
  truthy_opt (GEMINI_API_KEY Scenarios.silent_world) = true /\
  getUser Scenarios.silent_world = Returns (Some Samples.alice) /\
  query_rejected (Str Samples.question) = false /\
  POST Scenarios.silent_world = (Responded no_response_object, []).
Proof.
  split; [reflexivity|]. split; [reflexivity|]. split; [reflexivity|].
  apply (missing_response_object_answer Scenarios.silent_world Samples.alice
           Samples.question Null); try reflexivity.
  exists Samples.body_without_pdf. repeat split.
Defined.

End ChatRouteMore.

(** ** More on the history route *)

Section HistoryRouteMore.

Import ChatHistoryRoute.

(** X9.  The history route touches the store at most once per invocation,
    and only to select the rows whose user_id is the id of the user that
    the auth provider reported for this request. *)
Theorem GET_selects_only_the_callers_rows hw :
  (List.length (snd (GET hw)) <= 1)%nat /\
  forall op, In op (snd (GET hw)) ->
    exists u, getUser hw = Returns (Some u) /\ op = Select (Supabase.id u).
Proof.
  unfold GET. destruct (getUser hw) as [[u|]|e]; simpl;
    try (split; [lia | intros op []]).
  destruct (select hw (Supabase.id u)); simpl;
    (split; [lia|]); intros op [<- | []]; eauto.
Qed.

Lemma history_ids (rows : list Row) (x : jsstring) :
  In x (map Msg.id (history rows)) ->
  exists r, In r rows /\ (x = id r ++ lit "-user" \/ x = id r ++ lit "-bot").
Proof.
  induction rows as [|r rows IH]; simpl; [intros []|].
  intros [<- | [<- | H]]; [exists r; auto | exists r; auto |].
  destruct (IH H) as [r' [Hr' Hx]]. exists r'. auto.
Qed.

Lemma user_id_not_bot_id (a b : jsstring) : a ++ lit "-user" <> b ++ lit "-bot".
Proof.
  change (lit "-user") with (lit "-use" ++ [114]).
  change (lit "-bot") with (lit "-bo" ++ [116]).
  rewrite !app_assoc. intros H. apply app_inj_tail in H as [_ H]. discriminate.
Qed.

(** X10.  History reconstruction gives distinct identifiers to all display
    messages as long as the fetched rows have distinct ids: the identifiers
    can serve as list keys and for the client's de-duplication. *)
Theorem history_ids_distinct (rows : list Row) :
  NoDup (map id rows) -> NoDup (map Msg.id (history rows)).
Proof.
  induction rows as [|r rows IH]; simpl; [constructor|].
  intros Hnodup. inversion Hnodup as [|? ? Hfresh Hrest]; subst.
  assert (Hnew : forall suffix x,
             x = id r ++ suffix -> (suffix = lit "-user" \/ suffix = lit "-bot") ->
             ~ In x (map Msg.id (history rows))).
  { intros suffix x -> Hsuffix Hin.
    destruct (history_ids rows _ Hin) as [r' [Hr' Hx]].
    assert (Hsame : id r = id r').
    { destruct Hsuffix as [-> | ->], Hx as [Hx | Hx].
      - now apply app_inv_tail in Hx.
      - now apply user_id_not_bot_id in Hx.
      - symmetry in Hx. now apply user_id_not_bot_id in Hx.
      - now apply app_inv_tail in Hx. }
    apply Hfresh. rewrite Hsame. now apply in_map. }
  constructor; [|constructor; [|now apply IH]].
  - intros [H | H]; [symmetry in H; now apply user_id_not_bot_id in H|].
    now apply (Hnew (lit "-user") _ eq_refl (or_introl eq_refl)).
  - now apply (Hnew (lit "-bot") _ eq_refl (or_intror eq_refl)).
Qed.

Lemma history_ids_distinct_witness :
  NoDup (map id Samples.rows) /\
  NoDup (map Msg.id (history Samples.rows)).
Proof.
  assert (H : NoDup (map id Samples.rows)).
  { repeat constructor; simpl; intuition discriminate. }
  split; [exact H | exact (history_ids_distinct Samples.rows H)].
Defined.

End HistoryRouteMore.

(** ** More on the merge *)

Section MergeMore.

Import ChatbotPage.

Variable Date_getTime : jsstring -> option Z.

#[local] Abbreviation getTime := (getTime Date_getTime).
#[local] Abbreviation sorts_after := (sorts_after Date_getTime).
#[local] Abbreviation sort := (sort Date_getTime).
#[local] Abbreviation mergeHistory := (mergeHistory Date_getTime).
#[local] Abbreviation time_le := (time_le Date_getTime).

(** Sorting leaves alone what is in order already. *)
Lemma sort_in_order (l : list Msg.Message) :
  StronglySorted (fun a b => sorts_after a b = false) l -> sort l = l.
Proof.
  intros H.
  pose proof (sort_stable Date_getTime (fun _ => true) l) as Hstable.
  rewrite !filter_true in Hstable. now apply Hstable.
Qed.

Lemma has_In (ids : list jsstring) (x : jsstring) :
  has ids x = true <-> In x ids.
Proof.
  unfold has. rewrite existsb_exists. split.
  - intros [y [Hy Heq]]. apply str_eqb_spec in Heq. now subst.
  - intros H. exists x. split; [exact H | apply str_eqb_refl].
Qed.

Lemma filter_none {A : Type} (f : A -> bool) (l : list A) :
  (forall x, In x l -> f x = false) -> filter f l = [].
Proof.
  induction l as [|a l IH]; simpl; intros H; [reflexivity|].
  rewrite (H a (or_introl eq_refl)). apply IH. intros x Hx. apply H. now right.
Qed.

Lemma mergeHistory_nothing_fetched (l : list Msg.Message) :
  mergeHistory [] l = sort l.
Proof. reflexivity. Qed.

Lemma mergeHistory_empty_transcript (historyMessages : list Msg.Message) :
  mergeHistory historyMessages [] = sort historyMessages.
Proof.
  unfold ChatbotPage.mergeHistory. simpl.
  rewrite app_nil_r. f_equal. apply filter_true.
Qed.

Lemma mergeHistory_perm_sorted (historyMessages prevMessages : list Msg.Message) :
  Forall (fun m => getTime m <> None) (historyMessages ++ prevMessages) ->
  Permutation (mergeHistory historyMessages prevMessages)
              (prevMessages ++ unseen historyMessages prevMessages) /\
  StronglySorted time_le (mergeHistory historyMessages prevMessages).
Proof.
  intros Hvalid. unfold ChatbotPage.mergeHistory.
  fold (unseen historyMessages prevMessages).
  apply Forall_app in Hvalid as [Hhist Hprev]. split.
  - rewrite sort_perm. apply Permutation_app_comm.
  - apply sort_ordered. apply Forall_app. split; [|exact Hprev].
    unfold unseen. rewrite Forall_forall in *. intros m Hm.
    apply filter_In in Hm as [Hm _]. now apply Hhist.
Qed.

(** X11.  Merging is idempotent: once a fetched list has been merged into
    the transcript, merging the same list again changes nothing (for
    messages whose timestamps are all valid dates). *)
Theorem mergeHistory_idempotent (historyMessages prevMessages : list Msg.Message) :
  Forall (fun m => getTime m <> None) (historyMessages ++ prevMessages) ->
  mergeHistory historyMessages (mergeHistory historyMessages prevMessages)
  = mergeHistory historyMessages prevMessages.
Proof.
  intros Hvalid.
  destruct (mergeHistory_perm_sorted historyMessages prevMessages Hvalid)
    as (Hperm & Hsorted).
  set (merged := mergeHistory historyMessages prevMessages) in *.
  assert (Hseen : unseen historyMessages merged = []).
  { unfold unseen. apply filter_none. intros x Hx.
    apply negb_false_iff, has_In.
    destruct (has (map Msg.id prevMessages) (Msg.id x)) eqn:E.
    - apply has_In in E. apply in_map_iff in E as [y [Hy Hin]].
      rewrite <- Hy. apply in_map.
      eapply Permutation_in; [symmetry; exact Hperm|].
      apply in_or_app. now left.
    - apply in_map.
      eapply Permutation_in; [symmetry; exact Hperm|].
      apply in_or_app. right. unfold unseen. apply filter_In.
      split; [exact Hx | now rewrite E]. }
  change (mergeHistory historyMessages merged)
    with (sort (unseen historyMessages merged ++ merged)).
  rewrite Hseen. simpl.
  apply sort_in_order. now apply StronglySorted_not_after.
Qed.

Lemma NoDup_map_filter {A B : Type} (f : A -> B) (g : A -> bool) (l : list A) :
  NoDup (map f l) -> NoDup (map f (filter g l)).
Proof.
  induction l as [|a l IH]; simpl; [auto|].
  intros H. inversion H as [|? ? Hfresh Hrest]; subst.
  destruct (g a); simpl; [|now apply IH].
  constructor; [|now apply IH].
  intros Hin. apply Hfresh. apply in_map_iff in Hin as [x [Hx Hin]].
  apply filter_In in Hin as [Hin _]. rewrite <- Hx. now apply in_map.
Qed.

(** X12.  The merge introduces no duplicate identifiers: if the displayed
    messages have distinct ids and the fetched messages have distinct ids,
    so has the merged transcript. *)
Theorem mergeHistory_ids_distinct (historyMessages prevMessages : list Msg.Message) :
  NoDup (map Msg.id prevMessages) ->
  NoDup (map Msg.id historyMessages) ->
  NoDup (map Msg.id (mergeHistory historyMessages prevMessages)).
Proof.
  intros Hprev Hhist. unfold ChatbotPage.mergeHistory.
  eapply Permutation_NoDup;
    [apply Permutation_map; symmetry; apply sort_perm|].
  rewrite map_app. apply NoDup_app; [now apply NoDup_map_filter | exact Hprev |].
  intros x Hx Hin. apply in_map_iff in Hx as [m [<- Hm]].
  apply filter_In in Hm as [_ Hm]. apply negb_true_iff in Hm.
  apply has_In in Hin. congruence.
Qed.

(** *** History reconstruction, merged into an empty transcript *)

Lemma history_timestamps (rows : list ChatHistoryRoute.Row) (m : Msg.Message) :
  In m (ChatHistoryRoute.history rows) ->
  exists r, In r rows /\ Msg.timestamp m = Some (ChatHistoryRoute.created_at r).
Proof.
  induction rows as [|r rows IH]; simpl; [intros []|].
  intros [<- | [<- | H]]; [exists r; auto | exists r; auto |].
  destruct (IH H) as [r' [Hr' Hm]]. exists r'. auto.
Qed.

Lemma same_timestamp_not_after (a b : Msg.Message) :
  Msg.timestamp a = Msg.timestamp b -> sorts_after a b = false.
Proof.
  intros H. unfold ChatbotPage.sorts_after, compareFn, ChatbotPage.getTime.
  rewrite H. destruct (Msg.timestamp b) as [t|]; [|reflexivity].
  destruct (Date_getTime t); [|reflexivity].
  rewrite Z.sub_diag. reflexivity.
Qed.

Lemma history_in_order (rows : list ChatHistoryRoute.Row) :
  StronglySorted (created_le Date_getTime) rows ->
  StronglySorted (fun a b => sorts_after a b = false)
                 (ChatHistoryRoute.history rows).
Proof.
  induction 1 as [|r rows Hrows IH Hr]; [constructor|].
  rewrite history_cons.
  assert (Hlater : forall a m,
             Msg.timestamp a = Some (ChatHistoryRoute.created_at r) ->
             In m (ChatHistoryRoute.history rows) ->
             sorts_after a m = false).
  { intros a m Ha Hm. destruct (history_timestamps rows m Hm) as [r' [Hr' Hts]].
    rewrite Forall_forall in Hr. destruct (Hr r' Hr') as (x & y & Hx & Hy & Hle).
    apply time_le_not_after. exists x, y. unfold ChatbotPage.getTime.
    rewrite Ha, Hts. auto. }
  simpl. constructor; [constructor; [exact IH|] |].
  - apply Forall_forall. intros m Hm. now apply Hlater.
  - constructor; [now apply same_timestamp_not_after|].
    apply Forall_forall. intros m Hm. now apply Hlater.
Qed.

(** X13.  When the rows come back in ascending created_at order, as the
    route asks the store, merging the reconstructed history into an empty
    transcript shows it unchanged: rows in order, and each user message
    directly before its bot reply although both carry the same
    timestamp. *)
Theorem history_merges_in_row_order (rows : list ChatHistoryRoute.Row) :
  StronglySorted (created_le Date_getTime) rows ->
  mergeHistory (ChatHistoryRoute.history rows) [] = ChatHistoryRoute.history rows.
Proof.
  intros Hrows. rewrite mergeHistory_empty_transcript.
  apply sort_in_order. now apply history_in_order.
Qed.

End MergeMore.

Lemma mergeHistory_idempotent_witness :
  Forall (fun m => ChatbotPage.getTime Samples.clock m <> None)
         (Samples.fetched ++ Samples.descending_transcript) /\
  ChatbotPage.mergeHistory Samples.clock Samples.fetched
    (ChatbotPage.mergeHistory Samples.clock Samples.fetched
                              Samples.descending_transcript)
  = [Samples.older_message; Samples.loaded_notice; Samples.reply_message].
Proof.
  assert (Hvalid : Forall (fun m => ChatbotPage.getTime Samples.clock m <> None)
                          (Samples.fetched ++ Samples.descending_transcript)).
  { repeat constructor; discriminate. }
  split; [exact Hvalid|].
  rewrite (mergeHistory_idempotent Samples.clock Samples.fetched
             Samples.descending_transcript Hvalid).
  reflexivity.
Defined.

Lemma stored_rows_ascending :
  StronglySorted (created_le Samples.clock) Scenarios.stored_rows.
Proof.
  repeat constructor.
  exists 1714557540000%Z, 1714557601000%Z.
  split; [reflexivity|]. split; [reflexivity|]. discriminate.
Defined.

Lemma history_merges_in_row_order_witness :
  StronglySorted (created_le Samples.clock) Scenarios.stored_rows /\
  ChatbotPage.mergeHistory Samples.clock
    (ChatHistoryRoute.history Scenarios.stored_rows) []
  = ChatHistoryRoute.history Scenarios.stored_rows.
Proof.
  split; [exact stored_rows_ascending|].
  exact (history_merges_in_row_order Samples.clock Scenarios.stored_rows
           stored_rows_ascending).
Defined.

Lemma mergeHistory_ids_distinct_witness :
  NoDup (map Msg.id Samples.ascending_transcript) /\
  NoDup (map Msg.id Samples.fetched) /\
  NoDup (map Msg.id (ChatbotPage.mergeHistory Samples.clock Samples.fetched
                                              Samples.ascending_transcript)).
Proof.
  assert (Hprev : NoDup (map Msg.id Samples.ascending_transcript)).
  { repeat constructor; simpl; intuition discriminate. }
  assert (Hhist : NoDup (map Msg.id Samples.fetched)).
  { repeat constructor; simpl; intuition discriminate. }
  split; [exact Hprev|]. split; [exact Hhist|].
  exact (mergeHistory_ids_distinct Samples.clock Samples.fetched
           Samples.ascending_transcript Hprev Hhist).
Defined.

(** ** The upload route *)

Section UploadRoute.

Import UploadPdfRoute.

(** X14.  The upload route validates before it parses: unless the [pdf]
    field of the form is a file of type application/pdf, the answer is 400,
    "No PDF file provided." for a missing or empty field and "Invalid file
    type. Only PDF is allowed." otherwise, whatever the parser would have
    done. *)
Theorem upload_requires_pdf_file w file :
  formData_get_pdf w = Returns file ->
  (forall bytes, file <> Some (File (lit "application/pdf") bytes)) ->
  POST w =
    json_status
      (error_body (if absent file
                   then lit "No PDF file provided."
                   else lit "Invalid file type. Only PDF is allowed."))
      400.
Proof.
  intros Hform Hnot. unfold POST. rewrite Hform.
  destruct (absent file); [reflexivity|].
  destruct (is_const (type_of file) (lit "application/pdf")) eqn:E; [|reflexivity].
  destruct file as [[type bytes | value]|]; simpl in E; try discriminate.
  apply str_eqb_spec in E. subst. now elim (Hnot bytes).
Qed.

Lemma upload_requires_pdf_file_witness :
  formData_get_pdf Scenarios.text_upload
    = Returns (Some (File (lit "text/plain") [104; 105])) /\
  POST Scenarios.text_upload
    = json_status (error_body (lit "Invalid file type. Only PDF is allowed.")) 400.
Proof.
  split; [reflexivity|].
  apply (upload_requires_pdf_file Scenarios.text_upload
           (Some (File (lit "text/plain") [104; 105])));
    [reflexivity | intros bytes; discriminate].
Defined.

(** X15.  The upload route answers with status 200, 400 or 500, and it
    answers with a text exactly when the form holds an application/pdf
    file that the parser reads: the text is then the parser's, whole and
    unchanged, under status 200. *)
Theorem upload_answers_parsed_text w :
  (status (POST w) = 200 \/ status (POST w) = 400 \/ status (POST w) = 500) /\
  forall text,
    body (POST w) = text_body text <->
    exists bytes,
      formData_get_pdf w = Returns (Some (File (lit "application/pdf") bytes)) /\
      pdf w bytes = Returns text /\
      POST w = json (text_body text).
Proof.
  unfold POST, catch_block.
  destruct (formData_get_pdf w) as [file | e].
  - destruct (absent file) eqn:Habsent.
    { split; [auto|]. intros text. split; [discriminate|].
      intros (bytes & [= ->] & _). discriminate Habsent. }
    destruct (is_const (type_of file) (lit "application/pdf")) eqn:Htype; simpl.
    + destruct file as [[type bytes | value]|]; simpl in Htype; try discriminate.
      apply str_eqb_spec in Htype. subst type. simpl.
      destruct (pdf w bytes) as [text' | e] eqn:Hpdf.
      * split; [auto|]. intros text. split.
        -- intros [= <-]. now exists bytes.
        -- intros (bytes' & [= Hb] & Hpdf' & _). subst bytes'.
           rewrite Hpdf in Hpdf'. injection Hpdf' as ->. reflexivity.
      * destruct (says_invalid_pdf e); (split; [auto|]);
          intros text; (split; [discriminate|]);
          intros (bytes' & [= Hb] & Hpdf' & _); subst bytes';
          rewrite Hpdf in Hpdf'; discriminate Hpdf'.
    + split; [auto|]. intros text. split; [discriminate|].
      intros (bytes & [= ->] & _). vm_compute in Htype. discriminate Htype.
  - destruct (says_invalid_pdf e); (split; [auto|]);
      intros text; (split; [discriminate|]); intros (bytes & [=] & _).
Qed.

Lemma says_invalid_pdf_spec (error : JsError) :
  says_invalid_pdf error = true <->
  exists before after, message error = Some (before ++ lit "Invalid PDF" ++ after).
Proof.
  unfold says_invalid_pdf. destruct (message error) as [m|].
  - rewrite includes_spec. split.
    + intros (before & after & ->). now exists before, after.
    + intros (before & after & [= ->]). now exists before, after.
  - split; [discriminate | intros (before & after & [=])].
Qed.

(** X16.  A failure while reading the form or parsing the file is answered
    by its message: 400 with the fixed text "Invalid or corrupted PDF
    file." when the message contains "Invalid PDF", and otherwise 500 with
    "Failed to parse PDF. " followed by the message itself. *)
Theorem upload_failure_classification w error :
  formData_get_pdf w = Throws error \/
  (exists bytes,
      formData_get_pdf w = Returns (Some (File (lit "application/pdf") bytes)) /\
      pdf w bytes = Throws error) ->
  POST w =
    (if says_invalid_pdf error
     then json_status (error_body (lit "Invalid or corrupted PDF file.")) 400
     else json_status
            (error_body (lit "Failed to parse PDF. " ++ to_string (message error)))
            500) /\
  (says_invalid_pdf error = true <->
   exists before after, message error = Some (before ++ lit "Invalid PDF" ++ after)).
Proof.
  intros H. split; [|apply says_invalid_pdf_spec].
  unfold POST. destruct H as [-> | (bytes & -> & Hpdf)]; [reflexivity|].
  simpl. now rewrite Hpdf.
Qed.

Lemma upload_failure_classification_witness :
  formData_get_pdf Scenarios.corrupt_upload
    = Returns (Some (File (lit "application/pdf") [37; 80])) /\
  pdf Scenarios.corrupt_upload [37; 80] = Throws Scenarios.invalid_pdf_error /\
  POST Scenarios.corrupt_upload
    = json_status (error_body (lit "Invalid or corrupted PDF file.")) 400.
Proof.
  split; [reflexivity|]. split; [reflexivity|].
  apply (proj1 (upload_failure_classification Scenarios.corrupt_upload
                  Scenarios.invalid_pdf_error
                  (or_intror (ex_intro _ [37; 80] (conj eq_refl eq_refl))))).
Defined.

End UploadRoute.

(** ** The middleware *)

Section RouteGuard.

Import Middleware.

Lemma some_prefix_protected (pathname : jsstring) :
  some_prefix protectedRoutes pathname = startsWith pathname (lit "/chatbot").
Proof. unfold some_prefix. simpl. apply orb_false_r. Qed.

Lemma some_prefix_auth (pathname : jsstring) :
  some_prefix authRoutes pathname
  = startsWith pathname (lit "/login") || startsWith pathname (lit "/register").
Proof. unfold some_prefix. simpl. now rewrite orb_false_r. Qed.

(** X17.  The middleware lets a request through only where it may go: one
    without a session never reaches a path under /chatbot, one with a
    session never reaches a path under /login or /register; and where it
    redirects, the same request for the target path is let through, so a
    redirect is never answered by another redirect. *)
Theorem middleware_guards_without_loop {Session : Type}
    (session : option Session) (pathname : jsstring) :
  (middleware session pathname = next ->
     (startsWith pathname (lit "/chatbot") = true -> session <> None) /\
     (startsWith pathname (lit "/login") = true \/
      startsWith pathname (lit "/register") = true -> session = None)) /\
  (forall target,
     middleware session pathname = redirect target ->
     middleware session target = next).
Proof.
  split.
  - unfold middleware. rewrite some_prefix_protected, some_prefix_auth.
    destruct (startsWith pathname (lit "/chatbot")) eqn:Eprot,
             (startsWith pathname (lit "/login")
              || startsWith pathname (lit "/register")) eqn:Eauth,
             session as [s|];
      cbn [present negb andb]; intros H; try discriminate H;
      (split; [intros; try discriminate; congruence|]);
      intros [Hl | Hr]; try reflexivity;
      apply orb_false_iff in Eauth as [E1 E2]; congruence.
  - intros target H. unfold middleware in H.
    destruct (some_prefix protectedRoutes pathname && negb (present session)) eqn:E1.
    + injection H as <-. apply andb_true_iff in E1 as [_ E1].
      destruct session; [discriminate E1 | reflexivity].
    + destruct (some_prefix authRoutes pathname && present session) eqn:E2;
        [|discriminate H].
      injection H as <-. apply andb_true_iff in E2 as [_ E2].
      destruct session; [reflexivity | discriminate E2].
Qed.

End RouteGuard.

(** ** The login and register forms *)

Section AuthForms.

Import AuthPages.

Lemma shown_error_truthy (m : option jsstring) :
  truthy_opt (Some (shown_error m)) = true.
Proof.
  unfold shown_error. destruct (truthy_opt m) eqn:E.
  - destruct m as [s|]; [exact E | discriminate].
  - reflexivity.
Qed.

(** X18.  The register form checks the passwords before anything else: a
    password shorter than 6 code units, or one that differs from its
    confirmation, only sets the error text ("Password must be at least 6
    characters long." or "Passwords do not match."); sign-up is not
    attempted, the page is not refreshed, and the success message and the
    loading flag stay as they were. *)
Theorem register_checks_passwords_first
    (signUp : jsstring -> jsstring -> Outcome SignUpResult) (st : RegisterState) :
  str_length (password st) < 6 \/ password st <> confirmPassword st ->
  exists shown,
    handleRegister signUp st = (setError (Some shown) st, false) /\
    (shown = lit "Password must be at least 6 characters long." \/
     shown = lit "Passwords do not match.").
Proof.
  intros H. unfold handleRegister.
  destruct (str_length (password st) <? 6) eqn:Hlen; [eauto|].
  destruct H as [H | H]; [apply N.ltb_ge in Hlen; lia|].
  apply str_eqb_neq in H. rewrite H. simpl. eauto.
Qed.

Lemma register_checks_passwords_first_witness :
  (str_length (password Scenarios.short_password_form) < 6 \/
   password Scenarios.short_password_form
     <> confirmPassword Scenarios.short_password_form) /\
  exists shown,
    handleRegister Scenarios.signUp_with_session Scenarios.short_password_form
      = (setError (Some shown) Scenarios.short_password_form, false) /\
    (shown = lit "Password must be at least 6 characters long." \/
     shown = lit "Passwords do not match.").
Proof.
  assert (H : str_length (password Scenarios.short_password_form) < 6 \/
              password Scenarios.short_password_form
                <> confirmPassword Scenarios.short_password_form).
  { left. reflexivity. }
  split; [exact H|].
  exact (register_checks_passwords_first Scenarios.signUp_with_session
           Scenarios.short_password_form H).
Defined.

(** The text of the error banner: the failure's message when it has a
    non-empty one, the fixed text otherwise. *)
Lemma shown_error_cases (failure : option jsstring) :
  (forall m, failure = Some m -> m <> [] -> shown_error failure = m) /\
  (failure = None \/ failure = Some [] ->
   shown_error failure = lit "An unexpected error occurred.").
Proof.
  unfold shown_error. split.
  - intros m -> Hm. simpl. apply str_eqb_neq in Hm. now rewrite Hm.
  - intros [-> | ->]; reflexivity.
Qed.

(** X19.  Once the passwords pass, a registration attempt ends with the
    loading flag cleared and with exactly one of the two banners, decided
    by the sign-up.  When sign-up fails, by a returned error or by an
    exception, the error banner shows the failure's message ("An
    unexpected error occurred." when that message is missing or empty), no
    success message is shown and the page is not refreshed.  When sign-up
    returns without error, no error is shown and the success message is
    "Registration successful! Redirecting..." for a user with a session,
    the check-your-email text for a user without a session, and the
    might-need-to-confirm text without a user; the page is refreshed
    exactly in the first of these cases. *)
Theorem register_outcome
    (signUp : jsstring -> jsstring -> Outcome SignUpResult) (st : RegisterState) :
  6 <= str_length (password st) ->
  password st = confirmPassword st ->
  exists st' refreshed,
    handleRegister signUp st = (st', refreshed) /\
    loading st' = false /\
    (forall failure : option jsstring,
       signUp (email st) (password st) = Throws (Build_JsError failure) \/
       (exists result err, signUp (email st) (password st) = Returns result /\
                           signUpError result = Some err /\
                           failure = Some (message err)) ->
       message_shown st' = None /\ refreshed = false /\
       (forall m, failure = Some m -> m <> [] -> error st' = Some m) /\
       (failure = None \/ failure = Some [] ->
        error st' = Some (lit "An unexpected error occurred."))) /\
    (forall result,
       signUp (email st) (password st) = Returns result ->
       signUpError result = None ->
       error st' = None /\
       message_shown st' =
         Some match data_user result, data_session result with
              | Some _, Some _ => lit "Registration successful! Redirecting..."
              | Some _, None =>
                  lit "Registration successful! Please check your email to confirm your account if email confirmation is enabled."
              | None, _ =>
                  lit "Registration attempt successful. You might need to confirm your email or try logging in."
              end /\
       (refreshed = true <->
        exists u s, data_user result = Some u /\ data_session result = Some s)).
Proof.
  intros Hlen Hsame. unfold handleRegister.
  apply N.ltb_ge in Hlen. rewrite Hlen, <- Hsame, str_eqb_refl. simpl.
  destruct (signUp (email st) (password st)) as [result | err]; simpl.
  - destruct (signUpError result) as [err|] eqn:Herr; simpl.
    + eexists _, _. split; [reflexivity|]. split; [reflexivity|]. split.
      * intros failure [[=] | (r & e & [= <-] & He & ->)].
        rewrite Herr in He. injection He as <-. simpl.
        destruct (shown_error_cases (Some (message err))) as [Hown Hfixed].
        split; [reflexivity|]. split; [reflexivity|]. split.
        -- intros m Hm Hne. now rewrite (Hown m Hm Hne).
        -- intros H. now rewrite (Hfixed H).
      * intros r [= <-] H. congruence.
    + unfold after_signUp.
      destruct (data_user result) as [u|] eqn:Hu,
               (data_session result) as [s|] eqn:Hs; simpl;
        eexists _, _; (split; [reflexivity|]); (split; [reflexivity|]);
        (split;
         [ intros failure [[=] | (r & e & [= <-] & He & _)]; congruence
         | intros r [= <-] _; rewrite ?Hu, ?Hs;
           split; [reflexivity|]; split; [reflexivity|] ]).
      * split; [intros _; now exists u, s | reflexivity].
      * split; [discriminate | intros (u' & s & _ & [=])].
      * split; [discriminate | intros (u & s' & [=] & _)].
      * split; [discriminate | intros (u & s & [=] & _)].
  - eexists _, _. split; [reflexivity|]. split; [reflexivity|]. split.
    + intros failure [[= ->] | (r & e & [=] & _)]. simpl.
      destruct (shown_error_cases failure) as [Hown Hfixed].
      split; [reflexivity|]. split; [reflexivity|]. split.
      * intros m Hm Hne. now rewrite (Hown m Hm Hne).
      * intros H. now rewrite (Hfixed H).
    + intros r [=].
Qed.

Lemma register_outcome_witness :
  6 <= str_length (password Scenarios.good_form) /\
  password Scenarios.good_form = confirmPassword Scenarios.good_form /\
  exists st',
    handleRegister Scenarios.signUp_with_session Scenarios.good_form = (st', true) /\
    loading st' = false /\
    error st' = None /\
    message_shown st' = Some (lit "Registration successful! Redirecting...").
Proof.
  assert (Hlen : 6 <= str_length (password Scenarios.good_form)) by discriminate.
  split; [exact Hlen|]. split; [reflexivity|].
  destruct (register_outcome Scenarios.signUp_with_session Scenarios.good_form
              Hlen eq_refl) as (st' & refreshed & Hrun & Hloading & _ & Hok).
  destruct (Hok _ eq_refl eq_refl) as (Herror & Hshown & Hrefreshed).
  assert (Htrue : refreshed = true).
  { apply Hrefreshed. eexists _, _. split; reflexivity. }
  exists st'. rewrite Htrue in Hrun.
  split; [exact Hrun|]. split; [exact Hloading|]. split; [exact Herror|].
  exact Hshown.
Defined.

(** X20.  A login attempt ends with the loading flag cleared, and the page
    is refreshed exactly when sign-in succeeded, in which case no error is
    shown.  When sign-in fails, by a returned error or by an exception, the
    error shown is the failure's message, or "An unexpected error
    occurred." when that message is missing or empty. *)
Theorem login_outcome
    (signInWithPassword : jsstring -> jsstring -> Outcome (option AuthError))
    (st : LoginState) :
  exists st' refreshed,
    handleLogin signInWithPassword st = (st', refreshed) /\
    login_loading st' = false /\
    (refreshed = true <->
     signInWithPassword (login_email st) (login_password st) = Returns None) /\
    (refreshed = true -> login_error st' = None) /\
    (forall failure : option jsstring,
       signInWithPassword (login_email st) (login_password st)
         = Throws (Build_JsError failure) \/
       (exists err,
           signInWithPassword (login_email st) (login_password st)
             = Returns (Some err) /\
           failure = Some (message err)) ->
       (forall m, failure = Some m -> m <> [] -> login_error st' = Some m) /\
       (failure = None \/ failure = Some [] ->
        login_error st' = Some (lit "An unexpected error occurred."))).
Proof.
  unfold handleLogin.
  destruct (signInWithPassword (login_email st) (login_password st))
    as [[err|]|err]; eexists _, _; (split; [reflexivity|]);
    (split; [reflexivity|]); (split; [split; try discriminate; reflexivity|]);
    (split; [try discriminate; reflexivity|]); simpl.
  - intros failure [[=] | (e & [= <-] & ->)].
    destruct (shown_error_cases (Some (message err))) as [Hown Hfixed]. split.
    + intros m Hm Hne. now rewrite (Hown m Hm Hne).
    + intros H. now rewrite (Hfixed H).
  - intros failure [[=] | (e & [=] & _)].
  - intros failure [[= ->] | (e & [=] & _)]. simpl.
    destruct (shown_error_cases failure) as [Hown Hfixed]. split.
    + intros m Hm Hne. now rewrite (Hown m Hm Hne).
    + intros H. now rewrite (Hfixed H).
Qed.

End AuthForms.

(** ** The page and the two routes *)

Section PageAndRoutes.

Import ChatbotPageHandlers.

Lemma has_ink_trim_nonempty (s : jsstring) :
  has_ink s = true -> str_eqb (trim s) [] = false.
Proof. apply trim_nonempty_iff. Qed.

(** What the page sends passes the route's query test. *)
Lemma submitted_query_accepted (userInput : jsstring) :
  has_ink userInput = true ->
  ChatRoute.query_rejected (Str (trim userInput)) = false.
Proof.
  intros H. rewrite query_rejected_string, trim_keeps_ink, H. reflexivity.
Qed.

Lemma request_body_fields (userQuery : jsstring) (uploaded : option jsstring) :
  prop (request_body userQuery uploaded) (lit "query") = Str userQuery /\
  prop (request_body userQuery uploaded) (lit "pdfText") = as_pdfText uploaded.
Proof. destruct uploaded; split; reflexivity. Qed.

(** The transcript after a submit that got past the guard. *)
Lemma handleSubmitQuery_messages sent settled fetch st :
  isBusy st = false ->
  has_ink (userInput st) = true ->
  messages (handleSubmitQuery sent settled fetch st) =
  messages st ++
  [ user_message sent (trim (userInput st));
    match fetch (request_body (trim (userInput st)) (uploadedPdfText st)) with
    | ok_json reply =>
        {| Msg.id := lit "bot-" ++ JsNumber.to_string (Date_now settled);
           Msg.text := reply;
           Msg.sender := Msg.bot;
           Msg.pdfContextUsed := Some (Some (truthy_opt (uploadedPdfText st)));
           Msg.timestamp := Some (toISOString settled);
           Msg.isError := None |}
    | not_ok error status =>
        system_message settled
          (lit "sys-" ++ JsNumber.to_string (Date_now settled))
          (lit "Chat Error: " ++ http_error error status) true
    | failed err =>
        system_message settled
          (lit "sys-" ++ JsNumber.to_string (Date_now settled))
          (lit "Chat Error: " ++ to_string (message err)) true
    end ].
Proof.
  intros Hidle Hink. unfold handleSubmitQuery.
  rewrite (has_ink_trim_nonempty _ Hink), Hidle. simpl.
  destruct (fetch _); simpl; rewrite <- app_assoc; reflexivity.
Qed.

(** X21.  A query typed into an idle page and answered by the model makes
    the full round trip: the body the page sends passes the route's
    validation with the trimmed input as query, the route attempts one
    insert holding that query and the generated text, and the page's
    transcript grows by exactly the user message and the bot message with
    that text; the input box is cleared and the busy flag is down again. *)
Theorem chat_round_trip sent settled st w u response responseText :
  isBusy st = false ->
  has_ink (userInput st) = true ->
  truthy_opt (ChatRoute.GEMINI_API_KEY w) = true ->
  ChatRoute.getUser w = Returns (Some u) ->
  ChatRoute.request_json w
    = Returns (request_body (trim (userInput st)) (uploadedPdfText st)) ->
  ChatRoute.generateContent w
    (ChatRoute.fullPrompt (Str (trim (userInput st)))
                          (as_pdfText (uploadedPdfText st)))
    = Returns (Some response) ->
  ChatRoute.text response = Returns responseText ->
  responseText <> [] ->
  exists r,
    ChatRoute.POST w =
      (ChatRoute.Responded r,
       [reply_record u (trim (userInput st)) (as_pdfText (uploadedPdfText st))
                     responseText]) /\
    let st' := handleSubmitQuery sent settled (fun _ => receive_chat r) st in
    messages st' =
      messages st ++
      [ user_message sent (trim (userInput st));
        bot_message settled responseText (truthy_opt (uploadedPdfText st)) ] /\
    userInput st' = [] /\
    isBusy st' = false.
Proof.
  intros Hidle Hink Hkey Huser Hbody Hgen Htext Hne.
  assert (Hturn : reaches_model_output w u (trim (userInput st))
                    (as_pdfText (uploadedPdfText st)) response).
  { split; [exact Hkey|]. split; [exact Huser|]. split.
    - eexists. split; [exact Hbody|]. apply request_body_fields.
    - split; [now apply submitted_query_accepted | exact Hgen]. }
  exists (json (ChatRoute.reply_body responseText)). split.
  - exact (successful_turn w u _ _ response responseText Hturn Htext Hne).
  - cbv zeta. split; [|split].
    + now rewrite handleSubmitQuery_messages.
    + unfold handleSubmitQuery.
      rewrite (has_ink_trim_nonempty _ Hink), Hidle. reflexivity.
    + unfold handleSubmitQuery.
      rewrite (has_ink_trim_nonempty _ Hink), Hidle. simpl.
      unfold isBusy in *. simpl.
      apply orb_false_iff in Hidle as [Hidle Hload].
      apply orb_false_iff in Hidle as [_ Hup]. now rewrite Hup, Hload.
Qed.

Lemma chat_round_trip_witness :
  isBusy Scenarios.typed_page = false /\
  has_ink (userInput Scenarios.typed_page) = true /\
  ChatRoute.POST Scenarios.typed_world =
    (ChatRoute.Responded (json (ChatRoute.reply_body (lit "Paris."))),
     [reply_record Samples.alice Samples.question Null (lit "Paris.")]) /\
  messages (handleSubmitQuery Scenarios.ten_o_clock Scenarios.a_second_later
              (fun _ => receive_chat (json (ChatRoute.reply_body (lit "Paris."))))
              Scenarios.typed_page)
  = [ user_message Scenarios.ten_o_clock Samples.question;
      bot_message Scenarios.a_second_later (lit "Paris.") false ].
Proof.
  assert (Hne : lit "Paris." <> []) by discriminate.
  split; [reflexivity|]. split; [reflexivity|].
  destruct (chat_round_trip Scenarios.ten_o_clock Scenarios.a_second_later
              Scenarios.typed_page Scenarios.typed_world Samples.alice
              Samples.paris_response (lit "Paris.")
              eq_refl eq_refl eq_refl eq_refl eq_refl eq_refl eq_refl Hne)
    as (r & Hpost & _).
  split; reflexivity.
Defined.

Lemma error_answer_received (r : Response ChatRoute.Body) :
  error_answer r ->
  exists error,
    body r = ChatRoute.error_body error /\ error <> [] /\
    receive_chat r = not_ok (Some error) (status r) /\
    http_error (Some error) (status r) = error.
Proof.
  intros (error & Hbody & Hne & Hcode). exists error.
  split; [exact Hbody|]. split; [exact Hne|]. split.
  - unfold receive_chat, ok. rewrite Hbody.
    destruct Hcode as [-> | [-> | ->]]; reflexivity.
  - unfold http_error. simpl. apply str_eqb_neq in Hne. now rewrite Hne.
Qed.

(** X22.  Whatever goes wrong in the chat route, the user sees the route's
    own error text: for every request that an idle page submits, either
    the route answers 200, or it answers with a non-empty error text and
    the transcript grows by the user message and one system message,
    marked as error, reading "Chat Error: " followed by that text. *)
Theorem chat_errors_are_shown sent settled st w :
  isBusy st = false ->
  has_ink (userInput st) = true ->
  exists r,
    fst (ChatRoute.POST w) = ChatRoute.Responded r /\
    (status r = 200 \/
     exists error,
       body r = ChatRoute.error_body error /\ error <> [] /\
       messages (handleSubmitQuery sent settled (fun _ => receive_chat r) st) =
         messages st ++
         [ user_message sent (trim (userInput st));
           system_message settled
             (lit "sys-" ++ JsNumber.to_string (Date_now settled))
             (lit "Chat Error: " ++ error) true ]).
Proof.
  intros Hidle Hink.
  destruct (POST_outcomes w) as (r & Hr & [[Herr _] | (u & q & p & t & -> & _)]).
  - exists r. split; [exact Hr|]. right.
    destruct (error_answer_received r Herr) as (error & Hbody & Hne & Hrecv & Hmsg).
    exists error. split; [exact Hbody|]. split; [exact Hne|].
    rewrite handleSubmitQuery_messages by assumption.
    now rewrite Hrecv, Hmsg.
  - eexists. split; [exact Hr|]. now left.
Qed.

Lemma chat_errors_are_shown_witness :
  isBusy Scenarios.typed_page = false /\
  has_ink (userInput Scenarios.typed_page) = true /\
  messages (handleSubmitQuery Scenarios.ten_o_clock Scenarios.a_second_later
              (fun _ => receive_chat unauthorized_chat) Scenarios.typed_page)
  = [ user_message Scenarios.ten_o_clock Samples.question;
      system_message Scenarios.a_second_later (lit "sys-1714557602000")
        (lit "Chat Error: Unauthorized: You must be logged in to chat.") true ].
Proof.
  split; [reflexivity|]. split; [reflexivity|].
  destruct (chat_errors_are_shown Scenarios.ten_o_clock Scenarios.a_second_later
              Scenarios.typed_page Samples.anonymous_world eq_refl eq_refl)
    as (r & Hr & _).
  reflexivity.
Defined.

(** X23.  The page's "Relied on PDF context" flag on a bot message and the
    route's pdf_context_used can disagree in one direction only: whenever
    the route used the document, the page flags the message; the page also
    flags it, though the route did not use the document, exactly when the
    uploaded text is non-empty but all white space. *)
Theorem page_flag_covers_route_flag (uploaded : option jsstring) :
  (truthy (ChatRoute.wasPdfContextUsed (as_pdfText uploaded)) = true ->
   truthy_opt uploaded = true) /\
  (truthy_opt uploaded = true /\
   truthy (ChatRoute.wasPdfContextUsed (as_pdfText uploaded)) = false <->
   exists p, uploaded = Some p /\ p <> [] /\ has_ink p = false).
Proof.
  destruct uploaded as [p|]; simpl.
  - destruct (wasPdfContextUsed_value (Str p)) as [Ht _]. rewrite Ht. simpl.
    unfold ChatRoute.trims_to_empty. simpl.
    destruct (has_ink p) eqn:Hink.
    + rewrite (has_ink_trim_nonempty p Hink). simpl. split.
      * intros _. destruct p; [discriminate Hink | reflexivity].
      * split; [intros [_ H]; discriminate H|].
        intros (p' & [= <-] & _ & H). congruence.
    + assert (H : str_eqb (trim p) [] = true).
      { destruct (str_eqb (trim p) []) eqn:E; [reflexivity|].
        apply trim_nonempty_iff in E. congruence. }
      rewrite H. simpl. split; [discriminate|]. split.
      * intros [Hp _]. exists p. split; [reflexivity|].
        split; [|exact Hink]. apply negb_true_iff in Hp. now apply str_eqb_neq.
      * intros (p' & [= <-] & Hne & _). split; [|reflexivity].
        apply negb_true_iff. now apply str_eqb_neq.
  - split; [discriminate|]. split; [intros [H _]; discriminate H|].
    intros (p & [=] & _).
Qed.

End PageAndRoutes.

(** ** Loading the history into the page *)

Section HistoryLoading.

Import ChatbotPageHandlers.

Lemma history_notice_shown_app (l1 l2 : list Msg.Message) :
  history_notice_shown (l1 ++ l2) = history_notice_shown l1 || history_notice_shown l2.
Proof. apply existsb_app. Qed.

Lemma fetchChatHistory_guarded D now fetch st :
  historyLoaded st && history_notice_shown (messages st) = true ->
  fetchChatHistory D now fetch st = st.
Proof. intros H. unfold fetchChatHistory. now rewrite H. Qed.

(** The page after a fetch that succeeded, when the guard was open. *)
Lemma fetchChatHistory_ok D now historyMessages st :
  historyLoaded st && history_notice_shown (messages st) = false ->
  let st' := fetchChatHistory D now (ok_json historyMessages) st in
  messages st' =
    ChatbotPage.mergeHistory D historyMessages (messages st) ++
    [ match historyMessages with
      | [] => system_message now (lit "sys-no-hist")
                             (lit "No previous chat history found.") false
      | _ :: _ => system_message now (lit "sys-hist-loaded")
                                 (lit "Chat history loaded.") false
      end ] /\
  historyLoaded st' = true /\
  isLoadingHistory st' = false.
Proof.
  intros Hguard. cbv zeta. unfold fetchChatHistory. rewrite Hguard.
  destruct historyMessages; repeat split.
Qed.

(** X24.  The history is loaded once: after a fetch that succeeded, every
    further call of [fetchChatHistory] returns at its guard and leaves the
    page as it is, whatever the server would answer. *)
Theorem history_loads_once D now historyMessages st D' now' fetch' :
  let st' := fetchChatHistory D now (ok_json historyMessages) st in
  fetchChatHistory D' now' fetch' st' = st'.
Proof.
  cbv zeta. apply fetchChatHistory_guarded.
  destruct (historyLoaded st && history_notice_shown (messages st)) eqn:Hguard.
  - now rewrite (fetchChatHistory_guarded D now _ st Hguard).
  - unfold fetchChatHistory. rewrite Hguard.
    destruct (List.length historyMessages =? 0)%nat; simpl;
      rewrite history_notice_shown_app; apply orb_true_r.
Qed.

(** The page after a fetch that failed, when the guard was open. *)
Lemma fetchChatHistory_failed D now fetch st :
  historyLoaded st && history_notice_shown (messages st) = false ->
  (forall historyMessages, fetch <> ok_json historyMessages) ->
  exists reason,
    fetchChatHistory D now fetch st =
      setIsLoadingHistory false
        (setHistoryLoaded false
           (addSystemMessage now (lit "Error loading history: " ++ reason) true
              (Some (lit "hist-err"))
              (setPageError None (setIsLoadingHistory true st)))).
Proof.
  intros Hguard Hfetch. unfold fetchChatHistory. rewrite Hguard.
  destruct fetch as [historyMessages | error status | err];
    [now elim (Hfetch historyMessages) | |]; eexists; reflexivity.
Qed.

(** X25.  A fetch of the history that fails (a response that is not ok, or
    a failed request) keeps the transcript and appends one error notice
    with id "sys-hist-err" reading "Error loading history: " followed by
    the reason; the page is not marked as loaded and is no longer busy
    loading, so the next call fetches again. *)
Theorem history_failure_allows_retry D now fetch st :
  historyLoaded st && history_notice_shown (messages st) = false ->
  (forall historyMessages, fetch <> ok_json historyMessages) ->
  let st' := fetchChatHistory D now fetch st in
  let reason := match fetch with
                | not_ok error status => http_error error status
                | failed err => to_string (message err)
                | ok_json _ => []
                end in
  messages st' =
    messages st ++
    [system_message now (lit "sys-hist-err")
                    (lit "Error loading history: " ++ reason) true] /\
  historyLoaded st' = false /\
  isLoadingHistory st' = false /\
  historyLoaded st' && history_notice_shown (messages st') = false.
Proof.
  intros Hguard Hfetch. cbv zeta. unfold fetchChatHistory. rewrite Hguard.
  destruct fetch as [historyMessages | error status | err];
    [now elim (Hfetch historyMessages) | |]; repeat split.
Qed.

Lemma history_failure_allows_retry_witness :
  historyLoaded Scenarios.fresh_page
  && history_notice_shown (messages Scenarios.fresh_page) = false /\
  messages (fetchChatHistory Samples.clock Scenarios.ten_o_clock
              (receive_history unauthorized_history) Scenarios.fresh_page)
  = [system_message Scenarios.ten_o_clock (lit "sys-hist-err")
       (lit "Error loading history: Unauthorized: You must be logged in to view chat history.")
       true].
Proof.
  split; [reflexivity|].
  assert (Hfetch : forall historyMessages,
             receive_history unauthorized_history <> ok_json historyMessages)
    by (intros historyMessages; discriminate).
  exact (proj1 (history_failure_allows_retry Samples.clock Scenarios.ten_o_clock
                  (receive_history unauthorized_history) Scenarios.fresh_page
                  eq_refl Hfetch)).
Defined.

(** X26.  On a page with an empty transcript, loading the history of a
    logged-in user whose rows come back in ascending created_at order shows
    exactly the reconstructed history, in the route's order, followed by
    one notice: "No previous chat history found." (id "sys-no-hist") when
    there are no rows, "Chat history loaded." (id "sys-hist-loaded")
    otherwise; the page is then marked as loaded. *)
Theorem fresh_page_shows_history D now st hw u rows :
  messages st = [] ->
  historyLoaded st = false ->
  ChatHistoryRoute.getUser hw = Returns (Some u) ->
  ChatHistoryRoute.select hw (Supabase.id u) = ChatHistoryRoute.Data rows ->
  StronglySorted (created_le D) rows ->
  let st' := fetchChatHistory D now
               (receive_history (fst (ChatHistoryRoute.GET hw))) st in
  messages st' =
    ChatHistoryRoute.history rows ++
    [ match rows with
      | [] => system_message now (lit "sys-no-hist")
                             (lit "No previous chat history found.") false
      | _ :: _ => system_message now (lit "sys-hist-loaded")
                                 (lit "Chat history loaded.") false
      end ] /\
  historyLoaded st' = true /\
  isLoadingHistory st' = false.
Proof.
  intros Hempty Hfresh Huser Hselect Hrows. cbv zeta.
  unfold ChatHistoryRoute.GET. rewrite Huser, Hselect. simpl.
  assert (Hguard : historyLoaded st && history_notice_shown (messages st) = false)
    by now rewrite Hfresh.
  change (receive_history (json (ChatHistoryRoute.history_body
                                   (ChatHistoryRoute.history rows))))
    with (@ok_json (list Msg.Message) (ChatHistoryRoute.history rows)).
  destruct (fetchChatHistory_ok D now (ChatHistoryRoute.history rows) st Hguard)
    as (Hmessages & Hloaded & Hbusy).
  rewrite Hmessages, Hloaded, Hbusy, Hempty.
  rewrite mergeHistory_empty_transcript,
    (sort_in_order D _ (history_in_order D rows Hrows)).
  destruct rows as [|r rows']; repeat split.
Qed.

Lemma fresh_page_shows_history_witness :
  messages Scenarios.fresh_page = [] /\
  historyLoaded Scenarios.fresh_page = false /\
  ChatHistoryRoute.getUser Scenarios.stored_history_world
    = Returns (Some Samples.alice) /\
  StronglySorted (created_le Samples.clock) Scenarios.stored_rows /\
  messages (fetchChatHistory Samples.clock Scenarios.a_second_later
              (receive_history (fst (ChatHistoryRoute.GET Scenarios.stored_history_world)))
              Scenarios.fresh_page)
  = ChatHistoryRoute.history Scenarios.stored_rows ++
    [system_message Scenarios.a_second_later (lit "sys-hist-loaded")
                    (lit "Chat history loaded.") false].
Proof.
  split; [reflexivity|]. split; [reflexivity|]. split; [reflexivity|].
  split; [exact stored_rows_ascending|].
  exact (proj1 (fresh_page_shows_history Samples.clock Scenarios.a_second_later
                  Scenarios.fresh_page Scenarios.stored_history_world
                  Samples.alice Scenarios.stored_rows
                  eq_refl eq_refl eq_refl eq_refl stored_rows_ascending)).
Defined.

(** X27.  Failed loads pile up notices with one and the same id: after two
    failed fetches in a row the transcript ends with two error notices that
    both carry the id "sys-hist-err", so message ids are not unique keys of
    the transcript. *)
Theorem repeated_failures_share_an_id D now1 now2 fetch1 fetch2 st :
  historyLoaded st && history_notice_shown (messages st) = false ->
  (forall historyMessages, fetch1 <> ok_json historyMessages) ->
  (forall historyMessages, fetch2 <> ok_json historyMessages) ->
  exists first second,
    messages (fetchChatHistory D now2 fetch2 (fetchChatHistory D now1 fetch1 st))
      = messages st ++ [first; second] /\
    Msg.id first = lit "sys-hist-err" /\
    Msg.id second = lit "sys-hist-err" /\
    ~ NoDup (map Msg.id
               (messages (fetchChatHistory D now2 fetch2
                            (fetchChatHistory D now1 fetch1 st)))).
Proof.
  intros Hguard Hfetch1 Hfetch2.
  destruct (fetchChatHistory_failed D now1 fetch1 st Hguard Hfetch1) as [reason1 H1].
  rewrite H1.
  match goal with
  | |- context [fetchChatHistory D now2 fetch2 ?mid] =>
      destruct (fetchChatHistory_failed D now2 fetch2 mid eq_refl Hfetch2)
        as [reason2 H2]
  end.
  rewrite H2. simpl. rewrite <- app_assoc. simpl.
  eexists _, _. split; [reflexivity|]. split; [reflexivity|]. split; [reflexivity|].
  rewrite map_app. simpl. intros Hnodup.
  apply NoDup_app_remove_l in Hnodup.
  inversion Hnodup as [|? ? Hfresh _]; subst. apply Hfresh. now left.
Qed.

Lemma repeated_failures_share_an_id_witness :
  historyLoaded Scenarios.fresh_page
  && history_notice_shown (messages Scenarios.fresh_page) = false /\
  exists first second,
    messages (fetchChatHistory Samples.clock Scenarios.a_second_later
                (receive_history unauthorized_history)
                (fetchChatHistory Samples.clock Scenarios.ten_o_clock
                   (receive_history unauthorized_history) Scenarios.fresh_page))
      = messages Scenarios.fresh_page ++ [first; second] /\
    Msg.id first = lit "sys-hist-err" /\
    Msg.id second = lit "sys-hist-err".
Proof.
  assert (Hfetch : forall historyMessages,
             receive_history unauthorized_history <> ok_json historyMessages)
    by (intros historyMessages; discriminate).
  split; [reflexivity|].
  destruct (repeated_failures_share_an_id Samples.clock
              Scenarios.ten_o_clock Scenarios.a_second_later
              (receive_history unauthorized_history)
              (receive_history unauthorized_history)
              Scenarios.fresh_page eq_refl Hfetch Hfetch)
    as (first & second & Hm & H1 & H2 & _).
  now exists first, second.
Defined.

End HistoryLoading.

(** ** How the history route can end *)

Section HistoryAnswers.

Import ChatHistoryRoute.

(** X28.  The history route answers with status 200, 401 or 500.  A 200
    answer is the reconstructed history of the rows selected for the
    caller; every other answer carries a non-empty error text. *)
Theorem GET_answers hw :
  (status (fst (GET hw)) = 200 \/ status (fst (GET hw)) = 401 \/
   status (fst (GET hw)) = 500) /\
  (status (fst (GET hw)) = 200 <->
   exists u rows,
     getUser hw = Returns (Some u) /\
     select hw (Supabase.id u) = Data rows /\
     body (fst (GET hw)) = history_body (history rows)) /\
  (status (fst (GET hw)) <> 200 ->
   exists error, body (fst (GET hw)) = error_body error /\ error <> []).
Proof.
  unfold GET. destruct (getUser hw) as [[u|]|e]; simpl.
  - destruct (select hw (Supabase.id u)) as [rows | dbError] eqn:Hsel; simpl.
    + split; [auto|]. split; [|intros H; now elim H].
      split; [intros _; now exists u, rows | reflexivity].
    + split; [auto|]. split.
      * split; [discriminate|]. intros (u' & rows & [= <-] & H & _). congruence.
      * intros _. eexists. split; [reflexivity | discriminate].
  - split; [auto|]. split.
    + split; [discriminate | intros (u & rows & [=] & _)].
    + intros _. eexists. split; [reflexivity | discriminate].
  - split; [auto|]. split.
    + split; [discriminate | intros (u & rows & [=] & _)].
    + intros _. eexists. split; [reflexivity | discriminate].
Qed.

End HistoryAnswers.
